(** * Billing and payment reconciliation of the enrollment backend

    A shallow embedding of the ledger-facing code of [routes/billing.js] and
    [routes/payments.js]: billing generation, checkout creation, payment
    completion, cancellation, the billing details and the two gateway webhooks.

    Conventions of the embedding.
    - The hosted relational store is a record of tables, each a list of rows
      in table order.  A query-builder chain
      [.eq(..).order(..).limit(..)] is a pipeline of [filter], [order_by] and
      [firstn] on those lists.
    - JavaScript numbers that carry money are exact rationals ([Q]); the
      rounding and comparisons of the source are written out on them.
    - A value the source parses with [parseInt]/[parseFloat] is an [option]:
      [None] is a missing, null or non-numeric value (the parse gives NaN).
    - Every [new Date()] / [Date.now()] of one request reads the same clock
      value [now], an input of the handler.
    - Handlers run in a small state-and-exception monad over the store and
      the logger output; a [throw] keeps the writes made before it, as the
      source has no transaction around its calls.
    - The store answers every query: the [error] of a call is set only where
      the data decide it ([single()] on other than one row, [maybeSingle()]
      on several rows).  The two inserts of [generateBilling], whose failure
      the source rolls back by hand, take their error as an input.
    - The stored procedures of the database, the HMAC, the calendar and the
      gateway call are parameters of the handlers that use them. *)

From Stdlib Require Import ZArith QArith Qround Qminmax Qabs List String Ascii Bool Lia.
From Stdlib Require Import DecimalString FinFun Sorted.
Import ListNotations.

Local Open Scope string_scope.
Local Open Scope list_scope.
Local Open Scope Z_scope.

Infix "+++" := String.append (at level 60, right associativity).

(** ** JavaScript helpers *)

(** [Math.round(x * 100) / 100] on exact rationals; [Math.round] rounds
    half-way cases towards plus infinity. *)
Definition Math_round (x : Q) : Z := Qfloor (x + (1 # 2)).

Definition round2 (x : Q) : Q := Qmake (Math_round (x * 100)) 100.

(** [Math.max(0, x)] *)
Definition Math_max0 (x : Q) : Q := Qmax 0 x.

Definition Qleb (a b : Q) : bool := Qle_bool a b.
Definition Qltb (a b : Q) : bool := negb (Qle_bool b a).

(** [Math.abs] *)
Definition Math_abs (x : Q) : Q := Qabs x.

(** Truthiness of a string: non-empty. *)
Definition truthy (s : string) : bool :=
  match s with EmptyString => false | _ => true end.

Definition truthy_opt (s : option string) : bool :=
  match s with Some s => truthy s | None => false end.

(** [parseFloat(x) || 0] *)
Definition parseFloat_or0 (x : option Q) : Q :=
  match x with Some q => q | None => 0%Q end.

(** [parseInt(x) || d]: NaN and 0 are both falsy. *)
Definition parseInt_or (x : option Z) (d : Z) : Z :=
  match x with
  | Some n => if n =? 0 then d else n
  | None => d
  end.

(** [n.toString()] for an integer. *)
Definition toString (n : Z) : string := NilZero.string_of_int (Z.to_int n).

(** [s.startsWith(p)] *)
Fixpoint startsWith (p s : string) : bool :=
  match p, s with
  | EmptyString, _ => true
  | String a p', String b s' => Ascii.eqb a b && startsWith p' s'
  | String _ _, EmptyString => false
  end.

(** [s.includes(p)] *)
Fixpoint includes (p s : string) : bool :=
  startsWith p s ||
  match s with
  | EmptyString => false
  | String _ s' => includes p s'
  end.

(** [s.split(c)] for a one-character separator: the pieces between the
    separators, empty pieces included. *)
Fixpoint split_go (c : ascii) (s : string) (cur : string) : list string :=
  match s with
  | EmptyString => [cur]
  | String a s' =>
      if Ascii.eqb a c then cur :: split_go c s' EmptyString
      else split_go c s' (String.append cur (String a EmptyString))
  end.

Definition split (c : ascii) (s : string) : list string := split_go c s EmptyString.

(** ** Query-builder primitives of the store client *)

Section Query.
Context {A : Type}.

(** Stable ascending sort on an integer key: rows with equal keys stay in
    table order. *)
Fixpoint insert_by (key : A -> Z) (x : A) (l : list A) : list A :=
  match l with
  | [] => [x]
  | y :: l' => if key x <=? key y then x :: y :: l' else y :: insert_by key x l'
  end.

Definition order_by (key : A -> Z) (l : list A) : list A :=
  fold_right (insert_by key) [] l.

(** [.limit(n)] *)
Definition limit (n : nat) (l : list A) : list A := firstn n l.

(** [.single()]: the row when exactly one matches, an error otherwise. *)
Definition single (l : list A) : option A :=
  match l with
  | [x] => Some x
  | _ => None
  end.

(** [.maybeSingle()]: [data] is the row when exactly one matches and null
    when none or several match (several is reported as an error). *)
Definition maybeSingle (l : list A) : option A :=
  match l with
  | [x] => Some x
  | _ => None
  end.

Definition maybeSingle_error (l : list A) : bool :=
  match l with
  | _ :: _ :: _ => true
  | _ => false
  end.

(** [.update(f).eq(..)]: every matching row is rewritten. *)
Definition update_where (p : A -> bool) (f : A -> A) (t : list A) : list A :=
  map (fun r => if p r then f r else r) t.

(** [.delete().eq(..)] *)
Definition delete_where (p : A -> bool) (t : list A) : list A :=
  filter (fun r => negb (p r)) t.

End Query.

(** Rows paired with their position in the table. *)
Fixpoint indexed_from {A : Type} (i : nat) (t : list A) : list (nat * A) :=
  match t with
  | [] => []
  | r :: t' => (i, r) :: indexed_from (S i) t'
  end.

(** [.update(f).eq(..).order(key).limit(n)]: of the matching rows, taken in
    ascending [key] order, only the first [n] are rewritten. *)
Definition update_ordered_limit {A : Type}
    (p : A -> bool) (key : A -> Z) (n : nat) (f : A -> A) (t : list A) : list A :=
  let chosen :=
    map fst (limit n (order_by (fun ir => key (snd ir))
                        (filter (fun ir => p (snd ir)) (indexed_from 0 t)))) in
  map (fun ir => if existsb (Nat.eqb (fst ir)) chosen then f (snd ir) else snd ir)
      (indexed_from 0 t).

(** [rows.length > 0] *)
Definition nonempty {A : Type} (l : list A) : bool :=
  match l with [] => false | _ :: _ => true end.

(** Fresh serial key of a table. *)
Definition next_id {A : Type} (key : A -> Z) (t : list A) : Z :=
  1 + fold_right (fun r m => Z.max (key r) m) 0 t.

Definition opt_Z_eqb (a : option Z) (b : Z) : bool :=
  match a with Some x => x =? b | None => false end.

(** ** Data model: the ledger tables *)

Definition Time := Z.   (* a clock reading, milliseconds *)
Definition Date := Z.   (* a calendar day, as a day number *)

Record TuitionScheme := {
  scheme_id : Z;
  scheme_name : string;
  scheme_type : string;
  scheme_amount : Q;
  scheme_downpayment : option Q;
  scheme_monthly_payment : option Q;
  scheme_months : option Z;
  scheme_discount : option Q
}.

Record Enrollment := {
  enrollment_id : Z;
  enr_student_id : Z;
  enr_program_id : Z;
  enr_semester_id : Z;
  enr_scheme_id : option Z;
  enr_status : string
}.

Record Account := {
  account_id : Z;
  acc_student_id : Z;
  total_balance : Q;
  last_updated : Time
}.

Record EnrollmentFee := {
  fee_id : Z;
  fee_enrollment_id : Z;
  fee_type : string;
  fee_description : string;
  fee_amount : Q;
  is_paid : bool;
  fee_paid_at : option Time
}.

Record PaymentInstallment := {
  installment_id : Z;
  inst_enrollment_id : Z;
  installment_number : Z;
  inst_amount : Q;
  due_date : Date;
  inst_status : string;
  inst_paid_at : option Time;
  inst_payment_id : option Z
}.

Record Payment := {
  payment_id : Z;
  pay_account_id : Z;
  pay_enrollment_id : option Z;
  pay_amount : Q;
  pay_status : string;
  payment_type : string;
  for_semester_id : option Z;
  pay_created_by : option Z;
  payment_date : Time;
  reference_no : option string;
  method : option string;
  idempotency_key : option string
}.

Record PaymentTransaction := {
  ptx_payment_id : Z;
  paymongo_payment_id : string;
  ptx_amount : Q;
  ptx_status : string;
  checkout_url : string;
  expires_at : Time;
  ptx_paid_at : option Time;
  ptx_payment_method : option string
}.

Record AccountTransaction := {
  atx_account_id : Z;
  atx_payment_id : Z;
  transaction_type : string;
  atx_amount : Q;
  balance_before : Q;
  balance_after : Q;
  atx_description : string;
  atx_created_by : option Z;
  atx_payment_date : Time
}.

Record Student := {
  student_id : Z;
  year_level : Z
}.

Record CourseSubject := {
  cs_subject_id : Z;
  cs_program_id : Z;
  cs_semester_id : Z;
  cs_year_level : Z
}.

Record EnrollmentSubject := {
  es_enrollment_id : Z;
  es_subject_id : Z;
  es_status : string
}.

Record Store := {
  tuition_schemes : list TuitionScheme;
  enrollments : list Enrollment;
  accounts : list Account;
  enrollment_fees : list EnrollmentFee;
  payment_installments : list PaymentInstallment;
  payments : list Payment;
  payment_transactions : list PaymentTransaction;
  account_transactions : list AccountTransaction;
  students : list Student;
  course_subjects : list CourseSubject;
  enrollment_subjects : list EnrollmentSubject
}.

Definition with_accounts (s : Store) (t : list Account) : Store :=
  {| tuition_schemes := tuition_schemes s; enrollments := enrollments s;
     accounts := t; enrollment_fees := enrollment_fees s;
     payment_installments := payment_installments s; payments := payments s;
     payment_transactions := payment_transactions s;
     account_transactions := account_transactions s; students := students s;
     course_subjects := course_subjects s;
     enrollment_subjects := enrollment_subjects s |}.

Definition with_enrollment_fees (s : Store) (t : list EnrollmentFee) : Store :=
  {| tuition_schemes := tuition_schemes s; enrollments := enrollments s;
     accounts := accounts s; enrollment_fees := t;
     payment_installments := payment_installments s; payments := payments s;
     payment_transactions := payment_transactions s;
     account_transactions := account_transactions s; students := students s;
     course_subjects := course_subjects s;
     enrollment_subjects := enrollment_subjects s |}.

Definition with_payment_installments (s : Store) (t : list PaymentInstallment) : Store :=
  {| tuition_schemes := tuition_schemes s; enrollments := enrollments s;
     accounts := accounts s; enrollment_fees := enrollment_fees s;
     payment_installments := t; payments := payments s;
     payment_transactions := payment_transactions s;
     account_transactions := account_transactions s; students := students s;
     course_subjects := course_subjects s;
     enrollment_subjects := enrollment_subjects s |}.

Definition with_payments (s : Store) (t : list Payment) : Store :=
  {| tuition_schemes := tuition_schemes s; enrollments := enrollments s;
     accounts := accounts s; enrollment_fees := enrollment_fees s;
     payment_installments := payment_installments s; payments := t;
     payment_transactions := payment_transactions s;
     account_transactions := account_transactions s; students := students s;
     course_subjects := course_subjects s;
     enrollment_subjects := enrollment_subjects s |}.

Definition with_payment_transactions (s : Store) (t : list PaymentTransaction) : Store :=
  {| tuition_schemes := tuition_schemes s; enrollments := enrollments s;
     accounts := accounts s; enrollment_fees := enrollment_fees s;
     payment_installments := payment_installments s; payments := payments s;
     payment_transactions := t;
     account_transactions := account_transactions s; students := students s;
     course_subjects := course_subjects s;
     enrollment_subjects := enrollment_subjects s |}.

Definition with_account_transactions (s : Store) (t : list AccountTransaction) : Store :=
  {| tuition_schemes := tuition_schemes s; enrollments := enrollments s;
     accounts := accounts s; enrollment_fees := enrollment_fees s;
     payment_installments := payment_installments s; payments := payments s;
     payment_transactions := payment_transactions s;
     account_transactions := t; students := students s;
     course_subjects := course_subjects s;
     enrollment_subjects := enrollment_subjects s |}.

Definition with_enrollment_subjects (s : Store) (t : list EnrollmentSubject) : Store :=
  {| tuition_schemes := tuition_schemes s; enrollments := enrollments s;
     accounts := accounts s; enrollment_fees := enrollment_fees s;
     payment_installments := payment_installments s; payments := payments s;
     payment_transactions := payment_transactions s;
     account_transactions := account_transactions s; students := students s;
     course_subjects := course_subjects s;
     enrollment_subjects := t |}.

(** ** Field updates written by the handlers *)

Definition payment_set_status (st : string) (p : Payment) : Payment :=
  {| payment_id := payment_id p; pay_account_id := pay_account_id p;
     pay_enrollment_id := pay_enrollment_id p; pay_amount := pay_amount p;
     pay_status := st; payment_type := payment_type p;
     for_semester_id := for_semester_id p; pay_created_by := pay_created_by p;
     payment_date := payment_date p; reference_no := reference_no p;
     method := method p; idempotency_key := idempotency_key p |}.

Definition payment_set_failed (m : string) (p : Payment) : Payment :=
  {| payment_id := payment_id p; pay_account_id := pay_account_id p;
     pay_enrollment_id := pay_enrollment_id p; pay_amount := pay_amount p;
     pay_status := "Failed"; payment_type := payment_type p;
     for_semester_id := for_semester_id p; pay_created_by := pay_created_by p;
     payment_date := payment_date p; reference_no := reference_no p;
     method := Some m; idempotency_key := idempotency_key p |}.

Definition payment_set_completed (now : Time) (ref m : string) (p : Payment) : Payment :=
  {| payment_id := payment_id p; pay_account_id := pay_account_id p;
     pay_enrollment_id := pay_enrollment_id p; pay_amount := pay_amount p;
     pay_status := "Completed"; payment_type := payment_type p;
     for_semester_id := for_semester_id p; pay_created_by := pay_created_by p;
     payment_date := now; reference_no := Some ref;
     method := Some m; idempotency_key := idempotency_key p |}.

Definition ptx_set_status (st : string) (t : PaymentTransaction) : PaymentTransaction :=
  {| ptx_payment_id := ptx_payment_id t; paymongo_payment_id := paymongo_payment_id t;
     ptx_amount := ptx_amount t; ptx_status := st; checkout_url := checkout_url t;
     expires_at := expires_at t; ptx_paid_at := ptx_paid_at t;
     ptx_payment_method := ptx_payment_method t |}.

Definition ptx_set_failed (m : string) (t : PaymentTransaction) : PaymentTransaction :=
  {| ptx_payment_id := ptx_payment_id t; paymongo_payment_id := paymongo_payment_id t;
     ptx_amount := ptx_amount t; ptx_status := "failed"; checkout_url := checkout_url t;
     expires_at := expires_at t; ptx_paid_at := ptx_paid_at t;
     ptx_payment_method := Some m |}.

Definition ptx_set_paid (now : Time) (m : string) (t : PaymentTransaction) : PaymentTransaction :=
  {| ptx_payment_id := ptx_payment_id t; paymongo_payment_id := paymongo_payment_id t;
     ptx_amount := ptx_amount t; ptx_status := "paid"; checkout_url := checkout_url t;
     expires_at := expires_at t; ptx_paid_at := Some now;
     ptx_payment_method := Some m |}.

Definition fee_set_paid (now : Time) (f : EnrollmentFee) : EnrollmentFee :=
  {| fee_id := fee_id f; fee_enrollment_id := fee_enrollment_id f;
     fee_type := fee_type f; fee_description := fee_description f;
     fee_amount := fee_amount f; is_paid := true; fee_paid_at := Some now |}.

Definition account_set_balance (now : Time) (b : Q) (a : Account) : Account :=
  {| account_id := account_id a; acc_student_id := acc_student_id a;
     total_balance := b; last_updated := now |}.

Definition installment_set_paid (now : Time) (pid : Z) (i : PaymentInstallment)
  : PaymentInstallment :=
  {| installment_id := installment_id i; inst_enrollment_id := inst_enrollment_id i;
     installment_number := installment_number i; inst_amount := inst_amount i;
     due_date := due_date i; inst_status := "paid"; inst_paid_at := Some now;
     inst_payment_id := Some pid |}.

(** ** The handler monad: store, logger and exceptions *)

Inductive Level := info | warn | error.

Record World := {
  store : Store;
  logged : list (Level * string)
}.

Inductive Result (A : Type) :=
| Ok (a : A)
| Throw (msg : string).
Arguments Ok {A} a.
Arguments Throw {A} msg.

Definition Eff (A : Type) := World -> Result A * World.

Definition ret {A} (a : A) : Eff A := fun w => (Ok a, w).

Definition bind {A B} (m : Eff A) (f : A -> Eff B) : Eff B :=
  fun w => match m w with
           | (Ok a, w') => f a w'
           | (Throw e, w') => (Throw e, w')
           end.

Definition throw {A} (msg : string) : Eff A := fun w => (Throw msg, w).

(** [try { m } catch (e) { h e }] *)
Definition try_catch {A} (m : Eff A) (h : string -> Eff A) : Eff A :=
  fun w => match m w with
           | (Ok a, w') => (Ok a, w')
           | (Throw e, w') => h e w'
           end.

Definition query {A} (f : Store -> A) : Eff A := fun w => (Ok (f (store w)), w).

Definition exec (f : Store -> Store) : Eff unit :=
  fun w => (Ok tt, {| store := f (store w); logged := logged w |}).

Definition logger (l : Level) (msg : string) : Eff unit :=
  fun w => (Ok tt, {| store := store w; logged := logged w ++ [(l, msg)] |}).

Declare Scope eff_scope.
Delimit Scope eff_scope with eff.
Notation "x <- m ;; k" := (bind m (fun x => k))
  (at level 100, m at next level, right associativity) : eff_scope.
Notation "m ;;; k" := (bind m (fun _ => k))
  (at level 100, right associativity) : eff_scope.
Local Open Scope eff_scope.

(** ** Results and HTTP responses *)

(** What [processPaymentCompletion] returns; a missing [already_processed]
    field reads as false. *)
Record CompletionResult := {
  success : bool;
  already_processed : bool
}.

(** The plan returned by [generateBilling] (the descriptive text fields are
    left out). *)
Record BillingPlan := {
  bp_enrollment_id : Z;
  bp_account_id : Z;
  bp_scheme_type : string;
  bp_total_amount : Q;
  bp_discount : Q;
  bp_fee_id : Z;
  bp_downpayment : Q;
  bp_monthly_payment : Q;
  bp_number_of_months : Z;
  bp_installments : list PaymentInstallment;
  bp_generated_at : Time;
  bp_generated_by : option Z
}.

(** The body of a successful [create-checkout] answer. *)
Record CheckoutInfo := {
  co_payment_id : Z;
  co_checkout_url : string;
  co_checkout_id : string;
  co_amount : Q;
  co_payment_type : string;
  co_description : string;
  co_is_mock : bool
}.

Inductive Body :=
| Json_error (msg : string)
| Json_fields (fields : list (string * string))
| Json_billing (plan : BillingPlan)
| Json_checkout (c : CheckoutInfo)
| Json_completed (pid : Z) (new_balance : Q) (payment_method : string)
| Redirect (url : string)
| Text (msg : string).

Record Response := {
  status_code : Z;
  body : Body
}.

(** [res.status(code).json({ error: msg })] *)
Definition res_error (code : Z) (msg : string) : Response :=
  {| status_code := code; body := Json_error msg |}.

(** [res.json(..)] *)
Definition res_json (b : Body) : Response :=
  {| status_code := 200; body := b |}.

(** [res.redirect(url)] *)
Definition res_redirect (url : string) : Response :=
  {| status_code := 302; body := Redirect url |}.

(** A stored procedure of the database, called with [supabase.rpc]: it
    answers with data or with an error and may rewrite the store. *)
Definition Rpc (A : Type) := Store -> Result A * Store.

Definition supabase_rpc {A} (f : Rpc A) : Eff (Result A) :=
  fun w => let (r, s') := f (store w) in
           (Ok r, {| store := s'; logged := logged w |}).

(** * routes/billing.js *)

Module Billing.

(** Store failures that [generateBilling] handles explicitly: the error, if
    any, reported by the insert of the fee row and by the insert of the
    installment rows. *)
Record Faults := {
  fee_insert_error : option string;
  installment_insert_error : option string
}.

Definition no_faults : Faults :=
  {| fee_insert_error := None; installment_insert_error := None |}.

(** Process environment read by the billing router. *)
Record Env := {
  PAYMONGO_ENABLED : bool;                  (* PAYMONGO_ENABLED === "true" *)
  PAYMONGO_SECRET_KEY : option string;
  PAYMONGO_WEBHOOK_SECRET : option string;
  BASE_URL : string;
  FRONTEND_URL : string
}.

(** The fields of a gateway event that the handlers read:
    [data.attributes.type], and from [data.attributes.data] the metadata,
    the session id and the source type of the first payment.  The ids of the
    metadata are decimal strings; [None] is a missing or empty one. *)
Record Event := {
  event_type : option string;
  meta_payment_category : option string;
  meta_payment_id : option Z;
  meta_enrollment_id : option Z;
  session_id : string;
  source_type : option string
}.

(** A request to the webhook: the signature header, the raw body and the
    event as the handler reads it from [req.body] (no field at all, hence no
    event type, when the body is left unparsed). *)
Record WebhookRequest := {
  paymongo_signature : option string;
  raw_body : string;
  event : Event
}.

(** [eventType === "checkout_session.payment.paid"] *)
Definition is_paid_event (ev : Event) : bool :=
  match event_type ev with
  | Some ty => (ty =? "checkout_session.payment.paid")%string
  | None => false
  end.

(** [metadata.payment_category === "enrollment"] *)
Definition is_enrollment_category (ev : Event) : bool :=
  match meta_payment_category ev with
  | Some c => (c =? "enrollment")%string
  | None => false
  end.

Definition fee_of_enrollment (eid : Z) (f : EnrollmentFee) : bool :=
  fee_enrollment_id f =? eid.

Definition installment_of_enrollment (eid : Z) (i : PaymentInstallment) : bool :=
  inst_enrollment_id i =? eid.

Definition is_pending (i : PaymentInstallment) : bool :=
  (inst_status i =? "pending")%string.

(** The embedded select [tuition_schemes ( .. )]: the scheme the enrollment
    refers to, or null. *)
Definition scheme_of (e : Enrollment) (s : Store) : option TuitionScheme :=
  match enr_scheme_id e with
  | Some sid => find (fun t => scheme_id t =? sid) (tuition_schemes s)
  | None => None
  end.

(** [Math.round((baseAmount - discount) * 100) / 100] *)
Definition totalAmount (scheme : TuitionScheme) : Q :=
  let baseAmount := scheme_amount scheme in
  let discount := parseFloat_or0 (scheme_discount scheme) in
  round2 (baseAmount - discount).

(** The two existence checks of step 2 of [generateBilling]. *)
Definition existingFees (eid : Z) (s : Store) : list EnrollmentFee :=
  limit 1 (filter (fee_of_enrollment eid) (enrollment_fees s)).

Definition existingInstallments (eid : Z) (s : Store) : list PaymentInstallment :=
  limit 1 (filter (installment_of_enrollment eid) (payment_installments s)).

(** [.insert([row]).select().single()] on [enrollment_fees]. *)
Definition insert_fee (eid : Z) (ty descr : string) (amount : Q) (s : Store)
  : EnrollmentFee * Store :=
  let row := {| fee_id := next_id fee_id (enrollment_fees s);
                fee_enrollment_id := eid; fee_type := ty;
                fee_description := descr; fee_amount := amount;
                is_paid := false; fee_paid_at := None |} in
  (row, with_enrollment_fees s (enrollment_fees s ++ [row])).

(** The rows pushed by the loop [for (let i = 1; i <= months; i++)]. *)
Definition installment_rows (add_months : Time -> Z -> Date) (now : Time)
    (eid : Z) (monthlyPayment : Q) (months : Z) (first_id : Z)
  : list PaymentInstallment :=
  map (fun k : nat =>
         {| installment_id := first_id + Z.of_nat k - 1;
            inst_enrollment_id := eid;
            installment_number := Z.of_nat k;
            inst_amount := monthlyPayment;
            due_date := add_months now (Z.of_nat k);
            inst_status := "pending";
            inst_paid_at := None;
            inst_payment_id := None |})
      (seq 1 (Z.to_nat months)).

Section WithCollaborators.

(** The stored procedures and library calls the router relies on. *)
Variable process_payment_transaction :
  Z -> Z -> option Z -> Q -> string -> Rpc unit.
Variable initialize_account_balance : Z -> string -> Z -> Q -> Rpc Z.
(** [d = new Date(now); d.setMonth(d.getMonth() + i)], as a day. *)
Variable add_months : Time -> Z -> Date.
(** [crypto.createHmac("sha256", secret).update(body).digest("hex")] *)
Variable hmac_sha256_hex : string -> string -> string.
(** [axios.post(".../checkout_sessions", ..)]: the checkout id and url, or
    the error of the gateway. *)
Variable post_checkout_sessions :
  Z -> string -> Z -> Z -> string -> Result (string * string).

Definition createEnrollmentSubjects (eid : Z) (enrollmentDetails : Enrollment)
  : Eff unit :=
  try_catch
    (existingSubjects <-
       query (fun s => limit 1 (filter (fun es => es_enrollment_id es =? eid)
                                       (enrollment_subjects s))) ;;
     if nonempty existingSubjects then
       logger info "Enrollment subjects already exist"
     else
       student <-
         query (fun s => single (filter (fun st => student_id st =?
                                           enr_student_id enrollmentDetails)
                                        (students s))) ;;
       match student with
       | None => logger error "Student not found for subject creation"
       | Some student =>
           subjects <-
             query (fun s =>
                      filter (fun c =>
                                (cs_program_id c =? enr_program_id enrollmentDetails)
                                && (cs_semester_id c =? enr_semester_id enrollmentDetails)
                                && (cs_year_level c =? year_level student))
                             (course_subjects s)) ;;
           match subjects with
           | [] => logger warn "No subjects found for enrollment"
           | _ =>
               let enrollmentSubjects :=
                 map (fun c => {| es_enrollment_id := eid;
                                  es_subject_id := cs_subject_id c;
                                  es_status := "Enrolled" |}) subjects in
               exec (fun s => with_enrollment_subjects s
                                (enrollment_subjects s ++ enrollmentSubjects)) ;;;
               logger info "Enrollment subjects created successfully"
           end
       end)
    (fun _ => logger error "Error in createEnrollmentSubjects").

Definition processPaymentCompletion (pid : Z) (payment : Payment)
  : Eff CompletionResult :=
  try_catch
    (if (pay_status payment =? "Completed")%string then
       logger info "Payment already completed - skipping duplicate processing" ;;;
       ret {| success := true; already_processed := true |}
     else
       logger info "Starting payment processing" ;;;
       r <- supabase_rpc (process_payment_transaction pid (pay_account_id payment)
                   (pay_enrollment_id payment) (pay_amount payment)
                   (payment_type payment)) ;;
       match r with
       | Throw txError =>
           logger error "Transaction processing failed" ;;;
           throw txError
       | Ok _ =>
           logger info "Payment transaction completed successfully" ;;;
           enrollmentDetails <-
             query (fun s => single (filter (fun e => opt_Z_eqb (pay_enrollment_id payment)
                                                        (enrollment_id e))
                                            (enrollments s))) ;;
           match enrollmentDetails, pay_enrollment_id payment with
           | Some details, Some eid =>
               if (enr_status details =? "Enrolled")%string
                  && ((payment_type payment =? "full_payment")%string
                      || (payment_type payment =? "downpayment")%string)
               then
                 try_catch (createEnrollmentSubjects eid details)
                   (fun _ => logger error
                               "Error creating enrollment subjects (non-critical)")
               else ret tt
           | _, _ => ret tt
           end ;;;
           logger info "Payment processed successfully" ;;;
           ret {| success := true; already_processed := false |}
       end)
    (fun e => logger error "Error processing payment completion" ;;; throw e).

Definition generateBilling (now : Time) (faults : Faults) (eid : Z)
    (created_by : option Z) : Eff BillingPlan :=
  logger info "Generating billing for enrollment" ;;;
  enrollment <- query (fun s => single (filter (fun e => enrollment_id e =? eid)
                                               (enrollments s))) ;;
  match enrollment with
  | None => logger error "Enrollment not found" ;;; throw "Enrollment not found"
  | Some enrollment =>
  scheme <- query (scheme_of enrollment) ;;
  match scheme with
  | None => throw "No tuition scheme found for this enrollment"
  | Some scheme =>
  existingFees <- query (existingFees eid) ;;
  existingInstallments <- query (existingInstallments eid) ;;
  if nonempty existingFees || nonempty existingInstallments
  then throw "Billing already generated for this enrollment"
  else
  let discount := parseFloat_or0 (scheme_discount scheme) in
  let totalAmount := totalAmount scheme in
  if Qleb totalAmount 0 then throw "Invalid billing amount"
  else
  let student_id := enr_student_id enrollment in
  accountResult <- supabase_rpc (initialize_account_balance eid (scheme_name scheme)
                          student_id totalAmount) ;;
  match accountResult with
  | Throw accountError =>
      logger error "Error initializing account" ;;; throw accountError
  | Ok account_id =>
  logger info "Account balance initialized" ;;;
  result <-
    (if (scheme_type scheme =? "full_payment")%string then
       match fee_insert_error faults with
       | Some _ =>
           logger error "Error creating full payment fee" ;;;
           throw "Failed to generate billing"
       | None =>
           fee <- (fun w => let (row, s') :=
                              insert_fee eid "Tuition"
                                ("Full Payment - " +++ scheme_name scheme)
                                totalAmount (store w) in
                            (Ok row, {| store := s'; logged := logged w |})) ;;
           ret {| bp_enrollment_id := eid; bp_account_id := account_id;
                  bp_scheme_type := scheme_type scheme;
                  bp_total_amount := totalAmount; bp_discount := discount;
                  bp_fee_id := fee_id fee; bp_downpayment := 0;
                  bp_monthly_payment := 0; bp_number_of_months := 0;
                  bp_installments := [];
                  bp_generated_at := now; bp_generated_by := created_by |}
       end
     else if (scheme_type scheme =? "installment")%string then
       let downpayment := parseFloat_or0 (scheme_downpayment scheme) in
       let monthlyPayment := parseFloat_or0 (scheme_monthly_payment scheme) in
       let months := parseInt_or (scheme_months scheme) 4 in
       let totalInstallments :=
         round2 (downpayment + monthlyPayment * inject_Z months) in
       (if Qltb (1 # 100) (Math_abs (totalInstallments - totalAmount)) then
          logger warn "Installment amounts do not match total"
        else ret tt) ;;;
       match fee_insert_error faults with
       | Some _ =>
           logger error "Error creating downpayment" ;;;
           throw "Failed to generate downpayment"
       | None =>
           downpaymentFee <-
             (fun w => let (row, s') :=
                         insert_fee eid "Downpayment"
                           ("Downpayment - " +++ scheme_name scheme)
                           downpayment (store w) in
                       (Ok row, {| store := s'; logged := logged w |})) ;;
           match installment_insert_error faults with
           | Some _ =>
               logger error "Error creating installments" ;;;
               exec (fun s => with_enrollment_fees s
                                (delete_where
                                   (fun f => fee_id f =? fee_id downpaymentFee)
                                   (enrollment_fees s))) ;;;
               throw "Failed to generate installments"
           | None =>
               createdInstallments <-
                 query (fun s => installment_rows add_months now eid monthlyPayment
                                   months
                                   (next_id installment_id (payment_installments s))) ;;
               exec (fun s => with_payment_installments s
                                (payment_installments s ++ createdInstallments)) ;;;
               ret {| bp_enrollment_id := eid; bp_account_id := account_id;
                      bp_scheme_type := scheme_type scheme;
                      bp_total_amount := totalAmount; bp_discount := discount;
                      bp_fee_id := fee_id downpaymentFee;
                      bp_downpayment := downpayment;
                      bp_monthly_payment := monthlyPayment;
                      bp_number_of_months := months;
                      bp_installments := createdInstallments;
                      bp_generated_at := now; bp_generated_by := created_by |}
           end
       end
     else throw ("Invalid scheme type: " +++ scheme_type scheme)) ;;
  logger info "Billing generated successfully" ;;;
  ret result
  end end end.

(** The error-to-status mapping of the [generate-billing] route. *)
Definition billing_error_status (msg : string) : Z :=
  if includes "already generated" msg then 400
  else if includes "not found" msg then 404
  else 500.

(** [router.post("/generate-billing")]; [!enrollment_id] holds for a
    missing id and for 0. *)
Definition post_generate_billing (now : Time) (faults : Faults)
    (req_enrollment_id req_created_by : option Z) : Eff Response :=
  try_catch
    (match req_enrollment_id with
     | None => ret (res_error 400 "Enrollment ID is required")
     | Some eid =>
         if eid =? 0 then ret (res_error 400 "Enrollment ID is required")
         else
           result <- generateBilling now faults eid req_created_by ;;
           ret (res_json (Json_billing result))
     end)
    (fun msg =>
       logger error "Error generating billing" ;;;
       ret (res_error (billing_error_status msg)
              (if truthy msg then msg else "Internal server error"))).

(** Step 3 of [create-checkout]: what to pay, from the scheme and the paid
    state.  Either the early answer of the route or the amount, the
    description and the payment type. *)
Definition determine_payment (eid : Z) (scheme : TuitionScheme) (s : Store)
  : Response + (Q * string * string) :=
  if (scheme_type scheme =? "full_payment")%string then
    let fees := filter (fun f => fee_of_enrollment eid f && negb (is_paid f))
                       (enrollment_fees s) in
    match fees with
    | [] => inl (res_error 400
              "No unpaid fees found. All payments completed or billing not generated.")
    | _ => inr (fold_left (fun sum fee => (sum + fee_amount fee)%Q) fees 0%Q,
                "Full Payment - " +++ scheme_name scheme, "full_payment")
    end
  else if (scheme_type scheme =? "installment")%string then
    match maybeSingle (filter (fun f => fee_of_enrollment eid f
                                        && (fee_type f =? "Downpayment")%string)
                              (enrollment_fees s)) with
    | None => inl (res_error 400
                "Billing not generated. Please generate billing first.")
    | Some downpaymentFee =>
        if negb (is_paid downpaymentFee) then
          inr (fee_amount downpaymentFee,
               "Downpayment - " +++ scheme_name scheme, "downpayment")
        else
          match maybeSingle
                  (limit 1 (order_by installment_number
                              (filter (fun i => installment_of_enrollment eid i
                                                && is_pending i)
                                      (payment_installments s)))) with
          | None => inl (res_error 400
                      "No pending installments found. All payments completed.")
          | Some installment =>
              inr (inst_amount installment,
                   "Installment " +++ toString (installment_number installment)
                     +++ "/" +++ match scheme_months scheme with
                                 | Some m => toString m
                                 | None => "null"
                                 end
                     +++ " - " +++ scheme_name scheme,
                   "installment")
          end
    end
  else inl (res_error 400 "Invalid scheme type").

Definition new_payment (s : Store) (now : Time) (account eid : Z) (amount : Q)
    (ty : string) (semester : Z) (created_by : option Z) : Payment :=
  {| payment_id := next_id payment_id (payments s);
     pay_account_id := account; pay_enrollment_id := Some eid;
     pay_amount := amount; pay_status := "Pending"; payment_type := ty;
     for_semester_id := Some semester; pay_created_by := created_by;
     payment_date := now; reference_no := None; method := None;
     idempotency_key := Some (toString eid +++ "-" +++ ty +++ "-" +++ toString now) |}.

Definition CHECKOUT_EXPIRY_HOURS : Z := 24.

Definition new_transaction (now : Time) (pid : Z) (checkout_id : string)
    (amount : Q) (url : string) : PaymentTransaction :=
  {| ptx_payment_id := pid; paymongo_payment_id := checkout_id;
     ptx_amount := amount; ptx_status := "pending"; checkout_url := url;
     expires_at := now + CHECKOUT_EXPIRY_HOURS * 60 * 60 * 1000;
     ptx_paid_at := None; ptx_payment_method := None |}.

(** [router.post("/create-checkout")] *)
Definition post_create_checkout (env : Env) (now : Time)
    (req_enrollment_id req_created_by : option Z) : Eff Response :=
  try_catch
    (match req_enrollment_id with
     | None => ret (res_error 400 "Enrollment ID is required")
     | Some eid =>
     if eid =? 0 then ret (res_error 400 "Enrollment ID is required")
     else
     logger info "Creating payment checkout" ;;;
     enrollment <- query (fun s => single (filter (fun e => enrollment_id e =? eid)
                                                  (enrollments s))) ;;
     match enrollment with
     | None =>
         logger error "Enrollment not found" ;;;
         ret (res_error 404 "Enrollment not found")
     | Some enrollment =>
     scheme <- query (scheme_of enrollment) ;;
     let student_id := enr_student_id enrollment in
     rows <- query (fun s => filter (fun a => acc_student_id a =? student_id)
                                    (accounts s)) ;;
     if maybeSingle_error rows then
       logger error "Error fetching account" ;;;
       ret (res_error 400 "JSON object requested, multiple (or no) rows returned")
     else
     match maybeSingle rows with
     | None => ret (res_error 400 "Account not found. Please generate billing first.")
     | Some account =>
     match scheme with
     | None => throw "Cannot read properties of null (reading 'scheme_type')"
     | Some scheme =>
     choice <- query (determine_payment eid scheme) ;;
     match choice with
     | inl early => ret early
     | inr (amount, description, payment_type) =>
     let amount := round2 amount in
     if Qleb amount 0 then ret (res_error 400 "Invalid payment amount")
     else
     payment <- query (fun s => new_payment s now (account_id account) eid amount
                                  payment_type (enr_semester_id enrollment)
                                  req_created_by) ;;
     exec (fun s => with_payments s (payments s ++ [payment])) ;;;
     let pid := payment_id payment in
     if PAYMONGO_ENABLED env && truthy_opt (PAYMONGO_SECRET_KEY env) then
       let amountInCentavos := Math_round (amount * 100) in
       match post_checkout_sessions amountInCentavos description pid eid
               payment_type with
       | Throw _ =>
           logger error "PayMongo error" ;;;
           ret (res_error 500 "Payment gateway error")
       | Ok (checkout_id, url) =>
           exec (fun s => with_payment_transactions s
                            (payment_transactions s
                               ++ [new_transaction now pid checkout_id amount url])) ;;;
           logger info "Created PayMongo checkout" ;;;
           ret (res_json (Json_checkout
                  {| co_payment_id := pid; co_checkout_url := url;
                     co_checkout_id := checkout_id; co_amount := amount;
                     co_payment_type := payment_type;
                     co_description := description;
                     co_is_mock := negb (PAYMONGO_ENABLED env) |}))
       end
     else
       let url := BASE_URL env +++ "/payment/mock-checkout?payment_id=" +++ toString pid in
       let checkout_id := "mock_checkout_" +++ toString pid +++ "_" +++ toString now in
       exec (fun s => with_payment_transactions s
                        (payment_transactions s
                           ++ [new_transaction now pid checkout_id amount url])) ;;;
       logger info "Created OFFLINE mock checkout" ;;;
       ret (res_json (Json_checkout
              {| co_payment_id := pid; co_checkout_url := url;
                 co_checkout_id := checkout_id; co_amount := amount;
                 co_payment_type := payment_type;
                 co_description := description;
                 co_is_mock := negb (PAYMONGO_ENABLED env) |}))
     end end end end end)
    (fun _ =>
       logger error "Unexpected error creating checkout" ;;;
       ret (res_error 500 "Internal server error")).

(** [router.get("/payment/success")].  For a payment that is already
    completed the first redirect is sent without returning; the handler
    goes on, the later [res.redirect] throws because the answer is
    already out, and the catch block logs it. *)
Definition get_payment_success (env : Env) (req_payment_id : option Z)
  : Eff Response :=
  match req_payment_id with
  | None => ret {| status_code := 400; body := Text "Missing payment_id" |}
  | Some pid =>
      logger info "Payment success callback received" ;;;
      payment <- query (fun s => single (filter (fun p => payment_id p =? pid)
                                                (payments s))) ;;
      match payment with
      | None =>
          logger error "Payment not found in success callback" ;;;
          ret (res_redirect (FRONTEND_URL env +++
                 "/student/payment?status=error&message=Payment not found"))
      | Some payment =>
          if (pay_status payment =? "Completed")%string then
            logger info "Payment already completed" ;;;
            try_catch
              (processPaymentCompletion pid payment ;;;
               logger info "Payment processed successfully via success callback" ;;;
               throw "Cannot set headers after they are sent to the client")
              (fun _ => logger error "Error in payment success callback") ;;;
            ret (res_redirect (FRONTEND_URL env +++
                   "/payment.html?status=success&payment_id=" +++ toString pid))
          else
            try_catch
              (processPaymentCompletion pid payment ;;;
               logger info "Payment processed successfully via success callback" ;;;
               ret (res_redirect (FRONTEND_URL env +++
                      "/student/payment?status=success&payment_id=" +++ toString pid)))
              (fun _ =>
                 logger error "Error in payment success callback" ;;;
                 ret (res_redirect (FRONTEND_URL env +++
                        "/student/payment?status=error&message=Processing failed")))
      end
  end.

(** [router.get("/payment/cancel")] *)
Definition get_payment_cancel (env : Env) (req_payment_id : option Z)
  : Eff Response :=
  logger info "Payment cancelled" ;;;
  match req_payment_id with
  | Some pid =>
      exec (fun s => with_payments s
                       (update_where (fun p => payment_id p =? pid)
                          (payment_set_status "Cancelled") (payments s))) ;;;
      exec (fun s => with_payment_transactions s
                       (update_where (fun t => ptx_payment_id t =? pid)
                          (ptx_set_status "cancelled") (payment_transactions s)))
  | None => ret tt
  end ;;;
  ret (res_redirect (FRONTEND_URL env +++ "/student/payment?status=cancelled")).

(** The signature the gateway delivered: the value of the first
    comma-separated part that starts with [s=]. *)
Definition actualSignature (signature : string) : option string :=
  match find (startsWith "s=") (split "," signature) with
  | Some part => nth_error (split "=" part) 1
  | None => None
  end.

(** The signature check at the head of the webhook: [None] lets the
    request through, [Some r] is the rejection. *)
Definition verify_signature (env : Env) (req : WebhookRequest)
  : Eff (option Response) :=
  match PAYMONGO_WEBHOOK_SECRET env with
  | Some secret =>
      if PAYMONGO_ENABLED env && truthy secret then
        match paymongo_signature req with
        | None =>
            logger error "Missing webhook signature" ;;;
            ret (Some (res_error 401 "Unauthorized - missing signature"))
        | Some signature =>
            if negb (truthy signature) then
              logger error "Missing webhook signature" ;;;
              ret (Some (res_error 401 "Unauthorized - missing signature"))
            else
              let computedSignature := hmac_sha256_hex secret (raw_body req) in
              match actualSignature signature with
              | Some actual =>
                  if truthy actual && (actual =? computedSignature)%string then
                    logger info "Webhook signature verified successfully" ;;;
                    ret None
                  else
                    logger error "Invalid webhook signature" ;;;
                    ret (Some (res_error 401 "Unauthorized - invalid signature"))
              | None =>
                  logger error "Invalid webhook signature" ;;;
                  ret (Some (res_error 401 "Unauthorized - invalid signature"))
              end
        end
      else ret None
  | None => ret None
  end.

(** [router.post("/webhook/paymongo")] *)
Definition post_webhook_paymongo (env : Env) (req : WebhookRequest)
  : Eff Response :=
  try_catch
    (rejected <- verify_signature env req ;;
     match rejected with
     | Some r => ret r
     | None =>
         logger info "PayMongo webhook received" ;;;
         if is_paid_event (event req) then
           if negb (is_enrollment_category (event req)) then
             logger info "Ignoring non-enrollment payment webhook" ;;;
             ret (res_json (Json_fields [("received", "true"); ("skipped", "true")]))
           else
             match meta_payment_id (event req) with
             | None =>
                 logger error "No payment_id in webhook metadata" ;;;
                 ret (res_error 400 "Invalid webhook data")
             | Some pid =>
                 if pid =? 0 then
                   logger error "No payment_id in webhook metadata" ;;;
                   ret (res_error 400 "Invalid webhook data")
                 else
                   payment <- query (fun s => single (filter (fun p => payment_id p =? pid)
                                                             (payments s))) ;;
                   match payment with
                   | None =>
                       logger error "Payment not found" ;;;
                       ret (res_error 404 "Payment not found")
                   | Some payment =>
                       processPaymentCompletion pid payment ;;;
                       logger info "Webhook processed successfully" ;;;
                       ret (res_json (Json_fields [("received", "true")]))
                   end
             end
         else ret (res_json (Json_fields [("received", "true")]))
     end)
    (fun _ =>
       logger error "Webhook error" ;;;
       ret (res_error 500 "Webhook processing failed")).

(** [handleEnrollmentPayment], exported to the payments router. *)
Definition handleEnrollmentPayment (ev : Event) : Eff unit :=
  try_catch
    (match meta_payment_id ev with
     | None =>
         logger error "No payment_id in enrollment webhook metadata" ;;;
         throw "Invalid webhook metadata"
     | Some pid =>
         if pid =? 0 then
           logger error "No payment_id in enrollment webhook metadata" ;;;
           throw "Invalid webhook metadata"
         else
           logger info "Handling enrollment payment from webhook" ;;;
           payment <- query (fun s => single (filter (fun p => payment_id p =? pid)
                                                     (payments s))) ;;
           match payment with
           | None =>
               logger error "Enrollment payment not found" ;;;
               throw "Payment not found"
           | Some payment =>
               processPaymentCompletion pid payment ;;;
               logger info "Enrollment payment handled successfully"
           end
     end)
    (fun e =>
       logger error "Error handling enrollment payment from webhook" ;;;
       throw e).

End WithCollaborators.
End Billing.

(** * routes/payments.js *)

Module Payments.

(** Process environment of the payments router.  The webhook secret is part
    of the environment although no handler of this router reads it. *)
Record Env := {
  PAYMONGO_SECRET_KEY : option string;
  PAYMONGO_PUBLIC_KEY : option string;
  PAYMONGO_WEBHOOK_SECRET : option string
}.

(** [process.env.PAYMONGO_SECRET_KEY && process.env.PAYMONGO_PUBLIC_KEY !== 'offline'] *)
Definition PAYMONGO_ENABLED (env : Env) : bool :=
  truthy_opt (PAYMONGO_SECRET_KEY env)
  && negb match PAYMONGO_PUBLIC_KEY env with
          | Some k => (k =? "offline")%string
          | None => false
          end.

(** A request to [POST /webhook]: the signature header (never read) and the
    parsed event. *)
Record WebhookRequest := {
  paymongo_signature : option string;
  event : Billing.Event
}.

(** The body of [POST /mock-complete/:payment_id]; absent fields take the
    defaults of the destructuring. *)
Record MockRequest := {
  req_success : option bool;
  req_payment_method : option string;
  req_completed_by : option Z
}.

(** [const { success = true, payment_method = 'mock_payment' } = req.body] *)
Definition mock_success (req : MockRequest) : bool :=
  match req_success req with Some b => b | None => true end.

Definition mock_payment_method (req : MockRequest) : string :=
  match req_payment_method req with Some m => m | None => "mock_payment" end.

(** [payment.enrollment_id] is truthy: present and not 0. *)
Definition has_enrollment (p : Payment) : bool :=
  match pay_enrollment_id p with
  | Some e => negb (e =? 0)
  | None => false
  end.

(** [metadata.enrollment_id && metadata.payment_category === 'enrollment'] *)
Definition is_enrollment_payment (ev : Billing.Event) : bool :=
  match Billing.meta_enrollment_id ev with
  | Some _ => true
  | None => false
  end
  && Billing.is_enrollment_category ev.

Definition is_type (p : Payment) (ty : string) : bool :=
  (payment_type p =? ty)%string.

(** The ledger writes shared, line for line, by the tuition branch of the
    webhook and by the mock completion: fees for an [enrollment] payment,
    the balance for a [balance] or [monthly] payment and, for a [monthly]
    payment with an enrollment, the first pending installment by due date. *)
Definition apply_payment_type (now : Time) (pid : Z) (payment : Payment)
    (account : Account) : Eff unit :=
  let amount := pay_amount payment in
  let previous_balance := total_balance account in
  if is_type payment "enrollment" then
    exec (fun s => with_enrollment_fees s
                     (update_where
                        (fun f => opt_Z_eqb (pay_enrollment_id payment) (fee_enrollment_id f)
                                  && negb (is_paid f))
                        (fee_set_paid now) (enrollment_fees s)))
  else if is_type payment "balance" || is_type payment "monthly" then
    let new_balance := Math_max0 (previous_balance - amount) in
    exec (fun s => with_accounts s
                     (update_where (fun a => account_id a =? account_id account)
                        (account_set_balance now new_balance) (accounts s))) ;;;
    if is_type payment "monthly" && has_enrollment payment then
      exec (fun s => with_payment_installments s
                       (update_ordered_limit
                          (fun i => opt_Z_eqb (pay_enrollment_id payment)
                                              (inst_enrollment_id i)
                                    && Billing.is_pending i)
                          due_date 1 (installment_set_paid now pid)
                          (payment_installments s)))
    else ret tt
  else ret tt.

Definition log_transaction (now : Time) (pid : Z) (payment : Payment)
    (account : Account) (descr : string) (actor : option Z) : Eff unit :=
  let amount := pay_amount payment in
  let previous_balance := total_balance account in
  exec (fun s => with_account_transactions s
                   (account_transactions s ++
                      [{| atx_account_id := account_id account;
                          atx_payment_id := pid;
                          transaction_type := "payment";
                          atx_amount := amount;
                          balance_before := previous_balance;
                          balance_after := Math_max0 (previous_balance - amount);
                          atx_description := descr;
                          atx_created_by := actor;
                          atx_payment_date := now |}])).

(** The select with the embedded account: the payment row and the account
    its [account_id] refers to. *)
Definition select_payment_with_account (pid : Z) (s : Store)
  : option (Payment * option Account) :=
  match single (filter (fun p => payment_id p =? pid) (payments s)) with
  | Some p => Some (p, find (fun a => account_id a =? pay_account_id p) (accounts s))
  | None => None
  end.

(** [router.post('/mock-complete/:payment_id')] *)
Definition post_mock_complete (env : Env) (now : Time) (pid : Z) (req : MockRequest)
  : Eff Response :=
  if PAYMONGO_ENABLED env then
    ret (res_error 403 "Mock payments not allowed in production mode")
  else
    try_catch
      (let success := mock_success req in
       let payment_method := mock_payment_method req in
       logger info "Mock payment completion" ;;;
       found <- query (select_payment_with_account pid) ;;
       match found with
       | None => ret (res_error 404 "Payment not found")
       | Some (payment, joined) =>
           if success then
             match joined with
             | None => throw "Cannot read properties of null (reading 'total_balance')"
             | Some account =>
                 let amount := pay_amount payment in
                 let previous_balance := total_balance account in
                 exec (fun s => with_payments s
                                  (update_where (fun p => payment_id p =? pid)
                                     (payment_set_completed now
                                        ("MOCK_" +++ toString pid +++ "_" +++ toString now)
                                        payment_method)
                                     (payments s))) ;;;
                 exec (fun s => with_payment_transactions s
                                  (update_where (fun t => ptx_payment_id t =? pid)
                                     (ptx_set_paid now payment_method)
                                     (payment_transactions s))) ;;;
                 apply_payment_type now pid payment account ;;;
                 log_transaction now pid payment account
                   ("Mock Payment - " +++ payment_type payment +++ " via "
                      +++ payment_method)
                   (match req_completed_by req with
                    | Some u => if u =? 0 then pay_created_by payment else Some u
                    | None => pay_created_by payment
                    end) ;;;
                 ret (res_json (Json_completed pid
                                  (Math_max0 (previous_balance - amount))
                                  payment_method))
             end
           else
             exec (fun s => with_payments s
                              (update_where (fun p => payment_id p =? pid)
                                 (payment_set_failed payment_method) (payments s))) ;;;
             exec (fun s => with_payment_transactions s
                              (update_where (fun t => ptx_payment_id t =? pid)
                                 (ptx_set_failed payment_method)
                                 (payment_transactions s))) ;;;
             ret (res_json (Json_fields [("success", "false");
                                         ("message", "Mock payment failed")]))
       end)
      (fun _ =>
         logger error "Error in mock payment completion" ;;;
         ret (res_error 500 "Internal server error")).

(** [router.post('/cancel/:payment_id')] *)
Definition post_cancel (pid : Z) : Eff Response :=
  try_catch
    (payment <- query (fun s => single (filter (fun p => payment_id p =? pid)
                                               (payments s))) ;;
     match payment with
     | None => ret (res_error 404 "Payment not found")
     | Some payment =>
         if negb (pay_status payment =? "Pending")%string then
           ret (res_error 400 ("Cannot cancel payment with status: "
                                 +++ pay_status payment))
         else
           exec (fun s => with_payments s
                            (update_where (fun p => payment_id p =? pid)
                               (payment_set_status "Cancelled") (payments s))) ;;;
           exec (fun s => with_payment_transactions s
                            (update_where (fun t => ptx_payment_id t =? pid)
                               (ptx_set_status "cancelled")
                               (payment_transactions s))) ;;;
           ret (res_json (Json_fields [("success", "true");
                                       ("message", "Payment cancelled successfully")]))
     end)
    (fun _ =>
       logger error "Error cancelling payment" ;;;
       ret (res_error 500 "Internal server error")).

Section WithCollaborators.

Variable process_payment_transaction :
  Z -> Z -> option Z -> Q -> string -> Rpc unit.

(** [router.post('/webhook')].  The signature check is commented out in
    the source; neither the header nor the environment is read. *)
Definition post_webhook (env : Env) (now : Time) (req : WebhookRequest)
  : Eff Response :=
  try_catch
    (let ev := event req in
     logger info "PayMongo webhook received" ;;;
     if Billing.is_paid_event ev then
       let payment_method := match Billing.source_type ev with
                             | Some m => if truthy m then m else "card"
                             | None => "card"
                             end in
       match Billing.meta_payment_id ev with
       | None =>
           logger error "No payment_id in webhook metadata" ;;;
           ret (res_error 400 "Missing payment_id")
       | Some pid =>
           if is_enrollment_payment ev then
             logger info "ENROLLMENT payment detected" ;;;
             Billing.handleEnrollmentPayment process_payment_transaction ev ;;;
             ret (res_json (Json_fields [("received", "true");
                                         ("type", "enrollment")]))
           else
             logger info "TUITION payment - using existing logic" ;;;
             found <- query (select_payment_with_account pid) ;;
             match found with
             | None =>
                 logger error "Payment not found" ;;;
                 ret (res_error 404 "Payment not found")
             | Some (payment, joined) =>
                 match joined with
                 | None =>
                     throw "Cannot read properties of null (reading 'total_balance')"
                 | Some account =>
                     exec (fun s => with_payments s
                                      (update_where (fun p => payment_id p =? pid)
                                         (payment_set_completed now
                                            (Billing.session_id ev) payment_method)
                                         (payments s))) ;;;
                     exec (fun s => with_payment_transactions s
                                      (update_where (fun t => ptx_payment_id t =? pid)
                                         (ptx_set_paid now payment_method)
                                         (payment_transactions s))) ;;;
                     apply_payment_type now pid payment account ;;;
                     log_transaction now pid payment account
                       ("Payment via " +++ payment_method +++ " - "
                          +++ payment_type payment)
                       (pay_created_by payment) ;;;
                     logger info "Payment completed via webhook" ;;;
                     ret (res_json (Json_fields [("success", "true");
                                                 ("message", "Webhook processed")]))
                 end
             end
       end
     else
       logger info "Unhandled webhook event" ;;;
       ret (res_json (Json_fields [("success", "true"); ("message", "Event noted")])))
    (fun _ =>
       logger error "Webhook processing error" ;;;
       ret (res_error 500 "Webhook processing failed")).

End WithCollaborators.
End Payments.

(** * routes/payments.js: checkout creation *)

Module PaymentsCheckout.

(** The body of [POST /create-checkout] of the payments router. *)
Record Request := {
  rq_enrollment_id : option Z;
  rq_student_id : option Z;
  rq_payment_type : option string;          (* defaults to 'enrollment' *)
  rq_custom_amount : option Q;
  rq_created_by : option Z
}.

(** A truthy id: present and not 0. *)
Definition truthy_id (x : option Z) : option Z :=
  match x with
  | Some n => if n =? 0 then None else Some n
  | None => None
  end.

Definition payment_type_of (req : Request) : string :=
  match rq_payment_type req with Some ty => ty | None => "enrollment" end.

(** Step 1: the account of the student, created with balance 0 when there is
    none.  [inl] is the 400 answer for an account query that fails. *)
Definition get_or_create_account (now : Time) (sid : Z)
  : Eff (Response + (Z * Q)) :=
  rows <- query (fun s => filter (fun a => acc_student_id a =? sid) (accounts s)) ;;
  if maybeSingle_error rows then
    logger error "Error fetching account" ;;;
    ret (inl (res_error 400 "JSON object requested, multiple (or no) rows returned"))
  else
    match maybeSingle rows with
    | None =>
        newAccount <- query (fun s => {| account_id := next_id account_id (accounts s);
                                         acc_student_id := sid; total_balance := 0;
                                         last_updated := now |}) ;;
        exec (fun s => with_accounts s (accounts s ++ [newAccount])) ;;;
        ret (inr (account_id newAccount, 0%Q))
    | Some account => ret (inr (account_id account, total_balance account))
    end.

(** Step 3: the amount to pay and its description; [inr None] is an amount
    left undefined by an unknown payment type. *)
Definition amount_to_pay (req : Request) (sid : Z) (current_balance : Q) (s : Store)
  : Response + option (Q * string) :=
  let payment_type := payment_type_of req in
  if (payment_type =? "enrollment")%string then
    match truthy_id (rq_enrollment_id req) with
    | None => inl (res_error 400 "Enrollment ID is required for enrollment payments")
    | Some eid =>
        let fees := filter (fun f => Billing.fee_of_enrollment eid f && negb (is_paid f))
                           (enrollment_fees s) in
        inr (Some (fold_left (fun sum fee => (sum + fee_amount fee)%Q) fees 0%Q,
                   "Enrollment Payment - Enrollment ID: " +++ toString eid))
    end
  else if (payment_type =? "balance")%string then
    if Qleb current_balance 0 then inl (res_error 400 "No outstanding balance to pay")
    else
      match rq_custom_amount req with
      | Some custom =>
          if Qltb 0 custom then
            inr (Some (Qmin custom current_balance,
                       "Partial Balance Payment - Student ID: " +++ toString sid))
          else
            inr (Some (current_balance,
                       "Full Balance Payment - Student ID: " +++ toString sid))
      | None =>
          inr (Some (current_balance,
                     "Full Balance Payment - Student ID: " +++ toString sid))
      end
  else if (payment_type =? "monthly")%string then
    match truthy_id (rq_enrollment_id req) with
    | None => inl (res_error 400 "Enrollment ID is required for monthly payments")
    | Some eid =>
        match maybeSingle
                (limit 1 (order_by due_date
                            (filter (fun i => Billing.installment_of_enrollment eid i
                                              && Billing.is_pending i)
                                    (payment_installments s)))) with
        | None => inl (res_error 400 "No pending installments found")
        | Some installment =>
            inr (Some (inst_amount installment,
                       "Monthly Installment Payment - Enrollment ID: " +++ toString eid))
        end
    end
  else inr None.

Definition new_payment (s : Store) (now : Time) (account : Z) (req : Request)
    (amount : Q) (semester : option Z) : Payment :=
  {| payment_id := next_id payment_id (payments s);
     pay_account_id := account;
     pay_enrollment_id := truthy_id (rq_enrollment_id req);
     pay_amount := amount; pay_status := "Pending";
     payment_type := payment_type_of req;
     for_semester_id := semester; pay_created_by := rq_created_by req;
     payment_date := now; reference_no := None; method := None;
     idempotency_key := None |}.

Section WithCollaborators.

(** [paymongoClient.post('/checkout_sessions', ..)] *)
Variable post_checkout_sessions :
  Z -> string -> Z -> string -> Result (string * string).
(** The semester of the most recent enrollment of a student, by the
    [payment_date] order of the source (a column outside the model). *)
Variable recent_semester : Z -> Store -> option Z.

(** Step 2: the semester the payment is for. *)
Definition semester_for (req : Request) (sid : Z) (s : Store) : option Z :=
  match truthy_id (rq_enrollment_id req) with
  | Some eid =>
      match maybeSingle (filter (fun e => enrollment_id e =? eid) (enrollments s)) with
      | Some enrollment => Some (enr_semester_id enrollment)
      | None => None
      end
  | None =>
      if (payment_type_of req =? "balance")%string then recent_semester sid s else None
  end.

(** [router.post('/create-checkout')] *)
Definition post_create_checkout (env : Payments.Env) (base_url : option string)
    (now : Time) (req : Request) : Eff Response :=
  try_catch
    (match truthy_id (rq_student_id req) with
     | None => ret (res_error 400 "Student ID is required")
     | Some sid =>
     logger info "Creating payment checkout" ;;;
     found <- get_or_create_account now sid ;;
     match found with
     | inl early => ret early
     | inr (account_id, current_balance) =>
     for_semester_id <- query (semester_for req sid) ;;
     priced <- query (amount_to_pay req sid current_balance) ;;
     match priced with
     | inl early => ret early
     | inr None => ret (res_error 400 "Invalid payment amount")
     | inr (Some (amount, description)) =>
     if Qleb amount 0 then ret (res_error 400 "Invalid payment amount")
     else
     payment <- query (fun s => new_payment s now account_id req amount for_semester_id) ;;
     exec (fun s => with_payments s (payments s ++ [payment])) ;;;
     let pid := payment_id payment in
     if Payments.PAYMONGO_ENABLED env then
       match post_checkout_sessions (Math_round (amount * 100)) description pid
               (payment_type_of req) with
       | Throw _ =>
           logger error "PayMongo error" ;;;
           ret (res_error 500 "Payment gateway error")
       | Ok (checkout_id, url) =>
           exec (fun s => with_payment_transactions s
                            (payment_transactions s
                               ++ [Billing.new_transaction now pid checkout_id amount url])) ;;;
           ret (res_json (Json_checkout
                  {| co_payment_id := pid; co_checkout_url := url;
                     co_checkout_id := checkout_id; co_amount := amount;
                     co_payment_type := payment_type_of req;
                     co_description := description;
                     co_is_mock := negb (Payments.PAYMONGO_ENABLED env) |}))
       end
     else
       let url := match base_url with
                  | Some b => if truthy b then b else "http://localhost:3000"
                  | None => "http://localhost:3000"
                  end +++ "/payment/mock-checkout?payment_id=" +++ toString pid in
       let checkout_id := "mock_checkout_" +++ toString pid +++ "_" +++ toString now in
       exec (fun s => with_payment_transactions s
                        (payment_transactions s
                           ++ [Billing.new_transaction now pid checkout_id amount url])) ;;;
       logger info "Created OFFLINE mock checkout" ;;;
       ret (res_json (Json_checkout
              {| co_payment_id := pid; co_checkout_url := url;
                 co_checkout_id := checkout_id; co_amount := amount;
                 co_payment_type := payment_type_of req;
                 co_description := description;
                 co_is_mock := negb (Payments.PAYMONGO_ENABLED env) |}))
     end end end)
    (fun _ =>
       logger error "Unexpected error creating checkout" ;;;
       ret (res_error 500 "Internal server error")).

End WithCollaborators.
End PaymentsCheckout.

(** * routes/billing.js: the billing details of an enrollment *)

Module BillingDetails.

(** [installment_summary] of the answer, with the two fields the handler adds
    to [summary] for an installment scheme. *)
Record InstallmentSummary := {
  total_installment_amount : Q;
  paid_installments_amount : Q;
  unpaid_installments_amount : Q;
  pending_installments_count : Z;
  total_installments_count : Z;
  paid_installments_count : Z;
  next_due_date : option Date;
  next_due_amount : option Q;
  downpayment_status : string;
  downpayment_amount : Q
}.

(** The answer of the handler; [payment_status], a column outside the model,
    is left out. *)
Record Details := {
  bd_enrollment_id : Z;
  bd_enrollment_status : string;
  bd_scheme_type : string;
  bd_base_amount : Q;
  bd_discount : Q;
  bd_total_amount : Q;
  bd_fees : list EnrollmentFee;
  bd_total_paid : Q;
  bd_total_balance : Q;
  bd_payment_progress_percentage : Z;
  bd_is_fully_paid : bool;
  bd_number_of_months : option Z;
  bd_installments : option (list PaymentInstallment);
  bd_installment_summary : option InstallmentSummary
}.

Inductive Reply :=
| Reply_error (status : Z) (msg : string)
| Reply_details (d : Details).

(** [rows.reduce((sum, r) => sum + parseFloat(r.amount), 0) || 0] *)
Definition sum_amounts {A : Type} (amount : A -> Q) (rows : list A) : Q :=
  fold_left (fun sum r => (sum + amount r)%Q) rows 0%Q.

Definition is_paid_installment (i : PaymentInstallment) : bool :=
  (inst_status i =? "paid")%string.

Definition is_downpayment (f : EnrollmentFee) : bool :=
  (fee_type f =? "Downpayment")%string.

(** The computation between the three queries and [res.json]. *)
Definition details (eid : Z) (enrollment : Enrollment) (scheme : TuitionScheme)
    (fees : list EnrollmentFee) (installments : list PaymentInstallment) : Details :=
  let paidFees := sum_amounts fee_amount (filter is_paid fees) in
  let totalInstallments := sum_amounts inst_amount installments in
  let paidInstallments :=
    sum_amounts inst_amount (filter is_paid_installment installments) in
  let unpaidInstallments := (totalInstallments - paidInstallments)%Q in
  let pendingInstallmentsCount :=
    Z.of_nat (List.length (filter Billing.is_pending installments)) in
  let baseAmount := scheme_amount scheme in
  let discount := parseFloat_or0 (scheme_discount scheme) in
  let totalAmount := Billing.totalAmount scheme in
  let totalPaid := round2 (paidFees + paidInstallments) in
  let totalBalance := round2 (totalAmount - totalPaid) in
  let installment := (scheme_type scheme =? "installment")%string in
  let downpayment := parseFloat_or0 (scheme_downpayment scheme) in
  let months := parseInt_or (scheme_months scheme) 0 in
  let nextDueInstallment := find Billing.is_pending installments in
  {| bd_enrollment_id := eid;
     bd_enrollment_status := enr_status enrollment;
     bd_scheme_type := scheme_type scheme;
     bd_base_amount := baseAmount;
     bd_discount := discount;
     bd_total_amount := totalAmount;
     bd_fees := fees;
     bd_total_paid := totalPaid;
     bd_total_balance := totalBalance;
     bd_payment_progress_percentage :=
       if Qltb 0 totalAmount then Math_round (totalPaid / totalAmount * 100) else 0;
     bd_is_fully_paid := Qleb totalBalance (1 # 100);
     bd_number_of_months := if installment then Some months else None;
     bd_installments := if installment then Some installments else None;
     bd_installment_summary :=
       if installment then
         Some {| total_installment_amount := totalInstallments;
                 paid_installments_amount := paidInstallments;
                 unpaid_installments_amount := unpaidInstallments;
                 pending_installments_count := pendingInstallmentsCount;
                 total_installments_count := months;
                 paid_installments_count := months - pendingInstallmentsCount;
                 next_due_date := option_map due_date nextDueInstallment;
                 next_due_amount := option_map inst_amount nextDueInstallment;
                 downpayment_status :=
                   match find is_downpayment fees with
                   | Some f => if is_paid f then "Paid" else "Unpaid"
                   | None => "Unpaid"
                   end;
                 downpayment_amount := downpayment |}
       else None |}.

(** [router.get("/billing/:enrollment_id")] *)
Definition get_billing (eid : Z) : Eff Reply :=
  try_catch
    (enrollment <- query (fun s => single (filter (fun e => enrollment_id e =? eid)
                                                  (enrollments s))) ;;
     match enrollment with
     | None => ret (Reply_error 404 "Enrollment not found")
     | Some enrollment =>
         scheme <- query (Billing.scheme_of enrollment) ;;
         fees <- query (fun s => filter (Billing.fee_of_enrollment eid)
                                        (enrollment_fees s)) ;;
         installments <-
           query (fun s => order_by installment_number
                             (filter (Billing.installment_of_enrollment eid)
                                     (payment_installments s))) ;;
         match scheme with
         | None => throw "Cannot read properties of null (reading 'amount')"
         | Some scheme =>
             ret (Reply_details (details eid enrollment scheme fees installments))
         end
     end)
    (fun _ =>
       logger error "Error fetching billing details" ;;;
       ret (Reply_error 500 "Internal server error")).

End BillingDetails.

(** * Stored procedures and sample data *)

(** Modelled from the spec: the stored procedure [initialize_account_balance]
    is defined in the database, not in the repository.  It creates or
    locates the account of the student and sets its balance to the total
    amount, and answers with the account id. *)
Definition initialize_account_balance_spec (now : Time)
    (eid : Z) (name : string) (sid : Z) (total : Q) : Rpc Z :=
  fun s =>
    match find (fun a => acc_student_id a =? sid) (accounts s) with
    | Some a =>
        (Ok (account_id a),
         with_accounts s (update_where (fun a => acc_student_id a =? sid)
                            (account_set_balance now total) (accounts s)))
    | None =>
        let a := {| account_id := next_id account_id (accounts s);
                    acc_student_id := sid; total_balance := total;
                    last_updated := now |} in
        (Ok (account_id a), with_accounts s (accounts s ++ [a]))
    end.

(** Modelled from the spec: the stored procedure
    [process_payment_transaction] is defined in the database, not in the
    repository.  It sets the payment to [Completed] and its transaction to
    [paid] and settles by payment type: the unpaid fees for [enrollment] and
    [full_payment], the downpayment fee for [downpayment], the earliest
    pending installment by number for [installment] and [monthly], the
    balance floored at zero for [balance]. *)
Definition process_payment_transaction_spec (now : Time)
    (pid account : Z) (eid : option Z) (amount : Q) (ty : string) : Rpc unit :=
  fun s =>
    let s1 := with_payments s
                (update_where (fun p => payment_id p =? pid)
                   (payment_set_status "Completed") (payments s)) in
    let s2 := with_payment_transactions s1
                (update_where (fun t => ptx_payment_id t =? pid)
                   (ptx_set_status "paid") (payment_transactions s1)) in
    let s3 :=
      if ((ty =? "enrollment") || (ty =? "full_payment"))%string then
        with_enrollment_fees s2
          (update_where (fun f => opt_Z_eqb eid (fee_enrollment_id f) && negb (is_paid f))
             (fee_set_paid now) (enrollment_fees s2))
      else if (ty =? "downpayment")%string then
        with_enrollment_fees s2
          (update_where (fun f => opt_Z_eqb eid (fee_enrollment_id f)
                                  && (fee_type f =? "Downpayment")%string)
             (fee_set_paid now) (enrollment_fees s2))
      else if ((ty =? "installment") || (ty =? "monthly"))%string then
        with_payment_installments s2
          (update_ordered_limit
             (fun i => opt_Z_eqb eid (inst_enrollment_id i) && Billing.is_pending i)
             installment_number 1 (installment_set_paid now pid)
             (payment_installments s2))
      else if (ty =? "balance")%string then
        with_accounts s2
          (update_where (fun a => account_id a =? account)
             (fun a => account_set_balance now (Math_max0 (total_balance a - amount)) a)
             (accounts s2))
      else s2 in
    (Ok tt, s3).

(** A calendar for the samples: months of thirty days. *)
Definition add_months_30 (now : Time) (i : Z) : Date :=
  now / 86400000 + 30 * i.

Definition hmac_sample (secret body : string) : string :=
  secret +++ ":" +++ body.

Definition gateway_sample (cents : Z) (descr : string) (pid eid : Z) (ty : string)
  : Result (string * string) :=
  Ok ("cs_" +++ toString pid, "https://checkout.example/" +++ toString pid).

Definition empty_store : Store :=
  {| tuition_schemes := []; enrollments := []; accounts := [];
     enrollment_fees := []; payment_installments := []; payments := [];
     payment_transactions := []; account_transactions := []; students := [];
     course_subjects := []; enrollment_subjects := [] |}.

Definition world_of (s : Store) : World := {| store := s; logged := [] |}.

Definition sample_account : Account :=
  {| account_id := 1; acc_student_id := 10; total_balance := 500;
     last_updated := 0 |}.

Definition sample_payment (pid : Z) (eid : option Z) (amount : Q) (st ty : string)
  : Payment :=
  {| payment_id := pid; pay_account_id := 1; pay_enrollment_id := eid;
     pay_amount := amount; pay_status := st; payment_type := ty;
     for_semester_id := None; pay_created_by := Some 99; payment_date := 0;
     reference_no := None; method := None; idempotency_key := None |}.

Definition sample_installment (n : Z) (due : Date) : PaymentInstallment :=
  {| installment_id := n; inst_enrollment_id := 5; installment_number := n;
     inst_amount := 2000; due_date := due; inst_status := "pending";
     inst_paid_at := None; inst_payment_id := None |}.

(** A ledger with one account of balance 500 and the given payments and
    installments. *)
Definition sample_ledger (ps : list Payment) (insts : list PaymentInstallment) : Store :=
  with_payment_installments
    (with_payments (with_accounts empty_store [sample_account]) ps) insts.

Definition paid_event (category : option string) (pid : Z) (eid : option Z)
  : Billing.Event :=
  {| Billing.event_type := Some "checkout_session.payment.paid";
     Billing.meta_payment_category := category;
     Billing.meta_payment_id := Some pid;
     Billing.meta_enrollment_id := eid;
     Billing.session_id := "cs_test";
     Billing.source_type := Some "gcash" |}.

Definition tuition_request (pid : Z) : Payments.WebhookRequest :=
  {| Payments.paymongo_signature := None;
     Payments.event := paid_event (Some "tuition") pid None |}.

Definition offline_env : Payments.Env :=
  {| Payments.PAYMONGO_SECRET_KEY := None;
     Payments.PAYMONGO_PUBLIC_KEY := None;
     Payments.PAYMONGO_WEBHOOK_SECRET := None |}.

Definition live_env : Payments.Env :=
  {| Payments.PAYMONGO_SECRET_KEY := Some "sk_live";
     Payments.PAYMONGO_PUBLIC_KEY := Some "pk_live";
     Payments.PAYMONGO_WEBHOOK_SECRET := Some "whsec" |}.

Definition billing_env : Billing.Env :=
  {| Billing.PAYMONGO_ENABLED := true;
     Billing.PAYMONGO_SECRET_KEY := Some "sk_live";
     Billing.PAYMONGO_WEBHOOK_SECRET := Some "whsec";
     Billing.BASE_URL := "http://localhost:3000";
     Billing.FRONTEND_URL := "http://localhost:3000" |}.

Definition default_mock : Payments.MockRequest :=
  {| Payments.req_success := None; Payments.req_payment_method := None;
     Payments.req_completed_by := None |}.

(** The balance of an account, and the status of a payment, in a store. *)
Definition balance_of (aid : Z) (s : Store) : option Q :=
  option_map total_balance (find (fun a => account_id a =? aid) (accounts s)).

Definition status_of (pid : Z) (s : Store) : option string :=
  option_map pay_status (find (fun p => payment_id p =? pid) (payments s)).

Definition paid_numbers (eid : Z) (s : Store) : list Z :=
  map installment_number
      (filter (fun i => (inst_enrollment_id i =? eid)
                        && (inst_status i =? "paid")%string)
              (payment_installments s)).

(** The signature delivered with a webhook request, if any, and whether it
    equals the one computed from the raw body. *)
Definition delivered_signature (req : Billing.WebhookRequest) : option string :=
  match Billing.paymongo_signature req with
  | Some header => Billing.actualSignature header
  | None => None
  end.

Definition signature_accepted (hmac : string -> string -> string) (secret : string)
    (req : Billing.WebhookRequest) : bool :=
  match delivered_signature req with
  | Some s => (s =? hmac secret (Billing.raw_body req))%string
  | None => false
  end.


(** Step 2 of [generateBilling] finds billing rows for the enrollment. *)
Definition billing_exists (eid : Z) (s : Store) : bool :=
  nonempty (Billing.existingFees eid s) || nonempty (Billing.existingInstallments eid s).

(** The soft validation of an installment scheme: the rounded sum of the
    downpayment and the monthly payments is more than a cent away from the
    total. *)
Definition installment_mismatch (scheme : TuitionScheme) : bool :=
  let downpayment := parseFloat_or0 (scheme_downpayment scheme) in
  let monthlyPayment := parseFloat_or0 (scheme_monthly_payment scheme) in
  let months := parseInt_or (scheme_months scheme) 4 in
  Qltb (1 # 100)
       (Math_abs (round2 (downpayment + monthlyPayment * inject_Z months)
                  - Billing.totalAmount scheme)).

(** The downpayment fee row that [generateBilling] inserts. *)
Definition downpayment_fee_row (eid : Z) (scheme : TuitionScheme) (s : Store)
  : EnrollmentFee :=
  {| fee_id := next_id fee_id (enrollment_fees s);
     fee_enrollment_id := eid; fee_type := "Downpayment";
     fee_description := "Downpayment - " +++ scheme_name scheme;
     fee_amount := parseFloat_or0 (scheme_downpayment scheme);
     is_paid := false; fee_paid_at := None |}.

(** The stored procedure that initialises the account leaves the enrollment
    and scheme tables as they are. *)
Definition keeps_enrollments (iab : Z -> string -> Z -> Q -> Rpc Z) : Prop :=
  forall eid name sid total s,
    enrollments (snd (iab eid name sid total s)) = enrollments s /\
    tuition_schemes (snd (iab eid name sid total s)) = tuition_schemes s.

(** Sample billing data: enrollment 5 of student 10 under scheme 3, priced
    9000 with no discount. *)
Definition sample_scheme (ty : string) (dp mp : option Q) (months : option Z)
  : TuitionScheme :=
  {| scheme_id := 3; scheme_name := "Plan A"; scheme_type := ty;
     scheme_amount := 9000; scheme_downpayment := dp;
     scheme_monthly_payment := mp; scheme_months := months;
     scheme_discount := None |}.

Definition sample_enrollment : Enrollment :=
  {| enrollment_id := 5; enr_student_id := 10; enr_program_id := 1;
     enr_semester_id := 2; enr_scheme_id := Some 3; enr_status := "Pending" |}.

Definition billing_store (scheme : TuitionScheme) : Store :=
  {| tuition_schemes := [scheme]; enrollments := [sample_enrollment];
     accounts := []; enrollment_fees := []; payment_installments := [];
     payments := []; payment_transactions := []; account_transactions := [];
     students := []; course_subjects := []; enrollment_subjects := [] |}.

Definition installment_scheme : TuitionScheme :=
  sample_scheme "installment" (Some 1000%Q) (Some 2000%Q) (Some 4).

(** A stored procedure call that fails, for the samples. *)
Definition failing_transaction (pid account : Z) (eid : option Z) (amount : Q)
    (ty : string) : Rpc unit :=
  fun s => (Throw "deadlock detected", s).

(** [payment.payment_type] is [full_payment] or [downpayment]. *)
Definition settles_enrollment (payment : Payment) : bool :=
  ((payment_type payment =? "full_payment") || (payment_type payment =? "downpayment"))%string.

(** The signature check of the billing webhook is switched on. *)
Definition verification_on (env : Billing.Env) : bool :=
  Billing.PAYMONGO_ENABLED env && truthy_opt (Billing.PAYMONGO_WEBHOOK_SECRET env).

(** The delivered signature is present, not empty and equal to the digest of
    the raw body under the configured secret. *)
Definition signature_valid (hmac : string -> string -> string) (env : Billing.Env)
    (req : Billing.WebhookRequest) : bool :=
  match Billing.PAYMONGO_WEBHOOK_SECRET env, delivered_signature req with
  | Some secret, Some s => truthy s && (s =? hmac secret (Billing.raw_body req))%string
  | _, _ => false
  end.

(** [c] occurs in [s]. *)
Fixpoint has_char (c : ascii) (s : string) : bool :=
  match s with
  | EmptyString => false
  | String a s' => Ascii.eqb a c || has_char c s'
  end.

(** The payment method the webhook of the payments router records:
    the source type of the first payment, ['card'] when there is none. *)
Definition webhook_method (ev : Billing.Event) : string :=
  match Billing.source_type ev with
  | Some m => if truthy m then m else "card"
  | None => "card"
  end.

(** The audit row both completion paths of the payments router append. *)
Definition audit_row (now : Time) (pid : Z) (payment : Payment) (account : Account)
    (descr : string) (actor : option Z) : AccountTransaction :=
  {| atx_account_id := account_id account;
     atx_payment_id := pid;
     transaction_type := "payment";
     atx_amount := pay_amount payment;
     balance_before := total_balance account;
     balance_after := Math_max0 (total_balance account - pay_amount payment);
     atx_description := descr;
     atx_created_by := actor;
     atx_payment_date := now |}.

(** The store after the settlement by payment type, started from [s]. *)
Definition settled_store (now : Time) (pid : Z) (payment : Payment) (account : Account)
    (s : Store) : Store :=
  store (snd (Payments.apply_payment_type now pid payment account (world_of s))).

(** The store after the four writes of a completion on the payments router:
    payment, gateway transaction, settlement by type, audit row. *)
Definition completed_store (now : Time) (pid : Z) (ref meth : string)
    (payment : Payment) (account : Account) (descr : string) (actor : option Z)
    (s : Store) : Store :=
  let s1 := with_payments s
              (update_where (fun p => payment_id p =? pid)
                 (payment_set_completed now ref meth) (payments s)) in
  let s2 := with_payment_transactions s1
              (update_where (fun t => ptx_payment_id t =? pid)
                 (ptx_set_paid now meth) (payment_transactions s1)) in
  let s3 := settled_store now pid payment account s2 in
  with_account_transactions s3
    (account_transactions s3 ++ [audit_row now pid payment account descr actor]).

(** The user recorded by the mock completion:
    [completed_by || payment.created_by]. *)
Definition mock_actor (req : Payments.MockRequest) (payment : Payment) : option Z :=
  match Payments.req_completed_by req with
  | Some u => if u =? 0 then pay_created_by payment else Some u
  | None => pay_created_by payment
  end.

(** Sample collaborators and requests of the payments checkout. *)
Definition checkout_gateway (cents : Z) (descr : string) (pid : Z) (ty : string)
  : Result (string * string) :=
  Ok ("cs_" +++ toString pid, "https://checkout.example/" +++ toString pid).

Definition no_recent_semester (sid : Z) (s : Store) : option Z := None.

Definition checkout_request (sid : Z) (eid : option Z) (ty : string) (custom : option Q)
  : PaymentsCheckout.Request :=
  {| PaymentsCheckout.rq_enrollment_id := eid;
     PaymentsCheckout.rq_student_id := Some sid;
     PaymentsCheckout.rq_payment_type := Some ty;
     PaymentsCheckout.rq_custom_amount := custom;
     PaymentsCheckout.rq_created_by := None |}.

(** The amount a balance checkout asks for:
    [Math.min(custom_amount, current_balance)] for a positive custom amount,
    the whole balance otherwise. *)
Definition balance_amount (custom : option Q) (current_balance : Q) : Q :=
  match custom with
  | Some c => if Qltb 0 c then Qmin c current_balance else current_balance
  | None => current_balance
  end.

(** The account row the checkout inserts for a student without one. *)
Definition created_account (now : Time) (sid : Z) (s : Store) : Account :=
  {| account_id := next_id account_id (accounts s); acc_student_id := sid;
     total_balance := 0; last_updated := now |}.



(** A pending installment of an enrollment. *)
Definition pending_of (eid : Z) (i : PaymentInstallment) : bool :=
  (inst_enrollment_id i =? eid) && Billing.is_pending i.

(** * Properties of the query primitives *)

Section QueryFacts.
Context {A : Type}.
Variable key : A -> Z.

Lemma In_insert_by (x y : A) (l : list A) :
  In y (insert_by key x l) <-> y = x \/ In y l.
Proof.
  induction l as [|a l IH]; cbn.
  - intuition.
  - destruct (key x <=? key a); cbn; [intuition|].
    rewrite IH. intuition.
Qed.

Lemma In_order_by (y : A) (l : list A) :
  In y (order_by key l) <-> In y l.
Proof.
  induction l as [|a l IH]; [cbn; tauto|].
  change (order_by key (a :: l)) with (insert_by key a (order_by key l)).
  rewrite In_insert_by, IH. cbn. intuition.
Qed.

Lemma order_by_nil (l : list A) : order_by key l = [] -> l = [].
Proof.
  destruct l as [|a l]; [reflexivity|]. intros H.
  assert (Hin : In a (order_by key (a :: l))) by (apply In_order_by; now left).
  rewrite H in Hin. destruct Hin.
Qed.

(** The first row of an ordered selection carries the least key. *)
Lemma order_by_head_least (l : list A) (x : A) (rest : list A) :
  order_by key l = x :: rest ->
  In x l /\ forall y, In y l -> key x <= key y.
Proof.
  revert x rest. induction l as [|a l IH]; intros x rest H; [discriminate|].
  change (insert_by key a (order_by key l) = x :: rest) in H.
  destruct (order_by key l) as [|h t] eqn:E.
  - apply order_by_nil in E. subst l. cbn in H. injection H as <- _.
    split; [now left|]. intros y [<-|[]]. lia.
  - destruct (IH h t eq_refl) as [Hin Hle]. cbn in H.
    destruct (key a <=? key h) eqn:C.
    + injection H as <- _. apply Z.leb_le in C. split; [now left|].
      intros y [<-|Hy]; [lia|]. specialize (Hle y Hy). lia.
    + injection H as <- _. apply Z.leb_gt in C. split; [now right|].
      intros y [<-|Hy]; [lia|]. now apply Hle.
Qed.
End QueryFacts.

Lemma In_indexed_from {A : Type} (t : list A) (k j : nat) (r : A) :
  In (j, r) (indexed_from k t) <-> (k <= j)%nat /\ nth_error t (j - k) = Some r.
Proof.
  revert k. induction t as [|a t IH]; intros k; cbn.
  - split; [tauto|]. intros [_ H]. destruct (j - k)%nat; discriminate.
  - rewrite IH. split.
    + intros [H|[H1 H2]].
      * injection H as <- <-. rewrite Nat.sub_diag. split; [lia|reflexivity].
      * split; [lia|]. replace (j - k)%nat with (S (j - S k)) by lia. exact H2.
    + intros [H1 H2]. destruct (Nat.eq_dec j k) as [->|Hne].
      * rewrite Nat.sub_diag in H2. cbn in H2. injection H2 as <-. now left.
      * right. split; [lia|].
        replace (j - k)%nat with (S (j - S k)) in H2 by lia. exact H2.
Qed.

Lemma nth_error_map_indexed {A B : Type} (g : nat * A -> B) (t : list A) (k m : nat) :
  nth_error (map g (indexed_from k t)) m
  = option_map (fun r => g ((k + m)%nat, r)) (nth_error t m).
Proof.
  revert k m. induction t as [|a t IH]; intros k m; cbn.
  - destruct m; reflexivity.
  - destruct m as [|m]; cbn.
    + now rewrite Nat.add_0_r.
    + rewrite IH. now replace (S k + m)%nat with (k + S m)%nat by lia.
Qed.

(** A limited update that finds no matching row leaves the table as it is. *)
Lemma update_ordered_limit_none {A : Type} (p : A -> bool) (key : A -> Z)
    (n : nat) (f : A -> A) (t : list A) :
  (forall r, In r t -> p r = false) ->
  update_ordered_limit p key n f t = t.
Proof.
  intros Hnone. unfold update_ordered_limit.
  assert (E : filter (fun ir : nat * A => p (snd ir)) (indexed_from 0 t) = []).
  { destruct (filter _ _) as [|[j r] l] eqn:E; [reflexivity|].
    assert (Hin : In (j, r) (filter (fun ir : nat * A => p (snd ir)) (indexed_from 0 t)))
      by (rewrite E; now left).
    apply filter_In in Hin. destruct Hin as [Hin Hp]. cbn in Hp.
    apply In_indexed_from in Hin. destruct Hin as [_ Hn].
    apply nth_error_In in Hn. rewrite (Hnone r Hn) in Hp. discriminate. }
  rewrite E. cbn. unfold limit. rewrite firstn_nil. cbn.
  apply nth_error_ext. intros m. rewrite nth_error_map_indexed.
  destruct (nth_error t m); reflexivity.
Qed.

(** A limited update with [limit(1)] rewrites exactly one row when some row
    matches: a matching row with the least key. *)
Lemma update_ordered_limit_one {A : Type} (p : A -> bool) (key : A -> Z)
    (f : A -> A) (t : list A) :
  (exists r, In r t /\ p r = true) ->
  exists (i : nat) (r0 : A),
    nth_error t i = Some r0 /\ p r0 = true /\
    (forall r, In r t -> p r = true -> key r0 <= key r) /\
    (forall m, nth_error (update_ordered_limit p key 1 f t) m
               = if Nat.eqb m i then Some (f r0) else nth_error t m).
Proof.
  intros [r [Hr Hp]]. unfold update_ordered_limit.
  set (L := filter (fun ir : nat * A => p (snd ir)) (indexed_from 0 t)).
  destruct (order_by (fun ir : nat * A => key (snd ir)) L) as [|[i r0] rest] eqn:E.
  - apply order_by_nil in E. apply In_nth_error in Hr. destruct Hr as [j Hj].
    assert (Hin : In (j, r) L).
    { apply filter_In. split; [|exact Hp].
      apply In_indexed_from. rewrite Nat.sub_0_r. split; [lia|exact Hj]. }
    rewrite E in Hin. destruct Hin.
  - destruct (order_by_head_least _ _ _ _ E) as [Hin Hle].
    apply filter_In in Hin. destruct Hin as [Hin Hp0]. cbn in Hp0.
    apply In_indexed_from in Hin. rewrite Nat.sub_0_r in Hin.
    destruct Hin as [_ Hi].
    exists i, r0. repeat split; try assumption.
    + intros r' Hr' Hp'. apply In_nth_error in Hr'. destruct Hr' as [j Hj].
      apply (Hle (j, r')). apply filter_In. split; [|exact Hp'].
      apply In_indexed_from. rewrite Nat.sub_0_r. split; [lia|exact Hj].
    + intros m. rewrite nth_error_map_indexed. cbn.
      rewrite orb_false_r.
      destruct (Nat.eqb_spec m i) as [->|Hne].
      * rewrite Hi. reflexivity.
      * destruct (nth_error t m); reflexivity.
Qed.

Lemma find_update_where {A : Type} (key : A -> Z) (k : Z) (f : A -> A) (t : list A) :
  (forall r, key (f r) = key r) ->
  find (fun r => key r =? k) (update_where (fun r => key r =? k) f t)
  = option_map f (find (fun r => key r =? k) t).
Proof.
  intros Hf. induction t as [|a t IH]; cbn; [reflexivity|].
  destruct (key a =? k) eqn:E; cbn.
  - now rewrite Hf, E.
  - now rewrite E.
Qed.

(** * The completion guard and the cancellation guard *)

Lemma processPaymentCompletion_completed
    (rpc : Z -> Z -> option Z -> Q -> string -> Rpc unit)
    (pid : Z) (payment : Payment) (w : World) :
  pay_status payment = "Completed" ->
  Billing.processPaymentCompletion rpc pid payment w
  = (Ok {| success := true; already_processed := true |},
     {| store := store w;
        logged := logged w ++
          [(info, "Payment already completed - skipping duplicate processing")] |}).
Proof.
  intros H. unfold Billing.processPaymentCompletion, try_catch, bind.
  rewrite H. reflexivity.
Qed.

(** The administrative cancel refuses every payment that is not pending
    and writes nothing. *)
Lemma post_cancel_not_pending (pid : Z) (payment : Payment) (w : World) :
  single (filter (fun p => payment_id p =? pid) (payments (store w))) = Some payment ->
  pay_status payment <> "Pending" ->
  Payments.post_cancel pid w
  = (Ok (res_error 400 ("Cannot cancel payment with status: " +++ pay_status payment)),
     w).
Proof.
  intros Hfind Hst. unfold Payments.post_cancel, try_catch, bind, query.
  rewrite Hfind. apply String.eqb_neq in Hst. rewrite Hst. reflexivity.
Qed.

(** On the billing router the guard is in force: an enrollment payment that
    is already completed passes through [handleEnrollmentPayment] without a
    call to the stored procedure and without a write. *)
Lemma handleEnrollmentPayment_completed
    (ppt : Z -> Z -> option Z -> Q -> string -> Rpc unit)
    (ev : Billing.Event) (pid : Z) (payment : Payment) (w : World) :
  Billing.meta_payment_id ev = Some pid ->
  (pid =? 0) = false ->
  single (filter (fun p => payment_id p =? pid) (payments (store w))) = Some payment ->
  pay_status payment = "Completed" ->
  exists w', Billing.handleEnrollmentPayment ppt ev w = (Ok tt, w') /\
             store w' = store w.
Proof.
  intros Hpid Hnz Hfind Hst.
  unfold Billing.handleEnrollmentPayment, try_catch, bind, query, logger.
  rewrite Hpid, Hnz. cbn [store logged]. rewrite Hfind.
  rewrite (processPaymentCompletion_completed ppt pid payment _ Hst).
  eexists. split; reflexivity.
Qed.

(** ** C1: duplicate delivery on the payments router *)

(** C1. The completion guard is not on every path. A pending balance payment
    of 100 on an account owing 500 is delivered twice to the tuition branch of
    [POST /webhook]: the first delivery completes it and lowers the balance
    to 400; the second delivery, for a payment that is now [Completed],
    lowers the balance again to 300 and appends a second audit row. The mock
    completion does the same. *)
Theorem webhook_tuition_applies_completed_payment_again :
  forall rpc : Z -> Z -> option Z -> Q -> string -> Rpc unit,
    let s0 := sample_ledger [sample_payment 7 None 100 "Pending" "balance"] [] in
    let w1 := snd (Payments.post_webhook rpc live_env 1000 (tuition_request 7)
                     (world_of s0)) in
    let w2 := snd (Payments.post_webhook rpc live_env 2000 (tuition_request 7) w1) in
    let m1 := snd (Payments.post_mock_complete offline_env 1000 7 default_mock
                     (world_of s0)) in
    let m2 := snd (Payments.post_mock_complete offline_env 2000 7 default_mock m1) in
    status_of 7 (store w1) = Some "Completed" /\
    balance_of 1 (store w1) = Some 400%Q /\
    List.length (account_transactions (store w1)) = 1%nat /\
    balance_of 1 (store w2) = Some 300%Q /\
    List.length (account_transactions (store w2)) = 2%nat /\
    status_of 7 (store m1) = Some "Completed" /\
    balance_of 1 (store m2) = Some 300%Q /\
    List.length (account_transactions (store m2)) = 2%nat.
Proof.
  intros rpc. vm_compute. repeat split; reflexivity.
Qed.

(** ** C3: cancelling a completed payment through the redirect *)

(** C3. The cancel redirect of the billing router has no status check: called
    for payment 7, which is [Completed], it answers with the redirect and
    leaves the payment [Cancelled]. The administrative cancel refuses the
    same payment with 400 and writes nothing. *)
Theorem cancel_redirect_cancels_completed_payment :
  let s0 := sample_ledger [sample_payment 7 None 100 "Completed" "balance"] [] in
  let r := Billing.get_payment_cancel billing_env (Some 7) (world_of s0) in
  status_of 7 s0 = Some "Completed" /\
  fst r = Ok (res_redirect "http://localhost:3000/student/payment?status=cancelled") /\
  status_of 7 (store (snd r)) = Some "Cancelled" /\
  Payments.post_cancel 7 (world_of s0)
  = (Ok (res_error 400 "Cannot cancel payment with status: Completed"), world_of s0).
Proof.
  vm_compute. repeat split; reflexivity.
Qed.

(** * The ledger writes of the payments router *)

Lemma select_payment_with_account_found (pid : Z) (s : Store)
    (payment : Payment) (account : Account) :
  Payments.select_payment_with_account pid s = Some (payment, Some account) ->
  single (filter (fun p => payment_id p =? pid) (payments s)) = Some payment /\
  find (fun a => account_id a =? pay_account_id payment) (accounts s) = Some account /\
  account_id account = pay_account_id payment.
Proof.
  unfold Payments.select_payment_with_account. intros H.
  destruct (single _) as [p|] eqn:E; [|discriminate].
  injection H as -> H. repeat split; [exact H|].
  apply find_some in H. destruct H as [_ H]. now apply Z.eqb_eq in H.
Qed.

Lemma balance_of_update (aid : Z) (now : Time) (b : Q) (s' : Store)
    (t : list Account) (account : Account) :
  accounts s' = update_where (fun a => account_id a =? aid)
                  (account_set_balance now b) t ->
  find (fun a => account_id a =? aid) t = Some account ->
  balance_of aid s' = Some b.
Proof.
  intros E H. unfold balance_of. rewrite E.
  rewrite (find_update_where account_id aid (account_set_balance now b) t)
    by reflexivity.
  rewrite H. reflexivity.
Qed.

Lemma Math_max0_nonneg (x : Q) : (0 <= Math_max0 x)%Q.
Proof. unfold Math_max0. apply Q.le_max_l. Qed.

Lemma Math_max0_floor (x : Q) : (x <= 0)%Q -> Math_max0 x = 0%Q.
Proof.
  intros H. unfold Math_max0, Qmax, GenericMinMax.gmax.
  destruct (0 ?= x)%Q eqn:C; try reflexivity.
  apply Qlt_alt in C. exfalso. apply (Qlt_not_le _ _ C H).
Qed.

(** ** C4: the balance floor *)

(** C4. A balance payment completed by the tuition branch of the webhook or by
    the mock completion leaves the account with
    [max(0, previous_balance - amount)]: never negative, and exactly 0 when
    the payment is at least the balance. *)
Theorem balance_payment_floors_at_zero :
  forall (rpc : Z -> Z -> option Z -> Q -> string -> Rpc unit)
         (env menv : Payments.Env) (now : Time) (req : Payments.WebhookRequest)
         (mreq : Payments.MockRequest) (w : World) (pid : Z)
         (payment : Payment) (account : Account),
    Billing.is_paid_event (Payments.event req) = true ->
    Billing.meta_payment_id (Payments.event req) = Some pid ->
    Payments.is_enrollment_payment (Payments.event req) = false ->
    Payments.PAYMONGO_ENABLED menv = false ->
    Payments.mock_success mreq = true ->
    Payments.select_payment_with_account pid (store w) = Some (payment, Some account) ->
    payment_type payment = "balance" ->
    let new_balance := Qmax 0 (total_balance account - pay_amount payment) in
    balance_of (account_id account)
      (store (snd (Payments.post_webhook rpc env now req w))) = Some new_balance /\
    balance_of (account_id account)
      (store (snd (Payments.post_mock_complete menv now pid mreq w))) = Some new_balance /\
    (0 <= new_balance)%Q /\
    ((total_balance account <= pay_amount payment)%Q -> new_balance = 0%Q).
Proof.
  intros rpc env menv now req mreq w pid payment account
         Hpaid Hpid Hroute Hoff Hsucc Hsel Hty new_balance.
  destruct (select_payment_with_account_found _ _ _ _ Hsel) as (_ & Hacc & Hid).
  rewrite <- Hid in Hacc.
  repeat split.
  - unfold Payments.post_webhook, try_catch, bind, query, exec, logger.
    cbn. rewrite Hpaid, Hpid, Hroute. cbn. rewrite Hsel. cbn.
    unfold Payments.apply_payment_type, Payments.log_transaction,
      Payments.is_type, bind, exec.
    rewrite Hty. cbn.
    apply (balance_of_update (account_id account) now new_balance _
             (accounts (store w)) account); [reflexivity | exact Hacc].
  - unfold Payments.post_mock_complete. rewrite Hoff.
    unfold try_catch, bind, query, exec, logger. cbn. rewrite Hsel.
    rewrite Hsucc. cbn.
    unfold Payments.apply_payment_type, Payments.log_transaction,
      Payments.is_type, bind, exec.
    rewrite Hty. cbn.
    apply (balance_of_update (account_id account) now new_balance _
             (accounts (store w)) account); [reflexivity | exact Hacc].
  - apply Math_max0_nonneg.
  - intros Hle. apply Math_max0_floor.
    apply Qle_minus_iff in Hle. apply Qle_minus_iff.
    setoid_replace (0 + - (total_balance account - pay_amount payment))%Q
      with (pay_amount payment + - total_balance account)%Q by ring.
    exact Hle.
Qed.

Lemma balance_payment_floors_at_zero_witness :
  let w := world_of (sample_ledger [sample_payment 7 None 600 "Pending" "balance"] []) in
  balance_of 1
    (store (snd (Payments.post_webhook (process_payment_transaction_spec 1000)
                   live_env 1000 (tuition_request 7) w))) = Some (Qmax 0 (500 - 600)) /\
  balance_of 1
    (store (snd (Payments.post_mock_complete offline_env 1000 7 default_mock w)))
    = Some (Qmax 0 (500 - 600)) /\
  (0 <= Qmax 0 (500 - 600))%Q /\
  ((500 <= 600)%Q -> Qmax 0 (500 - 600) = 0%Q).
Proof.
  apply (balance_payment_floors_at_zero (process_payment_transaction_spec 1000)
           live_env offline_env 1000 (tuition_request 7) default_mock
           (world_of (sample_ledger [sample_payment 7 None 600 "Pending" "balance"] []))
           7 (sample_payment 7 None 600 "Pending" "balance") sample_account);
    reflexivity.
Defined.

Lemma single_filter_find {A : Type} (p : A -> bool) (l : list A) (x : A) :
  single (filter p l) = Some x -> find p l = Some x.
Proof.
  induction l as [|a l IH]; cbn; [discriminate|].
  destruct (p a) eqn:E; [|exact IH].
  intros H. destruct (filter p l); [|discriminate]. cbn in H. exact H.
Qed.

Lemma status_of_completed (pid : Z) (now : Time) (ref m : string) (s' : Store)
    (t : list Payment) (payment : Payment) :
  payments s' = update_where (fun p => payment_id p =? pid)
                  (payment_set_completed now ref m) t ->
  single (filter (fun p => payment_id p =? pid) t) = Some payment ->
  status_of pid s' = Some "Completed".
Proof.
  intros E H. unfold status_of. rewrite E.
  rewrite (find_update_where payment_id pid (payment_set_completed now ref m) t)
    by reflexivity.
  rewrite (single_filter_find _ _ _ H). reflexivity.
Qed.


(** ** C9: the webhook of the payments router *)



(** ** C2: which installment a monthly payment settles *)

Lemma monthly_installments_after
    (rpc : Z -> Z -> option Z -> Q -> string -> Rpc unit)
    (env menv : Payments.Env) (now : Time) (req : Payments.WebhookRequest)
    (mreq : Payments.MockRequest) (w : World) (pid : Z)
    (payment : Payment) (account : Account) :
  Billing.is_paid_event (Payments.event req) = true ->
  Billing.meta_payment_id (Payments.event req) = Some pid ->
  Payments.is_enrollment_payment (Payments.event req) = false ->
  Payments.PAYMONGO_ENABLED menv = false ->
  Payments.mock_success mreq = true ->
  Payments.select_payment_with_account pid (store w) = Some (payment, Some account) ->
  payment_type payment = "monthly" ->
  Payments.has_enrollment payment = true ->
  let after :=
    update_ordered_limit
      (fun i => opt_Z_eqb (pay_enrollment_id payment) (inst_enrollment_id i)
                && Billing.is_pending i)
      due_date 1 (installment_set_paid now pid) (payment_installments (store w)) in
  payment_installments (store (snd (Payments.post_webhook rpc env now req w))) = after /\
  payment_installments (store (snd (Payments.post_mock_complete menv now pid mreq w)))
  = after.
Proof.
  intros Hpaid Hpid Hroute Hoff Hsucc Hsel Hty Hen after. split.
  - unfold Payments.post_webhook, try_catch, bind, query, exec, logger.
    cbn. rewrite Hpaid, Hpid, Hroute. cbn. rewrite Hsel. cbn.
    unfold Payments.apply_payment_type, Payments.log_transaction,
      Payments.is_type, bind, exec.
    rewrite Hty, Hen. reflexivity.
  - unfold Payments.post_mock_complete. rewrite Hoff.
    unfold try_catch, bind, query, exec, logger. cbn. rewrite Hsel, Hsucc. cbn.
    unfold Payments.apply_payment_type, Payments.log_transaction,
      Payments.is_type, bind, exec.
    rewrite Hty, Hen. reflexivity.
Qed.

(** C2, as the code has it. A [monthly] payment that carries an enrollment with
    a pending installment, completed by the tuition branch of the webhook or
    by the mock completion, rewrites exactly one installment row: a pending
    row of that enrollment with the earliest due date, which becomes [paid]
    and is linked to the payment. When due dates grow with the installment
    numbers, as in the rows [generateBilling] creates, that row is the
    pending installment with the lowest number. *)
Theorem monthly_payment_settles_earliest_due_installment :
  forall (rpc : Z -> Z -> option Z -> Q -> string -> Rpc unit)
         (env menv : Payments.Env) (now : Time) (req : Payments.WebhookRequest)
         (mreq : Payments.MockRequest) (w w' : World) (pid eid : Z)
         (payment : Payment) (account : Account),
    Billing.is_paid_event (Payments.event req) = true ->
    Billing.meta_payment_id (Payments.event req) = Some pid ->
    Payments.is_enrollment_payment (Payments.event req) = false ->
    Payments.PAYMONGO_ENABLED menv = false ->
    Payments.mock_success mreq = true ->
    Payments.select_payment_with_account pid (store w) = Some (payment, Some account) ->
    payment_type payment = "monthly" ->
    pay_enrollment_id payment = Some eid ->
    Payments.has_enrollment payment = true ->
    existsb (pending_of eid) (payment_installments (store w)) = true ->
    w' = snd (Payments.post_webhook rpc env now req w) \/
    w' = snd (Payments.post_mock_complete menv now pid mreq w) ->
    exists (i : nat) (r0 : PaymentInstallment),
      nth_error (payment_installments (store w)) i = Some r0 /\
      pending_of eid r0 = true /\
      (forall r, In r (payment_installments (store w)) -> pending_of eid r = true ->
                 due_date r0 <= due_date r) /\
      (forall m, nth_error (payment_installments (store w')) m
                 = if Nat.eqb m i
                   then Some (installment_set_paid now pid r0)
                   else nth_error (payment_installments (store w)) m) /\
      inst_status (installment_set_paid now pid r0) = "paid" /\
      inst_payment_id (installment_set_paid now pid r0) = Some pid /\
      ((forall a b, In a (payment_installments (store w)) ->
                    In b (payment_installments (store w)) ->
                    pending_of eid a = true -> pending_of eid b = true ->
                    installment_number a < installment_number b ->
                    due_date a < due_date b) ->
       forall r, In r (payment_installments (store w)) -> pending_of eid r = true ->
                 installment_number r0 <= installment_number r).
Proof.
  intros rpc env menv now req mreq w w' pid eid payment account
         Hpaid Hpid Hroute Hoff Hsucc Hsel Hty Heid Hen Hex Hw'.
  destruct (monthly_installments_after rpc env menv now req mreq w pid payment account
              Hpaid Hpid Hroute Hoff Hsucc Hsel Hty Hen) as [Hweb Hmock].
  assert (Hafter : payment_installments (store w')
                   = update_ordered_limit
                       (fun i => opt_Z_eqb (pay_enrollment_id payment) (inst_enrollment_id i)
                                 && Billing.is_pending i)
                       due_date 1 (installment_set_paid now pid)
                       (payment_installments (store w))).
  { destruct Hw' as [-> | ->]; assumption. }
  clear Hweb Hmock Hw'.
  assert (Hp : forall r,
             (opt_Z_eqb (pay_enrollment_id payment) (inst_enrollment_id r)
              && Billing.is_pending r) = pending_of eid r).
  { intros r. rewrite Heid. unfold pending_of. cbn. now rewrite Z.eqb_sym. }
  apply existsb_exists in Hex. destruct Hex as [r1 [Hin1 Hp1]].
  destruct (update_ordered_limit_one
              (fun i => opt_Z_eqb (pay_enrollment_id payment) (inst_enrollment_id i)
                        && Billing.is_pending i)
              due_date (installment_set_paid now pid) (payment_installments (store w)))
    as (i & r0 & Hnth & Hp0 & Hleast & Hrows).
  { exists r1. split; [exact Hin1|]. now rewrite Hp. }
  rewrite Hp in Hp0.
  assert (Hleast' : forall r, In r (payment_installments (store w)) ->
                              pending_of eid r = true -> due_date r0 <= due_date r).
  { intros r Hr Hpr. apply Hleast; [exact Hr|]. now rewrite Hp. }
  exists i, r0. repeat split; try assumption.
  - intros m. rewrite Hafter. apply Hrows.
  - intros Hmono r Hr Hpr.
    destruct (Z_lt_le_dec (installment_number r) (installment_number r0)) as [Hlt|Hle];
      [|exact Hle].
    exfalso. apply nth_error_In in Hnth.
    specialize (Hmono r r0 Hr Hnth Hpr Hp0 Hlt).
    specialize (Hleast' r Hr Hpr). lia.
Qed.

Lemma monthly_payment_settles_earliest_due_installment_witness :
  let insts := [sample_installment 1 30; sample_installment 2 60; sample_installment 3 90] in
  let w := world_of (sample_ledger [sample_payment 7 (Some 5) 2000 "Pending" "monthly"]
                       insts) in
  let w' := snd (Payments.post_webhook (process_payment_transaction_spec 1000)
                   live_env 1000 (tuition_request 7) w) in
  exists (i : nat) (r0 : PaymentInstallment),
    nth_error (payment_installments (store w)) i = Some r0 /\
    pending_of 5 r0 = true /\
    (forall r, In r (payment_installments (store w)) -> pending_of 5 r = true ->
               due_date r0 <= due_date r) /\
    (forall m, nth_error (payment_installments (store w')) m
               = if Nat.eqb m i
                 then Some (installment_set_paid 1000 7 r0)
                 else nth_error (payment_installments (store w)) m) /\
    inst_status (installment_set_paid 1000 7 r0) = "paid" /\
    inst_payment_id (installment_set_paid 1000 7 r0) = Some 7 /\
    ((forall a b, In a (payment_installments (store w)) ->
                  In b (payment_installments (store w)) ->
                  pending_of 5 a = true -> pending_of 5 b = true ->
                  installment_number a < installment_number b ->
                  due_date a < due_date b) ->
     forall r, In r (payment_installments (store w)) -> pending_of 5 r = true ->
               installment_number r0 <= installment_number r).
Proof.
  intros insts w w'.
  apply (monthly_payment_settles_earliest_due_installment
           (process_payment_transaction_spec 1000) live_env offline_env 1000
           (tuition_request 7) default_mock w w' 7 5
           (sample_payment 7 (Some 5) 2000 "Pending" "monthly") sample_account);
    try reflexivity.
  left. reflexivity.
Defined.

(** C2, as stated, fails twice on the payments router. With pending
    installments 1, 2 and 3, an [installment]-type payment completed by the
    mock completion marks none of them; and with due dates out of step with
    the numbers (number 2 due first), a [monthly] payment delivered to the
    webhook marks number 2, not number 1. *)
Lemma installment_settlement_counterexample :
  paid_numbers 5
    (store (snd (Payments.post_mock_complete offline_env 1000 7 default_mock
                   (world_of (sample_ledger
                                [sample_payment 7 (Some 5) 2000 "Pending" "installment"]
                                [sample_installment 1 30; sample_installment 2 60;
                                 sample_installment 3 90])))))
  = [] /\
  paid_numbers 5
    (store (snd (Payments.post_webhook (process_payment_transaction_spec 1000)
                   live_env 1000 (tuition_request 7)
                   (world_of (sample_ledger
                                [sample_payment 7 (Some 5) 2000 "Pending" "monthly"]
                                [sample_installment 1 90; sample_installment 2 60;
                                 sample_installment 3 120])))))
  = [2].
Proof.
  split; vm_compute; reflexivity.
Qed.

(** ** C6: the signature check of the billing webhook *)

Lemma signature_accepted_false (hmac : string -> string -> string) (secret : string)
    (req : Billing.WebhookRequest) :
  signature_accepted hmac secret req = false <->
  delivered_signature req <> Some (hmac secret (Billing.raw_body req)).
Proof.
  unfold signature_accepted. destruct (delivered_signature req) as [s|].
  - rewrite String.eqb_neq. split; congruence.
  - split; [discriminate|reflexivity].
Qed.



(** * Billing generation *)

(** One step of a handler body: unfold the monad and project the world. *)
Ltac eff :=
  unfold bind, query, logger, supabase_rpc, ret, throw, exec, try_catch;
  cbn [store logged].


Lemma nonempty_limit_filter {A : Type} (p : A -> bool) (l : list A) :
  nonempty (limit 1 (filter p l)) = existsb p l.
Proof.
  induction l as [|a l IH]; cbn; [reflexivity|].
  destruct (p a); cbn; [reflexivity|exact IH].
Qed.

(** The run of [generateBilling] on an installment scheme when nothing
    fails: one downpayment fee and the installment rows are appended to the
    tables the account initialisation left. *)
Lemma generateBilling_installment_run
    (iab : Z -> string -> Z -> Q -> Rpc Z) (add_months : Time -> Z -> Date)
    (now : Time) (eid : Z) (cb : option Z) (w : World)
    (enrollment : Enrollment) (scheme : TuitionScheme) (aid : Z) (s1 : Store) :
  single (filter (fun e => enrollment_id e =? eid) (enrollments (store w)))
    = Some enrollment ->
  Billing.scheme_of enrollment (store w) = Some scheme ->
  billing_exists eid (store w) = false ->
  Qleb (Billing.totalAmount scheme) 0 = false ->
  iab eid (scheme_name scheme) (enr_student_id enrollment)
      (Billing.totalAmount scheme) (store w) = (Ok aid, s1) ->
  scheme_type scheme = "installment" ->
  let months := parseInt_or (scheme_months scheme) 4 in
  let monthly := parseFloat_or0 (scheme_monthly_payment scheme) in
  let fee := downpayment_fee_row eid scheme s1 in
  let rows := Billing.installment_rows add_months now eid monthly months
                (next_id installment_id (payment_installments s1)) in
  Billing.generateBilling iab add_months now Billing.no_faults eid cb w
  = (Ok {| bp_enrollment_id := eid; bp_account_id := aid;
           bp_scheme_type := "installment";
           bp_total_amount := Billing.totalAmount scheme;
           bp_discount := parseFloat_or0 (scheme_discount scheme);
           bp_fee_id := fee_id fee;
           bp_downpayment := parseFloat_or0 (scheme_downpayment scheme);
           bp_monthly_payment := monthly;
           bp_number_of_months := months;
           bp_installments := rows;
           bp_generated_at := now; bp_generated_by := cb |},
     {| store := with_payment_installments
                   (with_enrollment_fees s1 (enrollment_fees s1 ++ [fee]))
                   (payment_installments s1 ++ rows);
        logged := ((logged w ++ [(info, "Generating billing for enrollment")])
                     ++ [(info, "Account balance initialized")])
                    ++ (if installment_mismatch scheme
                        then [(warn, "Installment amounts do not match total")]
                        else [])
                    ++ [(info, "Billing generated successfully")] |}).
Proof.
  intros Henr Hsch Hex Htot Hrpc Hty months monthly fee rows.
  unfold Billing.generateBilling. eff.
  rewrite Henr. eff. rewrite Hsch. eff.
  unfold billing_exists in Hex. rewrite Hex, Htot. eff. rewrite Hrpc. eff.
  rewrite Hty. cbn [String.eqb Ascii.eqb Bool.eqb].
  fold (installment_mismatch scheme).
  unfold Billing.no_faults, Billing.insert_fee. cbn [Billing.fee_insert_error
    Billing.installment_insert_error store logged payment_installments
    enrollment_fees with_enrollment_fees].
  destruct (installment_mismatch scheme); eff.
  - rewrite <- !app_assoc. reflexivity.
  - rewrite <- !app_assoc. reflexivity.
Qed.

Lemma installment_rows_numbers (am : Time -> Z -> Date) (now : Time) (eid : Z)
    (monthly : Q) (months first : Z) :
  map installment_number (Billing.installment_rows am now eid monthly months first)
  = map Z.of_nat (seq 1 (Z.to_nat months)).
Proof.
  unfold Billing.installment_rows. rewrite map_map. reflexivity.
Qed.

Lemma installment_rows_length (am : Time -> Z -> Date) (now : Time) (eid : Z)
    (monthly : Q) (months first : Z) :
  List.length (Billing.installment_rows am now eid monthly months first)
  = Z.to_nat months.
Proof.
  unfold Billing.installment_rows. now rewrite length_map, length_seq.
Qed.

Lemma installment_rows_row (am : Time -> Z -> Date) (now : Time) (eid : Z)
    (monthly : Q) (months first : Z) (r : PaymentInstallment) :
  In r (Billing.installment_rows am now eid monthly months first) ->
  inst_enrollment_id r = eid /\ inst_status r = "pending" /\
  inst_amount r = monthly /\
  due_date r = am now (installment_number r) /\
  1 <= installment_number r <= months.
Proof.
  unfold Billing.installment_rows. intros H. apply in_map_iff in H.
  destruct H as [k [<- Hk]]. apply in_seq in Hk. cbn. repeat split; lia.
Qed.

Lemma existsb_false_filter {A : Type} (p : A -> bool) (l : list A) :
  existsb p l = false -> filter p l = [].
Proof.
  induction l as [|a l IH]; cbn; [reflexivity|].
  destruct (p a); cbn; [discriminate|exact IH].
Qed.

Lemma billing_exists_false (eid : Z) (s : Store) :
  billing_exists eid s = false ->
  filter (Billing.fee_of_enrollment eid) (enrollment_fees s) = [] /\
  filter (Billing.installment_of_enrollment eid) (payment_installments s) = [].
Proof.
  unfold billing_exists, Billing.existingFees, Billing.existingInstallments.
  rewrite !nonempty_limit_filter. intros H. apply orb_false_iff in H.
  destruct H as [Hf Hi]. split; now apply existsb_false_filter.
Qed.

Lemma filter_all {A : Type} (p : A -> bool) (l : list A) :
  (forall x, In x l -> p x = true) -> filter p l = l.
Proof.
  induction l as [|a l IH]; cbn; intros H; [reflexivity|].
  rewrite (H a) by now left. f_equal. apply IH. intros x Hx. apply H. now right.
Qed.

(** ** C8: the shape of an installment billing *)




(** ** C10: defaults of a scheme without installment fields *)

(** C10. For an installment scheme whose [months] is missing or not numeric,
    billing generation does not fail: it uses 4 months and appends the
    downpayment fee and four installments numbered 1 to 4. A missing
    downpayment makes the fee amount 0 and a missing monthly payment makes
    every installment amount 0. *)
Theorem missing_installment_fields_default :
  forall (iab : Z -> string -> Z -> Q -> Rpc Z) (add_months : Time -> Z -> Date)
         (now : Time) (eid : Z) (cb : option Z) (w : World)
         (enrollment : Enrollment) (scheme : TuitionScheme) (aid : Z) (s1 : Store),
    single (filter (fun e => enrollment_id e =? eid) (enrollments (store w)))
      = Some enrollment ->
    Billing.scheme_of enrollment (store w) = Some scheme ->
    billing_exists eid (store w) = false ->
    Qleb (Billing.totalAmount scheme) 0 = false ->
    iab eid (scheme_name scheme) (enr_student_id enrollment)
        (Billing.totalAmount scheme) (store w) = (Ok aid, s1) ->
    scheme_type scheme = "installment" ->
    scheme_months scheme = None ->
    exists plan w',
      Billing.generateBilling iab add_months now Billing.no_faults eid cb w
      = (Ok plan, w') /\
      bp_number_of_months plan = 4 /\
      map installment_number (bp_installments plan) = [1; 2; 3; 4] /\
      enrollment_fees (store w')
      = enrollment_fees s1 ++ [downpayment_fee_row eid scheme s1] /\
      fee_type (downpayment_fee_row eid scheme s1) = "Downpayment" /\
      payment_installments (store w') = payment_installments s1 ++ bp_installments plan /\
      (scheme_downpayment scheme = None ->
       bp_downpayment plan = 0%Q /\
       fee_amount (downpayment_fee_row eid scheme s1) = 0%Q) /\
      (scheme_monthly_payment scheme = None ->
       bp_monthly_payment plan = 0%Q /\
       forall r, In r (bp_installments plan) -> inst_amount r = 0%Q).
Proof.
  intros iab add_months now eid cb w enrollment scheme aid s1
         Henr Hsch Hex Htot Hrpc Hty Hmonths.
  pose proof (generateBilling_installment_run iab add_months now eid cb w enrollment
                scheme aid s1 Henr Hsch Hex Htot Hrpc Hty) as Hrun.
  cbv zeta in Hrun. rewrite Hmonths in Hrun.
  change (parseInt_or None 4) with 4 in Hrun.
  eexists; eexists. split; [exact Hrun|].
  cbn [store logged bp_installments bp_number_of_months bp_downpayment
         bp_monthly_payment].
  split; [reflexivity|]. split; [apply installment_rows_numbers|].
  split; [reflexivity|]. split; [reflexivity|]. split; [reflexivity|].
  split.
  - intros Hdp. unfold downpayment_fee_row. cbn. rewrite Hdp. split; reflexivity.
  - intros Hmp. rewrite Hmp. split; [reflexivity|].
    intros r Hr. destruct (installment_rows_row _ _ _ _ _ _ _ Hr) as (_ & _ & Ha & _).
    exact Ha.
Qed.

Lemma missing_installment_fields_default_witness :
  let scheme := sample_scheme "installment" None None None in
  exists plan w',
    Billing.generateBilling (initialize_account_balance_spec 1000) add_months_30 1000
      Billing.no_faults 5 (Some 99) (world_of (billing_store scheme))
    = (Ok plan, w') /\
    bp_number_of_months plan = 4 /\
    map installment_number (bp_installments plan) = [1; 2; 3; 4] /\
    bp_downpayment plan = 0%Q /\
    (forall r, In r (bp_installments plan) -> inst_amount r = 0%Q).
Proof.
  intros scheme.
  destruct (missing_installment_fields_default (initialize_account_balance_spec 1000)
              add_months_30 1000 5 (Some 99) (world_of (billing_store scheme))
              sample_enrollment scheme 1
              (snd (initialize_account_balance_spec 1000 5 "Plan A" 10
                      (Billing.totalAmount scheme) (billing_store scheme)))
              eq_refl eq_refl eq_refl eq_refl eq_refl eq_refl eq_refl)
    as (plan & w' & Hrun & Hm & Hnum & _ & _ & _ & Hdp & Hmp).
  exists plan, w'. repeat split; try assumption.
  - apply Hdp. reflexivity.
  - apply Hmp. reflexivity.
Defined.

(** ** C5: a second billing generation *)

(** What a successful run of [generateBilling] tells about the store before
    and after it. *)
Lemma generateBilling_success_inv
    (iab : Z -> string -> Z -> Q -> Rpc Z) (add_months : Time -> Z -> Date)
    (now : Time) (faults : Billing.Faults) (eid : Z) (cb : option Z)
    (w w1 : World) (plan : BillingPlan) :
  Billing.generateBilling iab add_months now faults eid cb w = (Ok plan, w1) ->
  exists enrollment scheme aid s1,
    single (filter (fun e => enrollment_id e =? eid) (enrollments (store w)))
      = Some enrollment /\
    Billing.scheme_of enrollment (store w) = Some scheme /\
    iab eid (scheme_name scheme) (enr_student_id enrollment)
        (Billing.totalAmount scheme) (store w) = (Ok aid, s1) /\
    enrollments (store w1) = enrollments s1 /\
    tuition_schemes (store w1) = tuition_schemes s1 /\
    exists f, In f (enrollment_fees (store w1)) /\ fee_enrollment_id f = eid.
Proof.
  unfold Billing.generateBilling. eff.
  destruct (single _) as [enrollment|] eqn:Henr; eff; [|discriminate].
  destruct (Billing.scheme_of enrollment (store w)) as [scheme|] eqn:Hsch; eff;
    [|discriminate].
  destruct (nonempty _ || nonempty _); [discriminate|].
  destruct (Qleb _ _); [discriminate|]. eff.
  destruct (iab _ _ _ _ _) as [[aid|e] s1] eqn:Hrpc; eff; [|discriminate].
  intros H. exists enrollment, scheme, aid, s1.
  split; [reflexivity|]. split; [exact Hsch|]. split; [exact Hrpc|].
  destruct (scheme_type scheme =? "full_payment")%string.
  - destruct (Billing.fee_insert_error faults); eff; [discriminate|].
    unfold Billing.insert_fee in H. cbn [store logged] in H.
    injection H as _ <-. cbn. split; [reflexivity|]. split; [reflexivity|].
    eexists. split; [apply in_or_app; right; left; reflexivity|]. reflexivity.
  - destruct (scheme_type scheme =? "installment")%string; [|discriminate].
    destruct (Qltb _ _); eff;
      (destruct (Billing.fee_insert_error faults); eff; [discriminate|];
       destruct (Billing.installment_insert_error faults); eff; [discriminate|];
       unfold Billing.insert_fee in H; cbn [store logged] in H;
       injection H as _ <-; cbn; split; [reflexivity|]; split; [reflexivity|];
       eexists; split; [apply in_or_app; right; left; reflexivity|]; reflexivity).
Qed.

(** C5. After a successful [generateBilling] for an enrollment, a second call
    for the same enrollment throws "Billing already generated for this
    enrollment" before any write, the route answers it with status 400, and
    the store -- with every fee and installment row of the first call -- is
    unchanged. *)
Theorem second_billing_generation_conflicts :
  forall (iab : Z -> string -> Z -> Q -> Rpc Z) (add_months : Time -> Z -> Date)
         (now now' : Time) (faults faults' : Billing.Faults) (eid : Z)
         (cb cb' : option Z) (w w1 : World) (plan : BillingPlan),
    keeps_enrollments iab ->
    (eid =? 0) = false ->
    Billing.generateBilling iab add_months now faults eid cb w = (Ok plan, w1) ->
    (exists w2,
        Billing.generateBilling iab add_months now' faults' eid cb' w1
        = (Throw "Billing already generated for this enrollment", w2) /\
        store w2 = store w1) /\
    (exists w2,
        Billing.post_generate_billing iab add_months now' faults' (Some eid) cb' w1
        = (Ok (res_error 400 "Billing already generated for this enrollment"), w2) /\
        store w2 = store w1).
Proof.
  intros iab add_months now now' faults faults' eid cb cb' w w1 plan
         Hframe Hnz Hrun.
  destruct (generateBilling_success_inv _ _ _ _ _ _ _ _ _ Hrun)
    as (enrollment & scheme & aid & s1 & Henr & Hsch & Hrpc & He1 & Ht1 & f & Hf & Hfe).
  destruct (Hframe eid (scheme_name scheme) (enr_student_id enrollment)
              (Billing.totalAmount scheme) (store w)) as [Hfe1 Hft1].
  rewrite Hrpc in Hfe1, Hft1. cbn [snd] in Hfe1, Hft1.
  assert (Henr1 : single (filter (fun e => enrollment_id e =? eid)
                                 (enrollments (store w1))) = Some enrollment)
    by (rewrite He1, Hfe1; exact Henr).
  assert (Hsch1 : Billing.scheme_of enrollment (store w1) = Some scheme)
    by (unfold Billing.scheme_of in *; rewrite Ht1, Hft1; exact Hsch).
  assert (Hfees : nonempty (Billing.existingFees eid (store w1)) = true).
  { unfold Billing.existingFees. rewrite nonempty_limit_filter.
    apply existsb_exists. exists f. split; [exact Hf|].
    unfold Billing.fee_of_enrollment. rewrite Hfe. apply Z.eqb_refl. }
  assert (Hsecond :
            Billing.generateBilling iab add_months now' faults' eid cb' w1
            = (Throw "Billing already generated for this enrollment",
               {| store := store w1;
                  logged := logged w1 ++ [(info, "Generating billing for enrollment")] |})).
  { unfold Billing.generateBilling. eff. rewrite Henr1. eff. rewrite Hsch1. eff.
    rewrite Hfees. reflexivity. }
  split.
  - eexists. split; [exact Hsecond|reflexivity].
  - unfold Billing.post_generate_billing. rewrite Hnz. eff.
    rewrite Hsecond. eexists. split; [reflexivity|reflexivity].
Qed.

Lemma initialize_account_balance_spec_frame (now : Time) :
  keeps_enrollments (initialize_account_balance_spec now).
Proof.
  intros eid name sid total s. unfold initialize_account_balance_spec.
  destruct (find _ _); split; reflexivity.
Qed.

Lemma second_billing_generation_conflicts_witness :
  let w1 := snd (Billing.generateBilling (initialize_account_balance_spec 1000)
                   add_months_30 1000 Billing.no_faults 5 (Some 99)
                   (world_of (billing_store installment_scheme))) in
  (exists w2,
      Billing.generateBilling (initialize_account_balance_spec 1000) add_months_30
        2000 Billing.no_faults 5 (Some 99) w1
      = (Throw "Billing already generated for this enrollment", w2) /\
      store w2 = store w1) /\
  (exists w2,
      Billing.post_generate_billing (initialize_account_balance_spec 1000) add_months_30
        2000 Billing.no_faults (Some 5) (Some 99) w1
      = (Ok (res_error 400 "Billing already generated for this enrollment"), w2) /\
      store w2 = store w1).
Proof.
  intros w1.
  eapply (second_billing_generation_conflicts (initialize_account_balance_spec 1000)
            add_months_30 1000 2000 Billing.no_faults Billing.no_faults 5
            (Some 99) (Some 99) (world_of (billing_store installment_scheme)) w1).
  - exact (initialize_account_balance_spec_frame 1000).
  - reflexivity.
  - vm_compute. reflexivity.
Defined.

(** * Checkout creation *)





(** ** C7: what a checkout charges *)



(** * The scenario of an installment enrollment

    Billing is generated for enrollment 5 (downpayment 1000, four monthly
    payments of 2000, total 9000); the first checkout charges the
    downpayment; its completion, with the stored procedure modelled from the
    spec, marks the fee paid and leaves the balance; the next checkout charges
    installment 1; a second delivery of the first payment changes nothing. *)

Example installment_scenario :
  let ppt := process_payment_transaction_spec 3000 in
  let w1 := snd (Billing.generateBilling (initialize_account_balance_spec 1000)
                   add_months_30 1000 Billing.no_faults 5 (Some 99)
                   (world_of (billing_store installment_scheme))) in
  let c1 := Billing.post_create_checkout gateway_sample billing_env 2000 (Some 5)
              (Some 99) w1 in
  let ev := paid_event (Some "enrollment") 1 (Some 5) in
  let w3 := snd (Billing.handleEnrollmentPayment ppt ev (snd c1)) in
  let c2 := Billing.post_create_checkout gateway_sample billing_env 4000 (Some 5)
              (Some 99) w3 in
  let w5 := snd (Billing.handleEnrollmentPayment ppt ev (snd c2)) in
  map fee_amount (enrollment_fees (store w1)) = [1000%Q] /\
  map installment_number (payment_installments (store w1)) = [1; 2; 3; 4] /\
  option_map (fun r => match body r with
                       | Json_checkout c => Some (co_amount c, co_payment_type c)
                       | _ => None
                       end)
             (match fst c1 with Ok r => Some r | Throw _ => None end)
  = Some (Some (round2 1000, "downpayment")) /\
  map is_paid (enrollment_fees (store w3)) = [true] /\
  balance_of 1 (store w3) = balance_of 1 (store w1) /\
  option_map (fun r => match body r with
                       | Json_checkout c => Some (co_amount c, co_description c)
                       | _ => None
                       end)
             (match fst c2 with Ok r => Some r | Throw _ => None end)
  = Some (Some (round2 2000, "Installment 1/4 - Plan A")) /\
  store w5 = store (snd c2).
Proof.
  vm_compute. repeat split; reflexivity.
Qed.

(** * Further properties of the billing router *)

(** ** Subject rows after a payment *)

(** X1. [createEnrollmentSubjects] never throws and is idempotent: a second
    run on the store the first run left writes nothing. *)
Theorem createEnrollmentSubjects_idempotent :
  forall (eid : Z) (details : Enrollment) (w : World),
    let w1 := snd (Billing.createEnrollmentSubjects eid details w) in
    fst (Billing.createEnrollmentSubjects eid details w) = Ok tt /\
    fst (Billing.createEnrollmentSubjects eid details w1) = Ok tt /\
    store (snd (Billing.createEnrollmentSubjects eid details w1)) = store w1.
Proof.
  intros eid details w. unfold Billing.createEnrollmentSubjects. eff.
  destruct (nonempty (limit 1 (filter (fun es => es_enrollment_id es =? eid)
                                      (enrollment_subjects (store w))))) eqn:Hex.
  - cbn [fst snd store logged]. rewrite Hex. repeat split; reflexivity.
  - destruct (single (filter (fun st => student_id st =? enr_student_id details)
                             (students (store w)))) as [student|] eqn:Hst.
    + destruct (filter (fun c => (cs_program_id c =? enr_program_id details)
                                 && (cs_semester_id c =? enr_semester_id details)
                                 && (cs_year_level c =? year_level student))
                       (course_subjects (store w))) as [|c cs] eqn:Hsub.
      * cbn [fst snd store logged]. rewrite Hex. cbn [store logged].
        rewrite Hst. cbn [store logged]. rewrite Hsub. repeat split; reflexivity.
      * cbn [fst snd store logged enrollment_subjects with_enrollment_subjects].
        rewrite nonempty_limit_filter. rewrite existsb_app.
        cbn [map existsb es_enrollment_id].
        rewrite Z.eqb_refl, orb_true_r. cbn. repeat split; reflexivity.
    + cbn [fst snd store logged]. rewrite Hex. cbn [store logged].
      rewrite Hst. repeat split; reflexivity.
Qed.

(** X2. When the enrollment has no subject row yet and the student is found,
    [createEnrollmentSubjects] appends one [Enrolled] row per course subject
    of the program, semester and year level of the student, in table order,
    and nothing else changes. *)
Theorem createEnrollmentSubjects_rows :
  forall (eid : Z) (details : Enrollment) (w : World) (student : Student),
    existsb (fun es => es_enrollment_id es =? eid) (enrollment_subjects (store w)) = false ->
    single (filter (fun st => student_id st =? enr_student_id details)
                   (students (store w))) = Some student ->
    let matching :=
      filter (fun c => (cs_program_id c =? enr_program_id details)
                       && (cs_semester_id c =? enr_semester_id details)
                       && (cs_year_level c =? year_level student))
             (course_subjects (store w)) in
    let w1 := snd (Billing.createEnrollmentSubjects eid details w) in
    store w1
    = with_enrollment_subjects (store w)
        (enrollment_subjects (store w)
           ++ map (fun c => {| es_enrollment_id := eid;
                               es_subject_id := cs_subject_id c;
                               es_status := "Enrolled" |}) matching) /\
    map es_subject_id
        (filter (fun es => es_enrollment_id es =? eid) (enrollment_subjects (store w1)))
    = map cs_subject_id matching.
Proof.
  intros eid details w student Hnone Hst matching w1.
  assert (Hstore : store w1
                   = with_enrollment_subjects (store w)
                       (enrollment_subjects (store w)
                          ++ map (fun c => {| es_enrollment_id := eid;
                                              es_subject_id := cs_subject_id c;
                                              es_status := "Enrolled" |}) matching)).
  { subst w1. unfold Billing.createEnrollmentSubjects. eff.
    rewrite nonempty_limit_filter, Hnone, Hst. fold matching.
    destruct matching as [|c cs]; cbn [snd store map].
    - rewrite app_nil_r. destruct (store w); reflexivity.
    - reflexivity. }
  split; [exact Hstore|].
  rewrite Hstore. cbn [enrollment_subjects with_enrollment_subjects].
  rewrite filter_app, (existsb_false_filter _ _ Hnone). cbn [app].
  clear Hstore. generalize matching. intros l.
  induction l as [|c cs IH]; cbn; [reflexivity|].
  rewrite Z.eqb_refl. cbn. now rewrite IH.
Qed.

Lemma createEnrollmentSubjects_rows_witness :
  let s := {| tuition_schemes := []; enrollments := [sample_enrollment];
              accounts := []; enrollment_fees := []; payment_installments := [];
              payments := []; payment_transactions := []; account_transactions := [];
              students := [{| student_id := 10; year_level := 1 |}];
              course_subjects :=
                [{| cs_subject_id := 31; cs_program_id := 1; cs_semester_id := 2;
                    cs_year_level := 1 |};
                 {| cs_subject_id := 32; cs_program_id := 1; cs_semester_id := 2;
                    cs_year_level := 2 |};
                 {| cs_subject_id := 33; cs_program_id := 1; cs_semester_id := 2;
                    cs_year_level := 1 |}];
              enrollment_subjects := [] |} in
  map es_subject_id
      (filter (fun es => es_enrollment_id es =? 5)
              (enrollment_subjects
                 (store (snd (Billing.createEnrollmentSubjects 5 sample_enrollment
                                (world_of s))))))
  = [31; 33].
Proof.
  intros s.
  exact (proj2 (createEnrollmentSubjects_rows 5 sample_enrollment (world_of s)
                  {| student_id := 10; year_level := 1 |} eq_refl eq_refl)).
Defined.

(** ** Failure and post-processing of a completion *)

(** X3. When the stored procedure reports an error for a payment that is not
    yet completed, [processPaymentCompletion] throws that error, logs it, and
    leaves the store as the procedure left it; the callers report it: the
    success redirect goes to the error page, [handleEnrollmentPayment]
    rethrows, and the webhook of the payments router answers 500. *)
Theorem completion_failure_is_reported :
  forall (ppt : Z -> Z -> option Z -> Q -> string -> Rpc unit)
         (env : Billing.Env) (penv : Payments.Env) (now : Time)
         (req : Payments.WebhookRequest)
         (pid : Z) (payment : Payment) (w : World) (e : string) (s1 : Store),
    (pid =? 0) = false ->
    single (filter (fun p => payment_id p =? pid) (payments (store w))) = Some payment ->
    (pay_status payment =? "Completed")%string = false ->
    ppt pid (pay_account_id payment) (pay_enrollment_id payment) (pay_amount payment)
        (payment_type payment) (store w) = (Throw e, s1) ->
    Billing.is_paid_event (Payments.event req) = true ->
    Billing.meta_payment_id (Payments.event req) = Some pid ->
    Payments.is_enrollment_payment (Payments.event req) = true ->
    (exists w', Billing.processPaymentCompletion ppt pid payment w = (Throw e, w') /\
                store w' = s1 /\
                In (error, "Transaction processing failed") (logged w')) /\
    (exists w', Billing.get_payment_success ppt env (Some pid) w
                = (Ok (res_redirect (Billing.FRONTEND_URL env +++
                         "/student/payment?status=error&message=Processing failed")), w') /\
                store w' = s1) /\
    (exists w', Billing.handleEnrollmentPayment ppt (Payments.event req) w = (Throw e, w') /\
                store w' = s1) /\
    (exists w', Payments.post_webhook ppt penv now req w
                = (Ok (res_error 500 "Webhook processing failed"), w') /\
                store w' = s1).
Proof.
  intros ppt env penv now req pid payment w e s1
         Hnz Hfind Hst Hrpc Hpaid Hpid Hroute.
  assert (Hrun : forall l,
             Billing.processPaymentCompletion ppt pid payment
               {| store := store w; logged := l |}
             = (Throw e,
                {| store := s1;
                   logged := ((l ++ [(info, "Starting payment processing")])
                                ++ [(error, "Transaction processing failed")])
                               ++ [(error, "Error processing payment completion")] |})).
  { intros l. unfold Billing.processPaymentCompletion. rewrite Hst. eff.
    rewrite Hrpc. reflexivity. }
  repeat split.
  - destruct w as [s l]. cbn [store] in *. rewrite Hrun.
    eexists. split; [reflexivity|]. split; [reflexivity|].
    cbn [logged]. rewrite !in_app_iff. cbn. tauto.
  - unfold Billing.get_payment_success. eff. rewrite Hfind, Hst. eff.
    rewrite Hrun. eexists. split; reflexivity.
  - unfold Billing.handleEnrollmentPayment. eff. rewrite Hpid, Hnz. eff.
    rewrite Hfind. rewrite Hrun. eexists. split; reflexivity.
  - unfold Payments.post_webhook. eff. rewrite Hpaid, Hpid, Hroute. eff.
    unfold Billing.handleEnrollmentPayment. eff. rewrite Hpid, Hnz. eff.
    rewrite Hfind. rewrite Hrun. eexists. split; reflexivity.
Qed.

Lemma completion_failure_is_reported_witness :
  let w := world_of (sample_ledger [sample_payment 7 (Some 5) 1000 "Pending" "downpayment"]
                       []) in
  exists w', Payments.post_webhook failing_transaction live_env 1000
               {| Payments.paymongo_signature := None;
                  Payments.event := paid_event (Some "enrollment") 7 (Some 5) |} w
             = (Ok (res_error 500 "Webhook processing failed"), w') /\
             store w' = store w.
Proof.
  intros w.
  exact (proj2 (proj2 (proj2
           (completion_failure_is_reported failing_transaction billing_env live_env 1000
              {| Payments.paymongo_signature := None;
                 Payments.event := paid_event (Some "enrollment") 7 (Some 5) |}
              7 (sample_payment 7 (Some 5) 1000 "Pending" "downpayment") w
              "deadlock detected" (store w)
              eq_refl eq_refl eq_refl eq_refl eq_refl eq_refl eq_refl)))).
Defined.

(** X4. After a successful stored procedure call, [processPaymentCompletion]
    writes nothing of its own unless the payment is a full payment or a
    downpayment and its enrollment now reads [Enrolled]: for every other
    payment type, and for an enrollment in any other status, the resulting
    store is the one the procedure left, and the result is success without
    [already_processed]. *)
Theorem completion_writes_subjects_only_when_enrolled :
  forall (ppt : Z -> Z -> option Z -> Q -> string -> Rpc unit)
         (pid : Z) (payment : Payment) (w : World) (s1 : Store),
    (pay_status payment =? "Completed")%string = false ->
    ppt pid (pay_account_id payment) (pay_enrollment_id payment) (pay_amount payment)
        (payment_type payment) (store w) = (Ok tt, s1) ->
    settles_enrollment payment = false \/
    match single (filter (fun e => opt_Z_eqb (pay_enrollment_id payment) (enrollment_id e))
                         (enrollments s1)) with
    | Some details => (enr_status details =? "Enrolled")%string = false
    | None => True
    end ->
    exists w',
      Billing.processPaymentCompletion ppt pid payment w
      = (Ok {| success := true; already_processed := false |}, w') /\
      store w' = s1.
Proof.
  intros ppt pid payment w s1 Hst Hrpc Hcase.
  unfold Billing.processPaymentCompletion. rewrite Hst. eff. rewrite Hrpc. eff.
  fold (settles_enrollment payment).
  destruct (single (filter (fun e => opt_Z_eqb (pay_enrollment_id payment) (enrollment_id e))
                           (enrollments s1))) as [details|].
  - destruct (pay_enrollment_id payment) as [eid|].
    + destruct Hcase as [Hty|Hen].
      * rewrite Hty, andb_false_r. eexists. split; reflexivity.
      * rewrite Hen. cbn [andb]. eexists. split; reflexivity.
    + eexists. split; reflexivity.
  - eexists. split; reflexivity.
Qed.

Lemma completion_writes_subjects_only_when_enrolled_witness :
  let w := world_of (sample_ledger [sample_payment 7 (Some 5) 2000 "Pending" "installment"]
                       [sample_installment 1 30]) in
  exists w',
    Billing.processPaymentCompletion (process_payment_transaction_spec 1000) 7
      (sample_payment 7 (Some 5) 2000 "Pending" "installment") w
    = (Ok {| success := true; already_processed := false |}, w') /\
    store w' = snd (process_payment_transaction_spec 1000 7 1 (Some 5) 2000 "installment"
                      (store w)).
Proof.
  intros w.
  apply (completion_writes_subjects_only_when_enrolled
           (process_payment_transaction_spec 1000) 7
           (sample_payment 7 (Some 5) 2000 "Pending" "installment") w).
  - reflexivity.
  - reflexivity.
  - left. reflexivity.
Defined.

(** ** More on billing generation *)

Lemma next_id_above {A : Type} (key : A -> Z) (t : list A) (r : A) :
  In r t -> key r < next_id key t.
Proof.
  unfold next_id. induction t as [|a t IH]; cbn [fold_right In]; [tauto|].
  intros [->|H]; [lia|]. specialize (IH H). lia.
Qed.

Lemma delete_inserted {A : Type} (key : A -> Z) (t : list A) (row : A) :
  key row = next_id key t ->
  delete_where (fun r => key r =? key row) (t ++ [row]) = t.
Proof.
  intros Hk. unfold delete_where. rewrite filter_app. cbn.
  rewrite Z.eqb_refl. cbn. rewrite app_nil_r.
  apply filter_all. intros r Hr. apply next_id_above with (key := key) in Hr.
  destruct (Z.eqb_spec (key r) (key row)); [lia|reflexivity].
Qed.

Lemma with_enrollment_fees_same (s : Store) :
  with_enrollment_fees s (enrollment_fees s) = s.
Proof. destruct s; reflexivity. Qed.



(** X6. [generate-billing] rejects a request before any write when the
    enrollment id is missing or 0 (400), when the enrollment is not found
    (404), and when the enrollment has no tuition scheme -- which is answered
    with 500, its message not being one the route maps to 404. *)
Theorem billing_lookup_failures :
  forall (iab : Z -> string -> Z -> Q -> Rpc Z) (add_months : Time -> Z -> Date)
         (now : Time) (faults : Billing.Faults) (cb : option Z) (w : World) (eid : Z),
    Billing.post_generate_billing iab add_months now faults None cb w
    = (Ok (res_error 400 "Enrollment ID is required"), w) /\
    Billing.post_generate_billing iab add_months now faults (Some 0) cb w
    = (Ok (res_error 400 "Enrollment ID is required"), w) /\
    ((eid =? 0) = false ->
     single (filter (fun e => enrollment_id e =? eid) (enrollments (store w))) = None ->
     exists w', Billing.post_generate_billing iab add_months now faults (Some eid) cb w
                = (Ok (res_error 404 "Enrollment not found"), w') /\
                store w' = store w) /\
    ((eid =? 0) = false ->
     forall enrollment,
       single (filter (fun e => enrollment_id e =? eid) (enrollments (store w)))
         = Some enrollment ->
       Billing.scheme_of enrollment (store w) = None ->
       exists w', Billing.post_generate_billing iab add_months now faults (Some eid) cb w
                  = (Ok (res_error 500 "No tuition scheme found for this enrollment"), w') /\
                  store w' = store w).
Proof.
  intros iab add_months now faults cb w eid.
  split; [reflexivity|]. split; [reflexivity|]. split.
  - intros Hnz Hnone. unfold Billing.post_generate_billing, Billing.generateBilling.
    rewrite Hnz. eff. rewrite Hnone. eff. eexists. split; reflexivity.
  - intros Hnz enrollment Henr Hsch.
    unfold Billing.post_generate_billing, Billing.generateBilling.
    rewrite Hnz. eff. rewrite Henr. eff. rewrite Hsch. eff.
    eexists. split; reflexivity.
Qed.

Lemma billing_lookup_failures_witness :
  exists w', Billing.post_generate_billing (initialize_account_balance_spec 1000)
               add_months_30 1000 Billing.no_faults (Some 6) None
               (world_of (billing_store installment_scheme))
             = (Ok (res_error 404 "Enrollment not found"), w') /\
             store w' = billing_store installment_scheme.
Proof.
  exact (proj1 (proj2 (proj2
           (billing_lookup_failures (initialize_account_balance_spec 1000) add_months_30
              1000 Billing.no_faults None
              (world_of (billing_store installment_scheme)) 6)))
           eq_refl eq_refl).
Defined.

Lemma Qfloor_nonpos (y : Q) : Qfloor y <= 0 <-> (y < 1)%Q.
Proof.
  split.
  - intros H. apply Qlt_le_trans with (y := inject_Z (Qfloor y + 1)).
    + apply Qlt_floor.
    + change 1%Q with (inject_Z 1). rewrite <- Zle_Qle. lia.
  - intros H. destruct (Z_le_gt_dec (Qfloor y) 0) as [Hle|Hgt]; [exact Hle|].
    exfalso. apply (Qlt_not_le _ _ H).
    apply Qle_trans with (y := inject_Z (Qfloor y)); [|apply Qfloor_le].
    change 1%Q with (inject_Z 1). rewrite <- Zle_Qle. lia.
Qed.

(** The rounding to cents gives a non-positive amount exactly below half a
    cent. *)
Lemma round2_nonpos (x : Q) : Qleb (round2 x) 0 = true <-> (x < 1 # 200)%Q.
Proof.
  unfold Qleb. rewrite Qle_bool_iff. unfold round2, Math_round.
  unfold Qle. cbn [Qnum Qden]. rewrite Z.mul_1_r. cbn [Z.mul].
  change (Qfloor (x * 100 + (1 # 2)) <= 0 <-> (x < 1 # 200)%Q).
  rewrite Qfloor_nonpos. split; intros H.
  - apply Qmult_lt_r with (z := 100%Q); [reflexivity|].
    setoid_replace ((1 # 200) * 100)%Q with (1 # 2)%Q by reflexivity.
    apply Qplus_lt_l with (z := (1 # 2)%Q).
    setoid_replace ((1 # 2) + (1 # 2))%Q with 1%Q by reflexivity. exact H.
  - apply Qmult_lt_r with (z := 100%Q) in H; [|reflexivity].
    setoid_replace ((1 # 200) * 100)%Q with (1 # 2)%Q in H by reflexivity.
    apply Qplus_lt_l with (z := (1 # 2)%Q) in H.
    setoid_replace ((1 # 2) + (1 # 2))%Q with 1%Q in H by reflexivity. exact H.
Qed.

(** X7. A scheme whose amount less discount is below half a cent cannot be
    billed: [generate-billing] answers 500 "Invalid billing amount" before
    the account is initialised and before any row is written. *)
Theorem billing_rejects_nonpositive_total :
  forall (iab : Z -> string -> Z -> Q -> Rpc Z) (add_months : Time -> Z -> Date)
         (now : Time) (faults : Billing.Faults) (eid : Z) (cb : option Z) (w : World)
         (enrollment : Enrollment) (scheme : TuitionScheme),
    (eid =? 0) = false ->
    single (filter (fun e => enrollment_id e =? eid) (enrollments (store w)))
      = Some enrollment ->
    Billing.scheme_of enrollment (store w) = Some scheme ->
    billing_exists eid (store w) = false ->
    (scheme_amount scheme - parseFloat_or0 (scheme_discount scheme) < 1 # 200)%Q ->
    exists w', Billing.post_generate_billing iab add_months now faults (Some eid) cb w
               = (Ok (res_error 500 "Invalid billing amount"), w') /\
               store w' = store w.
Proof.
  intros iab add_months now faults eid cb w enrollment scheme
         Hnz Henr Hsch Hex Hlow.
  assert (Htot : Qleb (Billing.totalAmount scheme) 0 = true)
    by (apply round2_nonpos; exact Hlow).
  unfold Billing.post_generate_billing, Billing.generateBilling.
  rewrite Hnz. eff. rewrite Henr. eff. rewrite Hsch. eff.
  unfold billing_exists in Hex. rewrite Hex, Htot. eff.
  eexists. split; reflexivity.
Qed.

Lemma billing_rejects_nonpositive_total_witness :
  let scheme := {| scheme_id := 3; scheme_name := "Scholar"; scheme_type := "full_payment";
                   scheme_amount := 9000; scheme_downpayment := None;
                   scheme_monthly_payment := None; scheme_months := None;
                   scheme_discount := Some 9000%Q |} in
  exists w', Billing.post_generate_billing (initialize_account_balance_spec 1000)
               add_months_30 1000 Billing.no_faults (Some 5) None
               (world_of (billing_store scheme))
             = (Ok (res_error 500 "Invalid billing amount"), w') /\
             store w' = billing_store scheme.
Proof.
  intros scheme.
  apply (billing_rejects_nonpositive_total (initialize_account_balance_spec 1000)
           add_months_30 1000 Billing.no_faults 5 None
           (world_of (billing_store scheme)) sample_enrollment scheme);
    reflexivity.
Defined.

(** X8. The scheme type is checked only after the account is initialised: for
    a scheme that is neither [full_payment] nor [installment],
    [generateBilling] throws "Invalid scheme type: <type>", creates no fee and
    no installment, and the store keeps what the account initialisation
    wrote. *)
Theorem invalid_scheme_type_after_account_initialisation :
  forall (iab : Z -> string -> Z -> Q -> Rpc Z) (add_months : Time -> Z -> Date)
         (now : Time) (faults : Billing.Faults) (eid : Z) (cb : option Z) (w : World)
         (enrollment : Enrollment) (scheme : TuitionScheme) (aid : Z) (s1 : Store),
    single (filter (fun e => enrollment_id e =? eid) (enrollments (store w)))
      = Some enrollment ->
    Billing.scheme_of enrollment (store w) = Some scheme ->
    billing_exists eid (store w) = false ->
    Qleb (Billing.totalAmount scheme) 0 = false ->
    iab eid (scheme_name scheme) (enr_student_id enrollment)
        (Billing.totalAmount scheme) (store w) = (Ok aid, s1) ->
    (scheme_type scheme =? "full_payment")%string = false ->
    (scheme_type scheme =? "installment")%string = false ->
    exists w',
      Billing.generateBilling iab add_months now faults eid cb w
      = (Throw ("Invalid scheme type: " +++ scheme_type scheme), w') /\
      store w' = s1.
Proof.
  intros iab add_months now faults eid cb w enrollment scheme aid s1
         Henr Hsch Hex Htot Hrpc Hfull Hinst.
  unfold Billing.generateBilling. eff.
  rewrite Henr. eff. rewrite Hsch. eff.
  unfold billing_exists in Hex. rewrite Hex, Htot. eff. rewrite Hrpc. eff.
  rewrite Hfull, Hinst. eexists. split; reflexivity.
Qed.

Lemma invalid_scheme_type_after_account_initialisation_witness :
  let scheme := sample_scheme "semestral" None None None in
  exists w',
    Billing.generateBilling (initialize_account_balance_spec 1000) add_months_30 1000
      Billing.no_faults 5 None (world_of (billing_store scheme))
    = (Throw "Invalid scheme type: semestral", w') /\
    store w' = snd (initialize_account_balance_spec 1000 5 "Plan A" 10
                      (Billing.totalAmount scheme) (billing_store scheme)).
Proof.
  intros scheme.
  apply (invalid_scheme_type_after_account_initialisation
           (initialize_account_balance_spec 1000) add_months_30 1000
           Billing.no_faults 5 None (world_of (billing_store scheme))
           sample_enrollment scheme 1); reflexivity.
Defined.

(** X9. Billing generation for an installment scheme leaves no billing row
    behind when an insert fails: if the downpayment fee cannot be inserted it
    throws "Failed to generate downpayment", and if the installments cannot
    be inserted it deletes the downpayment fee again and throws "Failed to
    generate installments". In both cases the store is the one the account
    initialisation left. *)
Theorem failed_insert_leaves_no_billing_row :
  forall (iab : Z -> string -> Z -> Q -> Rpc Z) (add_months : Time -> Z -> Date)
         (now : Time) (faults : Billing.Faults) (eid : Z) (cb : option Z) (w : World)
         (enrollment : Enrollment) (scheme : TuitionScheme) (aid : Z) (s1 : Store),
    single (filter (fun e => enrollment_id e =? eid) (enrollments (store w)))
      = Some enrollment ->
    Billing.scheme_of enrollment (store w) = Some scheme ->
    billing_exists eid (store w) = false ->
    Qleb (Billing.totalAmount scheme) 0 = false ->
    iab eid (scheme_name scheme) (enr_student_id enrollment)
        (Billing.totalAmount scheme) (store w) = (Ok aid, s1) ->
    scheme_type scheme = "installment" ->
    (Billing.fee_insert_error faults <> None ->
     exists w',
       Billing.generateBilling iab add_months now faults eid cb w
       = (Throw "Failed to generate downpayment", w') /\ store w' = s1) /\
    (Billing.fee_insert_error faults = None ->
     Billing.installment_insert_error faults <> None ->
     exists w',
       Billing.generateBilling iab add_months now faults eid cb w
       = (Throw "Failed to generate installments", w') /\ store w' = s1).
Proof.
  intros iab add_months now faults eid cb w enrollment scheme aid s1
         Henr Hsch Hex Htot Hrpc Hty.
  split.
  - intros Hfee. unfold Billing.generateBilling. eff.
    rewrite Henr. eff. rewrite Hsch. eff.
    unfold billing_exists in Hex. rewrite Hex, Htot. eff. rewrite Hrpc. eff.
    rewrite Hty. cbn [String.eqb Ascii.eqb Bool.eqb].
    destruct (Billing.fee_insert_error faults) as [err|]; [|congruence].
    destruct (Qltb _ _); eff; eexists; split; reflexivity.
  - intros Hfee Hinst. unfold Billing.generateBilling. eff.
    rewrite Henr. eff. rewrite Hsch. eff.
    unfold billing_exists in Hex. rewrite Hex, Htot. eff. rewrite Hrpc. eff.
    rewrite Hty. cbn [String.eqb Ascii.eqb Bool.eqb]. rewrite Hfee.
    destruct (Billing.installment_insert_error faults) as [err|]; [|congruence].
    unfold Billing.insert_fee.
    destruct (Qltb _ _); eff;
      (eexists; split; [reflexivity|];
       cbn [store enrollment_fees with_enrollment_fees];
       rewrite (delete_inserted fee_id (enrollment_fees s1)) by reflexivity;
       destruct s1; reflexivity).
Qed.

Lemma failed_insert_leaves_no_billing_row_witness :
  let faults := {| Billing.fee_insert_error := None;
                   Billing.installment_insert_error := Some "timeout" |} in
  exists w',
    Billing.generateBilling (initialize_account_balance_spec 1000) add_months_30 1000
      faults 5 None (world_of (billing_store installment_scheme))
    = (Throw "Failed to generate installments", w') /\
    store w' = snd (initialize_account_balance_spec 1000 5 "Plan A" 10
                      (Billing.totalAmount installment_scheme)
                      (billing_store installment_scheme)).
Proof.
  intros faults.
  apply (proj2 (failed_insert_leaves_no_billing_row
                  (initialize_account_balance_spec 1000) add_months_30 1000 faults 5
                  None (world_of (billing_store installment_scheme))
                  sample_enrollment installment_scheme 1
                  (snd (initialize_account_balance_spec 1000 5 "Plan A" 10
                          (Billing.totalAmount installment_scheme)
                          (billing_store installment_scheme)))
                  eq_refl eq_refl eq_refl eq_refl eq_refl eq_refl)).
  - reflexivity.
  - discriminate.
Defined.

(** ** Billing generation followed by a checkout *)




(** * Further properties of the billing webhook *)

Lemma append_snoc (cur : string) (a : ascii) (s : string) :
  (cur +++ String a EmptyString) +++ s = cur +++ String a s.
Proof. induction cur as [|b cur IH]; cbn; [reflexivity|]. now rewrite IH. Qed.

Lemma append_empty_r (s : string) : s +++ EmptyString = s.
Proof. induction s as [|a s IH]; cbn; [reflexivity|]. now rewrite IH. Qed.

Lemma split_go_no_char (c : ascii) (s cur : string) :
  has_char c s = false -> split_go c s cur = [cur +++ s].
Proof.
  revert cur. induction s as [|a s IH]; intros cur H; cbn.
  - now rewrite append_empty_r.
  - cbn in H. apply orb_false_iff in H. destruct H as [Ha Hs].
    rewrite Ha, (IH _ Hs), append_snoc. reflexivity.
Qed.

Lemma split_go_sep (c : ascii) (s rest cur : string) :
  has_char c s = false ->
  split_go c (s +++ String c rest) cur = (cur +++ s) :: split_go c rest EmptyString.
Proof.
  revert cur. induction s as [|a s IH]; intros cur H; cbn.
  - rewrite Ascii.eqb_refl, append_empty_r. reflexivity.
  - cbn in H. apply orb_false_iff in H. destruct H as [Ha Hs].
    rewrite Ha, (IH _ Hs), append_snoc. reflexivity.
Qed.

(** Splitting undoes joining, for parts free of the separator. *)
Lemma split_concat (c : ascii) (parts : list string) :
  parts <> [] ->
  (forall x, In x parts -> has_char c x = false) ->
  split c (String.concat (String c EmptyString) parts) = parts.
Proof.
  unfold split. induction parts as [|x parts IH]; intros Hne Hall; [congruence|].
  destruct parts as [|y ys].
  - cbn. rewrite split_go_no_char by (apply Hall; now left). reflexivity.
  - change (String.concat (String c EmptyString) (x :: y :: ys))
      with (x +++ String c (String.concat (String c EmptyString) (y :: ys))).
    rewrite split_go_sep by (apply Hall; now left). cbn [String.append].
    f_equal. apply IH; [discriminate|]. intros z Hz. apply Hall. now right.
Qed.

(** X11. Extraction of the delivered signature is the inverse of the header
    format: from a header of comma-separated fields that ends with
    [s=<sig>], where no earlier field starts with [s=] and the fields hold no
    comma, [actualSignature] returns [<sig>] when it holds no [=] -- and only
    the part of [<sig>] before its first [=] otherwise. *)
Theorem actualSignature_of_header :
  forall (fields : list string) (sig tail : string),
    (forall f, In f fields -> has_char "," f = false /\ startsWith "s=" f = false) ->
    has_char "," sig = false ->
    has_char "=" sig = false ->
    has_char "," tail = false ->
    Billing.actualSignature
      (String.concat "," (fields ++ ["s=" +++ sig])) = Some sig /\
    Billing.actualSignature
      (String.concat "," (fields ++ ["s=" +++ sig +++ "=" +++ tail])) = Some sig.
Proof.
  intros fields sig tail Hfields Hsig Heq Htail.
  assert (Hfind : forall last,
             startsWith "s=" last = true ->
             find (startsWith "s=") (fields ++ [last]) = Some last).
  { intros last Hlast. induction fields as [|f fs IH]; cbn [find app].
    - now rewrite Hlast.
    - destruct (Hfields f (or_introl eq_refl)) as [_ Hf]. rewrite Hf.
      apply IH. intros g Hg. apply Hfields. now right. }
  assert (Happ : forall a b, has_char "," a = false -> has_char "," b = false ->
                             has_char "," (a +++ b) = false).
  { intros a b Ha Hb. induction a as [|x a IH]; cbn; [exact Hb|].
    cbn in Ha. apply orb_false_iff in Ha. destruct Ha as [Hx Ha].
    now rewrite Hx, IH. }
  unfold Billing.actualSignature. split.
  - rewrite split_concat.
    + rewrite Hfind by reflexivity.
      change (split "=" ("s=" +++ sig))
        with (split_go "=" ("s" +++ String "=" sig) EmptyString).
      rewrite split_go_sep by reflexivity.
      rewrite split_go_no_char by exact Heq. reflexivity.
    + destruct fields; discriminate.
    + intros x Hx. apply in_app_or in Hx. destruct Hx as [Hx|[<-|[]]].
      * apply Hfields; exact Hx.
      * cbn. exact Hsig.
  - rewrite split_concat.
    + rewrite Hfind by reflexivity.
      change (split "=" ("s=" +++ sig +++ "=" +++ tail))
        with (split_go "=" ("s" +++ String "=" (sig +++ String "=" tail)) EmptyString).
      rewrite split_go_sep by reflexivity.
      rewrite split_go_sep by exact Heq. reflexivity.
    + destruct fields; discriminate.
    + intros x Hx. apply in_app_or in Hx. destruct Hx as [Hx|[<-|[]]].
      * apply Hfields; exact Hx.
      * cbn. apply Happ; [exact Hsig|]. cbn. exact Htail.
Qed.

Lemma actualSignature_of_header_witness :
  Billing.actualSignature "t=1700000000,te=,li=abc,s=deadbeef" = Some "deadbeef" /\
  Billing.actualSignature "t=1700000000,te=,li=abc,s=deadbeef=xyz" = Some "deadbeef".
Proof.
  apply (actualSignature_of_header ["t=1700000000"; "te="; "li=abc"] "deadbeef" "xyz").
  - intros f [<-|[<-|[<-|[]]]]; split; reflexivity.
  - reflexivity.
  - reflexivity.
  - reflexivity.
Defined.

Lemma verify_signature_outcome
    (hmac : string -> string -> string) (env : Billing.Env)
    (req : Billing.WebhookRequest) (w : World) :
  exists w',
    store w' = store w /\
    if verification_on env && negb (signature_valid hmac env req)
    then exists msg, Billing.verify_signature hmac env req w
                     = (Ok (Some (res_error 401 msg)), w')
    else Billing.verify_signature hmac env req w = (Ok None, w').
Proof.
  unfold Billing.verify_signature, verification_on, signature_valid, delivered_signature.
  destruct (Billing.PAYMONGO_WEBHOOK_SECRET env) as [secret|]; cbn [truthy_opt].
  - destruct (Billing.PAYMONGO_ENABLED env); cbn [andb].
    + destruct (truthy secret); cbn [andb].
      * destruct (Billing.paymongo_signature req) as [[|a h]|].
        -- eexists. split; [|cbn; eexists; reflexivity]. reflexivity.
        -- cbn [truthy negb].
           destruct (Billing.actualSignature (String a h)) as [actual|].
           ++ destruct (truthy actual && (actual =? hmac secret (Billing.raw_body req))%string);
                eexists; (split; [|cbn; try eexists; reflexivity]); reflexivity.
           ++ eexists. split; [|cbn; eexists; reflexivity]. reflexivity.
        -- eexists. split; [|cbn; eexists; reflexivity]. reflexivity.
      * exists w. split; reflexivity.
    + exists w. split; reflexivity.
  - rewrite andb_false_r. exists w. split; reflexivity.
Qed.


(** X13. Of the requests it lets through, the billing webhook acts only on
    paid events of the enrollment category: every other event -- another
    event type, a body it reads no type from, a tuition payment -- is
    answered 200 without a store write and without a stored procedure
    call. *)
Theorem billing_webhook_ignores_other_events :
  forall (ppt ppt' : Z -> Z -> option Z -> Q -> string -> Rpc unit)
         (hmac : string -> string -> string)
         (env : Billing.Env) (req : Billing.WebhookRequest) (w : World),
    verification_on env && negb (signature_valid hmac env req) = false ->
    Billing.is_paid_event (Billing.event req)
    && Billing.is_enrollment_category (Billing.event req) = false ->
    exists r w',
      Billing.post_webhook_paymongo ppt hmac env req w = (Ok r, w') /\
      status_code r = 200 /\
      store w' = store w /\
      Billing.post_webhook_paymongo ppt' hmac env req w = (Ok r, w').
Proof.
  intros ppt ppt' hmac env req w Hpass Hother.
  destruct (verify_signature_outcome hmac env req w) as (w0 & Hs0 & Hver).
  rewrite Hpass in Hver.
  unfold Billing.post_webhook_paymongo, try_catch, bind.
  rewrite Hver. unfold logger, ret. cbn [store logged].
  destruct (Billing.is_paid_event (Billing.event req)); cbn [andb] in Hother.
  - rewrite Hother. cbn [negb].
    eexists; eexists. repeat split; try reflexivity. exact Hs0.
  - eexists; eexists. repeat split; try reflexivity. exact Hs0.
Qed.

Lemma billing_webhook_ignores_other_events_witness :
  let req := {| Billing.paymongo_signature := None; Billing.raw_body := "{...}";
                Billing.event := paid_event (Some "tuition") 7 None |} in
  let env := {| Billing.PAYMONGO_ENABLED := false;
                Billing.PAYMONGO_SECRET_KEY := None;
                Billing.PAYMONGO_WEBHOOK_SECRET := Some "whsec";
                Billing.BASE_URL := ""; Billing.FRONTEND_URL := "" |} in
  let w := world_of (sample_ledger [sample_payment 7 None 100 "Pending" "balance"] []) in
  exists r w',
    Billing.post_webhook_paymongo (process_payment_transaction_spec 1000) hmac_sample
      env req w = (Ok r, w') /\
    status_code r = 200 /\
    store w' = store w /\
    Billing.post_webhook_paymongo failing_transaction hmac_sample env req w = (Ok r, w').
Proof.
  intros req env w.
  apply (billing_webhook_ignores_other_events (process_payment_transaction_spec 1000)
           failing_transaction hmac_sample env req w); reflexivity.
Defined.

(** * Further properties of the payments router *)

Lemma apply_payment_type_settled (now : Time) (pid : Z) (payment : Payment)
    (account : Account) (w0 : World) :
  Payments.apply_payment_type now pid payment account w0
  = (Ok tt, {| store := settled_store now pid payment account (store w0);
               logged := logged w0 |}).
Proof.
  unfold settled_store, Payments.apply_payment_type, bind, exec, ret.
  destruct (Payments.is_type payment "enrollment"); cbn; [reflexivity|].
  destruct (Payments.is_type payment "balance" || Payments.is_type payment "monthly");
    cbn.
  - destruct (Payments.is_type payment "monthly" && Payments.has_enrollment payment);
      reflexivity.
  - destruct w0; reflexivity.
Qed.

(** The tuition branch of the webhook, for a stored payment with an
    account. *)
Lemma post_webhook_tuition_run
    (ppt : Z -> Z -> option Z -> Q -> string -> Rpc unit)
    (env : Payments.Env) (now : Time) (req : Payments.WebhookRequest) (w : World)
    (pid : Z) (payment : Payment) (account : Account) :
  Billing.is_paid_event (Payments.event req) = true ->
  Billing.meta_payment_id (Payments.event req) = Some pid ->
  Payments.is_enrollment_payment (Payments.event req) = false ->
  Payments.select_payment_with_account pid (store w) = Some (payment, Some account) ->
  exists w',
    Payments.post_webhook ppt env now req w
    = (Ok (res_json (Json_fields [("success", "true"); ("message", "Webhook processed")])),
       w') /\
    store w'
    = completed_store now pid (Billing.session_id (Payments.event req))
        (webhook_method (Payments.event req)) payment account
        ("Payment via " +++ webhook_method (Payments.event req) +++ " - "
           +++ payment_type payment)
        (pay_created_by payment) (store w).
Proof.
  intros Hpaid Hpid Hroute Hsel.
  unfold Payments.post_webhook, try_catch, bind, query, exec, logger.
  cbn [store logged]. rewrite Hpaid, Hpid, Hroute. cbn [store logged]. rewrite Hsel.
  cbn [store logged]. rewrite apply_payment_type_settled.
  unfold Payments.log_transaction, exec. cbn [store logged].
  eexists. split; reflexivity.
Qed.

(** The mock completion of a stored payment with an account. *)
Lemma post_mock_complete_run
    (env : Payments.Env) (now : Time) (pid : Z) (req : Payments.MockRequest) (w : World)
    (payment : Payment) (account : Account) :
  Payments.PAYMONGO_ENABLED env = false ->
  Payments.mock_success req = true ->
  Payments.select_payment_with_account pid (store w) = Some (payment, Some account) ->
  exists w',
    Payments.post_mock_complete env now pid req w
    = (Ok (res_json (Json_completed pid
                       (Math_max0 (total_balance account - pay_amount payment))
                       (Payments.mock_payment_method req))), w') /\
    store w'
    = completed_store now pid ("MOCK_" +++ toString pid +++ "_" +++ toString now)
        (Payments.mock_payment_method req) payment account
        ("Mock Payment - " +++ payment_type payment +++ " via "
           +++ Payments.mock_payment_method req)
        (mock_actor req payment) (store w).
Proof.
  intros Hoff Hsucc Hsel.
  unfold Payments.post_mock_complete. rewrite Hoff.
  unfold try_catch, bind, query, exec, logger.
  cbn [store logged]. rewrite Hsel, Hsucc.
  cbn [store logged]. rewrite apply_payment_type_settled.
  unfold Payments.log_transaction, exec. cbn [store logged].
  eexists. split; reflexivity.
Qed.

Lemma completion_store_cases
    (ppt : Z -> Z -> option Z -> Q -> string -> Rpc unit)
    (env menv : Payments.Env) (now : Time) (req : Payments.WebhookRequest)
    (mreq : Payments.MockRequest) (w w' : World) (pid : Z)
    (payment : Payment) (account : Account) :
  Billing.is_paid_event (Payments.event req) = true ->
  Billing.meta_payment_id (Payments.event req) = Some pid ->
  Payments.is_enrollment_payment (Payments.event req) = false ->
  Payments.PAYMONGO_ENABLED menv = false ->
  Payments.mock_success mreq = true ->
  Payments.select_payment_with_account pid (store w) = Some (payment, Some account) ->
  w' = snd (Payments.post_webhook ppt env now req w) \/
  w' = snd (Payments.post_mock_complete menv now pid mreq w) ->
  exists ref meth descr actor,
    store w' = completed_store now pid ref meth payment account descr actor (store w).
Proof.
  intros Hpaid Hpid Hroute Hoff Hsucc Hsel [-> | ->].
  - destruct (post_webhook_tuition_run ppt env now req w pid payment account
                Hpaid Hpid Hroute Hsel) as (w1 & -> & Hs).
    do 4 eexists. exact Hs.
  - destruct (post_mock_complete_run menv now pid mreq w payment account
                Hoff Hsucc Hsel) as (w1 & -> & Hs).
    do 4 eexists. exact Hs.
Qed.

Lemma settled_store_tables (now : Time) (pid : Z) (payment : Payment)
    (account : Account) (s : Store) :
  payments (settled_store now pid payment account s) = payments s /\
  payment_transactions (settled_store now pid payment account s) = payment_transactions s /\
  account_transactions (settled_store now pid payment account s) = account_transactions s /\
  enrollments (settled_store now pid payment account s) = enrollments s /\
  enrollment_subjects (settled_store now pid payment account s) = enrollment_subjects s.
Proof.
  unfold settled_store, Payments.apply_payment_type, bind, exec, ret.
  destruct (Payments.is_type payment "enrollment"); cbn; [repeat split|].
  destruct (Payments.is_type payment "balance" || Payments.is_type payment "monthly");
    cbn; [|repeat split].
  destruct (Payments.is_type payment "monthly" && Payments.has_enrollment payment);
    cbn; repeat split.
Qed.

(** X14. The audit log is append-only on the payments router: a completion by
    the tuition branch of the webhook or by the mock completion keeps every
    earlier row and appends exactly one, which records the payment id, the
    amount, the balance read before the writes and
    [max(0, balance - amount)] -- for every payment type. *)
Theorem completion_appends_one_audit_row :
  forall (ppt : Z -> Z -> option Z -> Q -> string -> Rpc unit)
         (env menv : Payments.Env) (now : Time) (req : Payments.WebhookRequest)
         (mreq : Payments.MockRequest) (w w' : World) (pid : Z)
         (payment : Payment) (account : Account),
    Billing.is_paid_event (Payments.event req) = true ->
    Billing.meta_payment_id (Payments.event req) = Some pid ->
    Payments.is_enrollment_payment (Payments.event req) = false ->
    Payments.PAYMONGO_ENABLED menv = false ->
    Payments.mock_success mreq = true ->
    Payments.select_payment_with_account pid (store w) = Some (payment, Some account) ->
    w' = snd (Payments.post_webhook ppt env now req w) \/
    w' = snd (Payments.post_mock_complete menv now pid mreq w) ->
    exists row,
      account_transactions (store w') = account_transactions (store w) ++ [row] /\
      atx_payment_id row = pid /\
      atx_account_id row = pay_account_id payment /\
      atx_amount row = pay_amount payment /\
      balance_before row = total_balance account /\
      balance_after row = Qmax 0 (total_balance account - pay_amount payment).
Proof.
  intros ppt env menv now req mreq w w' pid payment account
         Hpaid Hpid Hroute Hoff Hsucc Hsel Hw'.
  destruct (completion_store_cases ppt env menv now req mreq w w' pid payment account
              Hpaid Hpid Hroute Hoff Hsucc Hsel Hw') as (ref & meth & descr & actor & Hs).
  destruct (select_payment_with_account_found _ _ _ _ Hsel) as (_ & _ & Hid).
  exists (audit_row now pid payment account descr actor).
  rewrite Hs. unfold completed_store. cbn [account_transactions with_account_transactions].
  match goal with
  | |- context [settled_store now pid payment account ?s2] =>
      destruct (settled_store_tables now pid payment account s2) as (_ & _ & -> & _)
  end.
  cbn. repeat split; try reflexivity. exact Hid.
Qed.

Lemma completion_appends_one_audit_row_witness :
  let w := world_of (sample_ledger [sample_payment 7 None 600 "Pending" "balance"] []) in
  exists row,
    account_transactions
      (store (snd (Payments.post_mock_complete offline_env 1000 7 default_mock w)))
    = account_transactions (store w) ++ [row] /\
    atx_payment_id row = 7 /\
    atx_account_id row = 1 /\
    atx_amount row = 600%Q /\
    balance_before row = 500%Q /\
    balance_after row = Qmax 0 (500 - 600).
Proof.
  intros w.
  apply (completion_appends_one_audit_row (process_payment_transaction_spec 1000)
           live_env offline_env 1000 (tuition_request 7) default_mock w
           (snd (Payments.post_mock_complete offline_env 1000 7 default_mock w))
           7 (sample_payment 7 None 600 "Pending" "balance") sample_account);
    try reflexivity.
  right. reflexivity.
Defined.

Lemma update_where_paid_all (eid : Z) (now : Time) (t : list EnrollmentFee) :
  let t' := update_where (fun f => opt_Z_eqb (Some eid) (fee_enrollment_id f)
                                   && negb (is_paid f))
              (fee_set_paid now) t in
  (forall f, In f t' -> fee_enrollment_id f = eid -> is_paid f = true) /\
  (forall f, In f t' -> fee_enrollment_id f <> eid -> In f t) /\
  map fee_id t' = map fee_id t /\
  map fee_amount t' = map fee_amount t.
Proof.
  cbn zeta. unfold update_where. split; [|split; [|split]].
  - intros f Hf He. apply in_map_iff in Hf. destruct Hf as [a [<- _]].
    cbn [opt_Z_eqb] in *. destruct (Z.eqb_spec eid (fee_enrollment_id a)) as [E|E].
    + destruct (is_paid a) eqn:Hp; cbn [negb andb]; [exact Hp|reflexivity].
    + cbn [andb] in *. congruence.
  - intros f Hf Hne. apply in_map_iff in Hf. destruct Hf as [a [<- Ha]].
    cbn [opt_Z_eqb] in *. destruct (Z.eqb_spec eid (fee_enrollment_id a)) as [E|E].
    + destruct (is_paid a); cbn [negb andb] in *; [exact Ha|].
      cbn in Hne. congruence.
    + exact Ha.
  - rewrite map_map. apply map_ext. intros a.
    destruct (opt_Z_eqb (Some eid) (fee_enrollment_id a) && negb (is_paid a)); reflexivity.
  - rewrite map_map. apply map_ext. intros a.
    destruct (opt_Z_eqb (Some eid) (fee_enrollment_id a) && negb (is_paid a)); reflexivity.
Qed.

(** X15. An [enrollment] payment completed on the payments router settles by
    fees, not by balance: afterwards every fee of its enrollment is paid
    whatever the amount paid, the fees of other enrollments, the account
    balance and the installments are untouched, and no fee is added or
    repriced -- although the audit row records a balance lowered by
    the amount. *)
Theorem enrollment_payment_settles_fees_only :
  forall (ppt : Z -> Z -> option Z -> Q -> string -> Rpc unit)
         (env menv : Payments.Env) (now : Time) (req : Payments.WebhookRequest)
         (mreq : Payments.MockRequest) (w w' : World) (pid eid : Z)
         (payment : Payment) (account : Account),
    Billing.is_paid_event (Payments.event req) = true ->
    Billing.meta_payment_id (Payments.event req) = Some pid ->
    Payments.is_enrollment_payment (Payments.event req) = false ->
    Payments.PAYMONGO_ENABLED menv = false ->
    Payments.mock_success mreq = true ->
    Payments.select_payment_with_account pid (store w) = Some (payment, Some account) ->
    payment_type payment = "enrollment" ->
    pay_enrollment_id payment = Some eid ->
    w' = snd (Payments.post_webhook ppt env now req w) \/
    w' = snd (Payments.post_mock_complete menv now pid mreq w) ->
    (forall f, In f (enrollment_fees (store w')) -> fee_enrollment_id f = eid ->
               is_paid f = true) /\
    (forall f, In f (enrollment_fees (store w')) -> fee_enrollment_id f <> eid ->
               In f (enrollment_fees (store w))) /\
    map fee_id (enrollment_fees (store w')) = map fee_id (enrollment_fees (store w)) /\
    map fee_amount (enrollment_fees (store w'))
    = map fee_amount (enrollment_fees (store w)) /\
    accounts (store w') = accounts (store w) /\
    payment_installments (store w') = payment_installments (store w).
Proof.
  intros ppt env menv now req mreq w w' pid eid payment account
         Hpaid Hpid Hroute Hoff Hsucc Hsel Hty Heid Hw'.
  destruct (completion_store_cases ppt env menv now req mreq w w' pid payment account
              Hpaid Hpid Hroute Hoff Hsucc Hsel Hw') as (ref & meth & descr & actor & Hs).
  rewrite Hs. unfold completed_store, settled_store, Payments.apply_payment_type,
    Payments.is_type, bind, exec. rewrite Hty, Heid.
  cbn [String.eqb Ascii.eqb Bool.eqb store snd world_of
         enrollment_fees accounts payment_installments with_account_transactions
         with_enrollment_fees with_payment_transactions with_payments].
  destruct (update_where_paid_all eid now (enrollment_fees (store w)))
    as (H1 & H2 & H3 & H4).
  repeat split; assumption || reflexivity.
Qed.

Lemma enrollment_payment_settles_fees_only_witness :
  let fee := fun (n e : Z) (amount : Q) =>
               {| fee_id := n; fee_enrollment_id := e; fee_type := "Tuition";
                  fee_description := "fee"; fee_amount := amount; is_paid := false;
                  fee_paid_at := None |} in
  let w := world_of (with_enrollment_fees
                       (sample_ledger [sample_payment 7 (Some 5) 1 "Pending" "enrollment"] [])
                       [fee 1 5 9000%Q; fee 2 6 4000%Q]) in
  let w' := snd (Payments.post_webhook (process_payment_transaction_spec 1000) live_env
                   1000 (tuition_request 7) w) in
  (forall f, In f (enrollment_fees (store w')) -> fee_enrollment_id f = 5 ->
             is_paid f = true) /\
  (forall f, In f (enrollment_fees (store w')) -> fee_enrollment_id f <> 5 ->
             In f (enrollment_fees (store w))) /\
  map fee_id (enrollment_fees (store w')) = map fee_id (enrollment_fees (store w)) /\
  map fee_amount (enrollment_fees (store w')) = map fee_amount (enrollment_fees (store w)) /\
  accounts (store w') = accounts (store w) /\
  payment_installments (store w') = payment_installments (store w).
Proof.
  intros fee w w'.
  apply (enrollment_payment_settles_fees_only (process_payment_transaction_spec 1000)
           live_env offline_env 1000 (tuition_request 7) default_mock w w' 7 5
           (sample_payment 7 (Some 5) 1 "Pending" "enrollment") sample_account);
    try reflexivity.
  left. reflexivity.
Defined.

(** X16. The payments router settles only [enrollment], [balance] and
    [monthly] payments. A payment of any other type -- [installment],
    [downpayment], [full_payment] -- is marked completed and logged, but no
    fee, no installment and no balance changes. *)
Theorem other_payment_types_settle_nothing :
  forall (ppt : Z -> Z -> option Z -> Q -> string -> Rpc unit)
         (env menv : Payments.Env) (now : Time) (req : Payments.WebhookRequest)
         (mreq : Payments.MockRequest) (w w' : World) (pid : Z)
         (payment : Payment) (account : Account),
    Billing.is_paid_event (Payments.event req) = true ->
    Billing.meta_payment_id (Payments.event req) = Some pid ->
    Payments.is_enrollment_payment (Payments.event req) = false ->
    Payments.PAYMONGO_ENABLED menv = false ->
    Payments.mock_success mreq = true ->
    Payments.select_payment_with_account pid (store w) = Some (payment, Some account) ->
    Payments.is_type payment "enrollment" = false ->
    Payments.is_type payment "balance" = false ->
    Payments.is_type payment "monthly" = false ->
    w' = snd (Payments.post_webhook ppt env now req w) \/
    w' = snd (Payments.post_mock_complete menv now pid mreq w) ->
    status_of pid (store w') = Some "Completed" /\
    enrollment_fees (store w') = enrollment_fees (store w) /\
    payment_installments (store w') = payment_installments (store w) /\
    accounts (store w') = accounts (store w).
Proof.
  intros ppt env menv now req mreq w w' pid payment account
         Hpaid Hpid Hroute Hoff Hsucc Hsel He Hb Hm Hw'.
  destruct (completion_store_cases ppt env menv now req mreq w w' pid payment account
              Hpaid Hpid Hroute Hoff Hsucc Hsel Hw') as (ref & meth & descr & actor & Hs).
  destruct (select_payment_with_account_found _ _ _ _ Hsel) as (Hsingle & _ & _).
  rewrite Hs. unfold completed_store, settled_store, Payments.apply_payment_type,
    bind, exec, ret. rewrite He, Hb, Hm.
  cbn [orb store snd world_of enrollment_fees accounts payment_installments
         with_account_transactions with_payment_transactions with_payments].
  split; [|repeat split].
  eapply status_of_completed; [|exact Hsingle]. reflexivity.
Qed.

Lemma other_payment_types_settle_nothing_witness :
  let w := world_of (sample_ledger [sample_payment 7 (Some 5) 2000 "Pending" "installment"]
                       [sample_installment 1 30; sample_installment 2 60]) in
  let w' := snd (Payments.post_mock_complete offline_env 1000 7 default_mock w) in
  status_of 7 (store w') = Some "Completed" /\
  enrollment_fees (store w') = enrollment_fees (store w) /\
  payment_installments (store w') = payment_installments (store w) /\
  accounts (store w') = accounts (store w).
Proof.
  intros w w'.
  apply (other_payment_types_settle_nothing (process_payment_transaction_spec 1000)
           live_env offline_env 1000 (tuition_request 7) default_mock w w' 7
           (sample_payment 7 (Some 5) 2000 "Pending" "installment") sample_account);
    try reflexivity.
  right. reflexivity.
Defined.

(** X17. A [monthly] payment without an enrollment id, or for an enrollment
    with no pending installment, still lowers the balance (floored at zero)
    but marks no installment. *)
Theorem monthly_payment_without_pending_installment :
  forall (ppt : Z -> Z -> option Z -> Q -> string -> Rpc unit)
         (env menv : Payments.Env) (now : Time) (req : Payments.WebhookRequest)
         (mreq : Payments.MockRequest) (w w' : World) (pid : Z)
         (payment : Payment) (account : Account),
    Billing.is_paid_event (Payments.event req) = true ->
    Billing.meta_payment_id (Payments.event req) = Some pid ->
    Payments.is_enrollment_payment (Payments.event req) = false ->
    Payments.PAYMONGO_ENABLED menv = false ->
    Payments.mock_success mreq = true ->
    Payments.select_payment_with_account pid (store w) = Some (payment, Some account) ->
    payment_type payment = "monthly" ->
    Payments.has_enrollment payment = false \/
    (exists eid, pay_enrollment_id payment = Some eid /\
                 existsb (pending_of eid) (payment_installments (store w)) = false) ->
    w' = snd (Payments.post_webhook ppt env now req w) \/
    w' = snd (Payments.post_mock_complete menv now pid mreq w) ->
    payment_installments (store w') = payment_installments (store w) /\
    balance_of (account_id account) (store w')
    = Some (Qmax 0 (total_balance account - pay_amount payment)).
Proof.
  intros ppt env menv now req mreq w w' pid payment account
         Hpaid Hpid Hroute Hoff Hsucc Hsel Hty Hcase Hw'.
  destruct (completion_store_cases ppt env menv now req mreq w w' pid payment account
              Hpaid Hpid Hroute Hoff Hsucc Hsel Hw') as (ref & meth & descr & actor & Hs).
  destruct (select_payment_with_account_found _ _ _ _ Hsel) as (_ & Hacc & Hid).
  rewrite <- Hid in Hacc.
  rewrite Hs. unfold completed_store, settled_store, Payments.apply_payment_type,
    Payments.is_type, bind, exec, ret. rewrite Hty.
  cbn [String.eqb Ascii.eqb Bool.eqb orb andb].
  destruct (Payments.has_enrollment payment) eqn:Hen.
  - destruct Hcase as [Hc|(eid & Heid & Hnone)]; [discriminate|].
    cbn [store snd world_of payment_installments accounts
           with_account_transactions with_payment_installments with_accounts
           with_payment_transactions with_payments].
    split.
    + apply update_ordered_limit_none. intros r Hr. rewrite Heid. cbn [opt_Z_eqb].
      rewrite Z.eqb_sym. fold (pending_of eid r).
      destruct (pending_of eid r) eqn:Hp; [|reflexivity].
      assert (Hex : existsb (pending_of eid) (payment_installments (store w)) = true)
        by (apply existsb_exists; exists r; split; assumption).
      congruence.
    + eapply balance_of_update; [reflexivity|exact Hacc].
  - cbn [store snd world_of payment_installments accounts
           with_account_transactions with_accounts
           with_payment_transactions with_payments].
    split; [reflexivity|].
    eapply balance_of_update; [reflexivity|exact Hacc].
Qed.

Lemma monthly_payment_without_pending_installment_witness :
  let w := world_of (sample_ledger [sample_payment 7 None 200 "Pending" "monthly"]
                       [sample_installment 1 30]) in
  let w' := snd (Payments.post_webhook (process_payment_transaction_spec 1000) live_env
                   1000 (tuition_request 7) w) in
  payment_installments (store w') = payment_installments (store w) /\
  balance_of 1 (store w') = Some (Qmax 0 (500 - 200)).
Proof.
  intros w w'.
  apply (monthly_payment_without_pending_installment
           (process_payment_transaction_spec 1000) live_env offline_env 1000
           (tuition_request 7) default_mock w w' 7
           (sample_payment 7 None 200 "Pending" "monthly") sample_account);
    try reflexivity.
  - left. reflexivity.
  - left. reflexivity.
Defined.



Lemma status_of_updated (pid : Z) (f : Payment -> Payment) (st : string) (s' : Store)
    (t : list Payment) (payment : Payment) :
  (forall p, payment_id (f p) = payment_id p) ->
  (forall p, pay_status (f p) = st) ->
  payments s' = update_where (fun p => payment_id p =? pid) f t ->
  single (filter (fun p => payment_id p =? pid) t) = Some payment ->
  status_of pid s' = Some st.
Proof.
  intros Hid Hst E H. unfold status_of. rewrite E.
  rewrite (find_update_where payment_id pid f t Hid).
  rewrite (single_filter_find _ _ _ H). cbn. now rewrite Hst.
Qed.

Lemma update_where_others {A : Type} (p : A -> bool) (f : A -> A) (t : list A) (x : A) :
  In x (update_where p f t) ->
  (exists y, In y t /\ p y = true /\ x = f y) \/ (In x t /\ p x = false).
Proof.
  unfold update_where. intros H. apply in_map_iff in H. destruct H as [y [<- Hy]].
  destruct (p y) eqn:E; [left; exists y; auto|right; split; assumption].
Qed.

(** X19. The mock completion refuses to run when the gateway is configured
    (403, nothing written or logged). Offline, a request with
    [success = false] marks the payment and its gateway transaction failed
    and touches no fee, installment, balance or audit row; an unknown
    payment id is answered 404 without a write. *)
Theorem mock_completion_refusal_and_failure :
  forall (env : Payments.Env) (now : Time) (pid : Z) (req : Payments.MockRequest)
         (w : World),
    (Payments.PAYMONGO_ENABLED env = true ->
     Payments.post_mock_complete env now pid req w
     = (Ok (res_error 403 "Mock payments not allowed in production mode"), w)) /\
    (Payments.PAYMONGO_ENABLED env = false ->
     Payments.select_payment_with_account pid (store w) = None ->
     exists w', Payments.post_mock_complete env now pid req w
                = (Ok (res_error 404 "Payment not found"), w') /\
                store w' = store w) /\
    (forall payment joined,
        Payments.PAYMONGO_ENABLED env = false ->
        Payments.mock_success req = false ->
        Payments.select_payment_with_account pid (store w) = Some (payment, joined) ->
        exists w',
          Payments.post_mock_complete env now pid req w
          = (Ok (res_json (Json_fields [("success", "false");
                                        ("message", "Mock payment failed")])), w') /\
          status_of pid (store w') = Some "Failed" /\
          (forall t, In t (payment_transactions (store w')) -> ptx_payment_id t = pid ->
                     ptx_status t = "failed") /\
          accounts (store w') = accounts (store w) /\
          enrollment_fees (store w') = enrollment_fees (store w) /\
          payment_installments (store w') = payment_installments (store w) /\
          account_transactions (store w') = account_transactions (store w)).
Proof.
  intros env now pid req w. split; [|split].
  - intros Hon. unfold Payments.post_mock_complete. rewrite Hon. reflexivity.
  - intros Hoff Hsel. unfold Payments.post_mock_complete. rewrite Hoff.
    unfold try_catch, bind, logger, ret, query. cbn [store logged]. rewrite Hsel.
    eexists. split; reflexivity.
  - intros payment joined Hoff Hfail Hsel.
    assert (Hsingle : single (filter (fun p => payment_id p =? pid) (payments (store w)))
                      = Some payment).
    { unfold Payments.select_payment_with_account in Hsel.
      destruct (single _) as [p|]; [|discriminate]. now injection Hsel as -> _. }
    unfold Payments.post_mock_complete. rewrite Hoff.
    unfold try_catch, bind, logger, ret, query, exec. cbn [store logged].
    rewrite Hsel, Hfail. cbn [store logged].
    eexists. split; [reflexivity|]. cbn [store].
    split; [|split; [|repeat split]].
    + eapply (status_of_updated pid (payment_set_failed (Payments.mock_payment_method req)));
        [reflexivity|reflexivity|reflexivity|exact Hsingle].
    + intros t Ht Hid.
      cbn [payment_transactions with_payment_transactions with_payments] in Ht.
      apply update_where_others in Ht.
      destruct Ht as [(y & _ & _ & ->)|[_ E]]; [reflexivity|].
      apply Z.eqb_neq in E. congruence.
Qed.

Lemma mock_completion_refusal_and_failure_witness :
  let w := world_of (sample_ledger [sample_payment 7 None 100 "Pending" "balance"] []) in
  let req := {| Payments.req_success := Some false;
                Payments.req_payment_method := Some "gcash";
                Payments.req_completed_by := None |} in
  exists w',
    Payments.post_mock_complete offline_env 1000 7 req w
    = (Ok (res_json (Json_fields [("success", "false");
                                  ("message", "Mock payment failed")])), w') /\
    status_of 7 (store w') = Some "Failed" /\
    (forall t, In t (payment_transactions (store w')) -> ptx_payment_id t = 7 ->
               ptx_status t = "failed") /\
    accounts (store w') = accounts (store w) /\
    enrollment_fees (store w') = enrollment_fees (store w) /\
    payment_installments (store w') = payment_installments (store w) /\
    account_transactions (store w') = account_transactions (store w).
Proof.
  intros w req.
  exact (proj2 (proj2 (mock_completion_refusal_and_failure offline_env 1000 7 req w))
           (sample_payment 7 None 100 "Pending" "balance") (Some sample_account)
           eq_refl eq_refl eq_refl).
Defined.

(** ** Cancellation and the success redirect *)

Lemma payments_cancelled (pid : Z) (t : list Payment) :
  let t' := update_where (fun p => payment_id p =? pid) (payment_set_status "Cancelled") t in
  (forall p, In p t' -> payment_id p = pid -> pay_status p = "Cancelled") /\
  (forall p, In p t' -> payment_id p <> pid -> In p t) /\
  map payment_id t' = map payment_id t /\
  map pay_amount t' = map pay_amount t.
Proof.
  cbn zeta. split; [|split; [|split]].
  - intros p Hp Hid. apply update_where_others in Hp.
    destruct Hp as [(y & _ & _ & ->)|[_ E]]; [reflexivity|].
    apply Z.eqb_neq in E. congruence.
  - intros p Hp Hid. apply update_where_others in Hp.
    destruct Hp as [(y & _ & E & ->)|[Hp _]]; [|exact Hp].
    apply Z.eqb_eq in E. cbn in Hid. congruence.
  - unfold update_where. rewrite map_map. apply map_ext. intros a.
    destruct (payment_id a =? pid); reflexivity.
  - unfold update_where. rewrite map_map. apply map_ext. intros a.
    destruct (payment_id a =? pid); reflexivity.
Qed.

(** X20. The administrative cancel writes only for a pending payment: it sets
    that payment and its gateway transaction to cancelled, leaves every other
    payment and the whole ledger (balances, fees, installments, audit rows)
    as they were, and answers 200; an unknown payment id is answered 404
    without a write. *)
Theorem admin_cancel_of_pending_payment :
  forall (pid : Z) (w : World),
    (single (filter (fun p => payment_id p =? pid) (payments (store w))) = None ->
     Payments.post_cancel pid w = (Ok (res_error 404 "Payment not found"), w)) /\
    (forall payment,
        single (filter (fun p => payment_id p =? pid) (payments (store w))) = Some payment ->
        pay_status payment = "Pending" ->
        exists w',
          Payments.post_cancel pid w
          = (Ok (res_json (Json_fields [("success", "true");
                                        ("message", "Payment cancelled successfully")])),
             w') /\
          status_of pid (store w') = Some "Cancelled" /\
          (forall p, In p (payments (store w')) -> payment_id p <> pid ->
                     In p (payments (store w))) /\
          (forall t, In t (payment_transactions (store w')) -> ptx_payment_id t = pid ->
                     ptx_status t = "cancelled") /\
          accounts (store w') = accounts (store w) /\
          enrollment_fees (store w') = enrollment_fees (store w) /\
          payment_installments (store w') = payment_installments (store w) /\
          account_transactions (store w') = account_transactions (store w)).
Proof.
  intros pid w. split.
  - intros Hnone. unfold Payments.post_cancel, try_catch, bind, query, ret.
    rewrite Hnone. reflexivity.
  - intros payment Hfind Hst.
    unfold Payments.post_cancel, try_catch, bind, query, ret, exec.
    rewrite Hfind, Hst. cbn [String.eqb Ascii.eqb Bool.eqb negb store logged].
    eexists. split; [reflexivity|]. cbn [store].
    destruct (payments_cancelled pid (payments (store w))) as (_ & Hothers & _).
    split; [|split; [|split; [|repeat split]]].
    + eapply (status_of_updated pid (payment_set_status "Cancelled"));
        [reflexivity|reflexivity|reflexivity|exact Hfind].
    + intros p Hp Hne. apply Hothers; assumption.
    + intros t Ht Hid.
      cbn [payment_transactions with_payment_transactions with_payments] in Ht.
      apply update_where_others in Ht.
      destruct Ht as [(y & _ & _ & ->)|[_ E]]; [reflexivity|].
      apply Z.eqb_neq in E. congruence.
Qed.

Lemma admin_cancel_of_pending_payment_witness :
  let w := world_of (sample_ledger [sample_payment 7 None 100 "Pending" "balance";
                                    sample_payment 8 None 50 "Completed" "balance"] []) in
  exists w',
    Payments.post_cancel 7 w
    = (Ok (res_json (Json_fields [("success", "true");
                                  ("message", "Payment cancelled successfully")])), w') /\
    status_of 7 (store w') = Some "Cancelled" /\
    (forall p, In p (payments (store w')) -> payment_id p <> 7 ->
               In p (payments (store w))) /\
    (forall t, In t (payment_transactions (store w')) -> ptx_payment_id t = 7 ->
               ptx_status t = "cancelled") /\
    accounts (store w') = accounts (store w) /\
    enrollment_fees (store w') = enrollment_fees (store w) /\
    payment_installments (store w') = payment_installments (store w) /\
    account_transactions (store w') = account_transactions (store w).
Proof.
  intros w.
  exact (proj2 (admin_cancel_of_pending_payment 7 w)
           (sample_payment 7 None 100 "Pending" "balance") eq_refl eq_refl).
Defined.


(** X22. The success redirect of the billing router writes nothing when it
    cannot or need not complete: without a payment id it answers 400, for an
    unknown payment it redirects to the error page, and for a payment that is
    already completed it redirects to the success page without a stored
    procedure call. *)
Theorem success_redirect_without_completion :
  forall (ppt : Z -> Z -> option Z -> Q -> string -> Rpc unit)
         (env : Billing.Env) (w : World),
    Billing.get_payment_success ppt env None w
    = (Ok {| status_code := 400; body := Text "Missing payment_id" |}, w) /\
    (forall pid,
        single (filter (fun p => payment_id p =? pid) (payments (store w))) = None ->
        exists w', Billing.get_payment_success ppt env (Some pid) w
                   = (Ok (res_redirect (Billing.FRONTEND_URL env +++
                            "/student/payment?status=error&message=Payment not found")),
                      w') /\
                   store w' = store w) /\
    (forall pid payment,
        single (filter (fun p => payment_id p =? pid) (payments (store w))) = Some payment ->
        pay_status payment = "Completed" ->
        exists w', Billing.get_payment_success ppt env (Some pid) w
                   = (Ok (res_redirect (Billing.FRONTEND_URL env +++
                            "/payment.html?status=success&payment_id=" +++ toString pid)),
                      w') /\
                   store w' = store w).
Proof.
  intros ppt env w. split; [reflexivity|]. split.
  - intros pid Hnone. unfold Billing.get_payment_success, bind, logger, query, ret.
    cbn [store logged]. rewrite Hnone. eexists. split; reflexivity.
  - intros pid payment Hfind Hst.
    unfold Billing.get_payment_success, bind, logger, query, ret, try_catch, throw.
    cbn [store logged]. rewrite Hfind, Hst.
    cbn [String.eqb Ascii.eqb Bool.eqb store logged].
    rewrite (processPaymentCompletion_completed ppt pid payment _ Hst).
    eexists. split; reflexivity.
Qed.

Lemma success_redirect_without_completion_witness :
  let w := world_of (sample_ledger [sample_payment 7 None 100 "Completed" "balance"] []) in
  exists w', Billing.get_payment_success failing_transaction billing_env (Some 7) w
             = (Ok (res_redirect (Billing.FRONTEND_URL billing_env +++
                      "/payment.html?status=success&payment_id=" +++ toString 7)), w') /\
             store w' = store w.
Proof.
  intros w.
  exact (proj2 (proj2 (success_redirect_without_completion failing_transaction
                         billing_env w))
           7 (sample_payment 7 None 100 "Completed" "balance") eq_refl eq_refl).
Defined.

(** * The checkout of the payments router *)






Lemma filter_next_id_nil {A : Type} (key : A -> Z) (t : list A) :
  filter (fun r => key r =? next_id key t) t = [].
Proof.
  apply existsb_false_filter.
  destruct (existsb (fun r => key r =? next_id key t) t) eqn:E; [|reflexivity].
  apply existsb_exists in E. destruct E as [r [Hr He]].
  apply Z.eqb_eq in He. pose proof (next_id_above key t r Hr). lia.
Qed.


(** A request that is priced, for a student with one account. *)
Lemma payments_checkout_run
    (gw : Z -> string -> Z -> string -> Result (string * string))
    (recent : Z -> Store -> option Z) (env : Payments.Env) (base : option string)
    (now : Time) (req : PaymentsCheckout.Request) (w : World) (sid : Z)
    (account : Account) (amount : Q) (descr : string) :
  PaymentsCheckout.truthy_id (PaymentsCheckout.rq_student_id req) = Some sid ->
  filter (fun a => acc_student_id a =? sid) (accounts (store w)) = [account] ->
  PaymentsCheckout.amount_to_pay req sid (total_balance account) (store w)
  = inr (Some (amount, descr)) ->
  Qleb amount 0 = false ->
  exists r w',
    PaymentsCheckout.post_create_checkout gw recent env base now req w = (r, w') /\
    payments (store w')
    = payments (store w)
        ++ [PaymentsCheckout.new_payment (store w) now (account_id account) req amount
              (PaymentsCheckout.semester_for recent req sid (store w))] /\
    accounts (store w') = accounts (store w) /\
    payment_installments (store w') = payment_installments (store w) /\
    enrollment_fees (store w') = enrollment_fees (store w) /\
    (Payments.PAYMONGO_ENABLED env = false ->
     exists info, r = Ok (res_json (Json_checkout info)) /\
                  co_amount info = amount /\ co_is_mock info = true /\
                  co_payment_id info = next_id payment_id (payments (store w))).
Proof.
  intros Hsid Hacc Hamt Hpos.
  unfold PaymentsCheckout.post_create_checkout. rewrite Hsid.
  unfold PaymentsCheckout.get_or_create_account. eff. rewrite Hacc.
  cbn [maybeSingle_error maybeSingle]. eff. rewrite Hamt. eff. rewrite Hpos. eff.
  destruct (Payments.PAYMONGO_ENABLED env) eqn:Hen.
  - destruct (gw _ _ _ _) as [[cid url]|msg]; eff;
      do 2 eexists; (split; [reflexivity|]); cbn; repeat split; discriminate.
  - eff. do 2 eexists. split; [reflexivity|]. cbn. repeat split.
    intros _. eexists. split; [reflexivity|]. cbn. repeat split.
Qed.

Lemma Qleb_false_lt (a b : Q) : Qleb a b = false <-> (b < a)%Q.
Proof.
  unfold Qleb. split.
  - intros H. apply Qnot_le_lt. intros Hle. apply Qle_bool_iff in Hle. congruence.
  - intros H. destruct (Qle_bool a b) eqn:E; [|reflexivity].
    apply Qle_bool_iff in E. exfalso. exact (Qlt_not_le _ _ H E).
Qed.

Lemma balance_amount_bounds (custom : option Q) (b : Q) :
  (0 < b)%Q -> (0 < balance_amount custom b)%Q /\ (balance_amount custom b <= b)%Q.
Proof.
  intros Hb. unfold balance_amount. destruct custom as [c|].
  - destruct (Qltb 0 c) eqn:E.
    + unfold Qltb in E. apply negb_true_iff in E. apply Qleb_false_lt in E.
      split; [now apply Q.min_glb_lt | apply Q.le_min_r].
    + split; [exact Hb | apply Qle_refl].
  - split; [exact Hb | apply Qle_refl].
Qed.

(** X23. A balance checkout never asks for more than is owed. For a student
    with one account, a request of type [balance] is refused with 400 and
    without any write when the balance is not positive; otherwise it records
    one Pending payment on that account whose amount is the custom amount
    capped at the balance (the whole balance when no positive custom amount is
    sent), so positive and at most the balance -- whatever the gateway
    answers. *)
Theorem balance_checkout_charges_at_most_the_balance :
  forall (gw : Z -> string -> Z -> string -> Result (string * string))
         (recent : Z -> Store -> option Z) (env : Payments.Env) (base : option string)
         (now : Time) (req : PaymentsCheckout.Request) (w : World) (sid : Z)
         (account : Account),
    PaymentsCheckout.truthy_id (PaymentsCheckout.rq_student_id req) = Some sid ->
    PaymentsCheckout.rq_payment_type req = Some "balance" ->
    filter (fun a => acc_student_id a =? sid) (accounts (store w)) = [account] ->
    exists r w',
      PaymentsCheckout.post_create_checkout gw recent env base now req w = (r, w') /\
      ((total_balance account <= 0)%Q ->
       r = Ok (res_error 400 "No outstanding balance to pay") /\ store w' = store w) /\
      ((0 < total_balance account)%Q ->
       exists p,
         payments (store w') = payments (store w) ++ [p] /\
         pay_status p = "Pending" /\ payment_type p = "balance" /\
         pay_account_id p = account_id account /\
         pay_amount p
         = balance_amount (PaymentsCheckout.rq_custom_amount req) (total_balance account) /\
         (0 < pay_amount p)%Q /\ (pay_amount p <= total_balance account)%Q).
Proof.
  intros gw recent env base now req w sid account Hsid Hty Hacc.
  assert (Hpt : PaymentsCheckout.payment_type_of req = "balance").
  { unfold PaymentsCheckout.payment_type_of. now rewrite Hty. }
  destruct (Qleb (total_balance account) 0) eqn:Hb.
  - unfold PaymentsCheckout.post_create_checkout. rewrite Hsid.
    unfold PaymentsCheckout.get_or_create_account. eff. rewrite Hacc.
    cbn [maybeSingle_error maybeSingle]. eff.
    unfold PaymentsCheckout.amount_to_pay. rewrite Hpt.
    cbn [String.eqb Ascii.eqb Bool.eqb]. rewrite Hb.
    do 2 eexists. split; [reflexivity|]. split.
    + intros _. split; reflexivity.
    + intros Hpos. apply Qleb_false_lt in Hpos. congruence.
  - assert (Hpos : (0 < total_balance account)%Q) by now apply Qleb_false_lt.
    destruct (balance_amount_bounds (PaymentsCheckout.rq_custom_amount req) _ Hpos)
      as [Hlo Hhi].
    assert (Hamt : exists descr,
               PaymentsCheckout.amount_to_pay req sid (total_balance account) (store w)
               = inr (Some (balance_amount (PaymentsCheckout.rq_custom_amount req)
                              (total_balance account), descr))).
    { unfold PaymentsCheckout.amount_to_pay, balance_amount. rewrite Hpt.
      cbn [String.eqb Ascii.eqb Bool.eqb]. rewrite Hb.
      destruct (PaymentsCheckout.rq_custom_amount req) as [c|];
        [destruct (Qltb 0 c)|]; eexists; reflexivity. }
    destruct Hamt as [descr Hamt].
    destruct (payments_checkout_run gw recent env base now req w sid account _ descr
                Hsid Hacc Hamt (proj2 (Qleb_false_lt _ _) Hlo))
      as (r & w' & Hrun & Hpay & _).
    exists r, w'. split; [exact Hrun|]. split.
    + intros Hle. exfalso. exact (Qlt_not_le _ _ Hpos Hle).
    + intros _. eexists. split; [exact Hpay|].
      cbn [PaymentsCheckout.new_payment pay_status payment_type pay_account_id pay_amount].
      repeat split; assumption.
Qed.

Lemma balance_checkout_charges_at_most_the_balance_witness :
  let req := checkout_request 10 None "balance" (Some 800%Q) in
  let w := world_of (sample_ledger [] []) in
  exists r w',
    PaymentsCheckout.post_create_checkout checkout_gateway no_recent_semester
      offline_env None 1000 req w = (r, w') /\
    ((total_balance sample_account <= 0)%Q ->
     r = Ok (res_error 400 "No outstanding balance to pay") /\ store w' = store w) /\
    ((0 < total_balance sample_account)%Q ->
     exists p,
       payments (store w') = payments (store w) ++ [p] /\
       pay_status p = "Pending" /\ payment_type p = "balance" /\
       pay_account_id p = account_id sample_account /\
       pay_amount p = balance_amount (Some 800%Q) (total_balance sample_account) /\
       (0 < pay_amount p)%Q /\ (pay_amount p <= total_balance sample_account)%Q).
Proof.
  intros req w.
  apply (balance_checkout_charges_at_most_the_balance checkout_gateway no_recent_semester
           offline_env None 1000 req w 10 sample_account); reflexivity.
Defined.

(** X24. The checkout opens an account as a side effect, also when it then
    refuses the request. For a student without an account row the handler
    appends one account with balance 0, whatever the request goes on to do; a
    request of type [balance] is then answered 400 "No outstanding balance to
    pay" with no payment recorded, and the new account stays. *)
Theorem checkout_creates_missing_account :
  forall (gw : Z -> string -> Z -> string -> Result (string * string))
         (recent : Z -> Store -> option Z) (env : Payments.Env) (base : option string)
         (now : Time) (req : PaymentsCheckout.Request) (w : World) (sid : Z),
    PaymentsCheckout.truthy_id (PaymentsCheckout.rq_student_id req) = Some sid ->
    filter (fun a => acc_student_id a =? sid) (accounts (store w)) = [] ->
    exists r w',
      PaymentsCheckout.post_create_checkout gw recent env base now req w = (r, w') /\
      accounts (store w') = accounts (store w) ++ [created_account now sid (store w)] /\
      (PaymentsCheckout.rq_payment_type req = Some "balance" ->
       r = Ok (res_error 400 "No outstanding balance to pay") /\
       payments (store w') = payments (store w)).
Proof.
  intros gw recent env base now req w sid Hsid Hacc.
  unfold PaymentsCheckout.post_create_checkout. rewrite Hsid.
  unfold PaymentsCheckout.get_or_create_account. eff. rewrite Hacc.
  cbn [maybeSingle_error maybeSingle]. eff.
  fold (created_account now sid (store w)).
  set (s1 := with_accounts (store w) (accounts (store w) ++ [created_account now sid (store w)])).
  assert (Hbal : PaymentsCheckout.rq_payment_type req = Some "balance" ->
                 PaymentsCheckout.amount_to_pay req sid 0 s1
                 = inl (res_error 400 "No outstanding balance to pay")).
  { intros Hty. unfold PaymentsCheckout.amount_to_pay, PaymentsCheckout.payment_type_of.
    rewrite Hty. reflexivity. }
  destruct (PaymentsCheckout.amount_to_pay req sid 0 s1) as [early|[[amount descr]|]] eqn:Hamt.
  - eff. do 2 eexists. split; [reflexivity|]. split; [reflexivity|].
    intros Hty. specialize (Hbal Hty). injection Hbal as ->. split; reflexivity.
  - assert (Hnb : PaymentsCheckout.rq_payment_type req = Some "balance" -> False).
    { intros Hty. specialize (Hbal Hty). discriminate. }
    eff. destruct (Qleb amount 0).
    + eff. do 2 eexists. split; [reflexivity|]. split; [reflexivity|].
      intros Hty. destruct (Hnb Hty).
    + eff. destruct (Payments.PAYMONGO_ENABLED env).
      * destruct (gw _ _ _ _) as [[cid url]|msg]; eff;
          do 2 eexists; (split; [reflexivity|]); (split; [reflexivity|]);
          intros Hty; destruct (Hnb Hty).
      * eff. do 2 eexists. split; [reflexivity|]. split; [reflexivity|].
        intros Hty. destruct (Hnb Hty).
  - eff. do 2 eexists. split; [reflexivity|]. split; [reflexivity|].
    intros Hty. specialize (Hbal Hty). discriminate.
Qed.

Lemma checkout_creates_missing_account_witness :
  let req := checkout_request 11 None "balance" None in
  let w := world_of (sample_ledger [] []) in
  exists r w',
    PaymentsCheckout.post_create_checkout checkout_gateway no_recent_semester
      offline_env None 1000 req w = (r, w') /\
    accounts (store w') = accounts (store w) ++ [created_account 1000 11 (store w)] /\
    (PaymentsCheckout.rq_payment_type req = Some "balance" ->
     r = Ok (res_error 400 "No outstanding balance to pay") /\
     payments (store w') = payments (store w)).
Proof.
  intros req w.
  apply (checkout_creates_missing_account checkout_gateway no_recent_semester
           offline_env None 1000 req w 11); reflexivity.
Defined.




Lemma payments_checkout_refused
    (gw : Z -> string -> Z -> string -> Result (string * string))
    (recent : Z -> Store -> option Z) (env : Payments.Env) (base : option string)
    (now : Time) (req : PaymentsCheckout.Request) (w : World) (sid : Z)
    (account : Account) (early : Response) :
  PaymentsCheckout.truthy_id (PaymentsCheckout.rq_student_id req) = Some sid ->
  filter (fun a => acc_student_id a =? sid) (accounts (store w)) = [account] ->
  PaymentsCheckout.amount_to_pay req sid (total_balance account) (store w) = inl early \/
  (early = res_error 400 "Invalid payment amount" /\
   (PaymentsCheckout.amount_to_pay req sid (total_balance account) (store w) = inr None \/
    exists amount descr,
      PaymentsCheckout.amount_to_pay req sid (total_balance account) (store w)
      = inr (Some (amount, descr)) /\ Qleb amount 0 = true)) ->
  exists w',
    PaymentsCheckout.post_create_checkout gw recent env base now req w = (Ok early, w') /\
    store w' = store w.
Proof.
  intros Hsid Hacc Hcase.
  unfold PaymentsCheckout.post_create_checkout. rewrite Hsid.
  unfold PaymentsCheckout.get_or_create_account. eff. rewrite Hacc.
  cbn [maybeSingle_error maybeSingle]. eff.
  destruct Hcase as [Hamt | [-> [Hamt | (amount & descr & Hamt & Hle)]]]; rewrite Hamt; eff.
  - eexists. split; reflexivity.
  - eexists. split; reflexivity.
  - rewrite Hle. eff. eexists. split; reflexivity.
Qed.

(** X26. A checkout request that cannot be priced writes nothing. Without a
    student id the answer is 400 before any query. For a student with one
    account the answer is 400 and the store is unchanged when the payment type
    is none of [enrollment], [balance], [monthly] (the amount stays
    undefined), when an [enrollment] or [monthly] request carries no
    enrollment id, when an [enrollment] request finds no unpaid fee (the sum
    is 0), and when a [monthly] request finds no pending installment. *)
Theorem unpriced_checkout_writes_nothing :
  forall (gw : Z -> string -> Z -> string -> Result (string * string))
         (recent : Z -> Store -> option Z) (env : Payments.Env) (base : option string)
         (now : Time) (req : PaymentsCheckout.Request) (w : World),
  exists r w',
    PaymentsCheckout.post_create_checkout gw recent env base now req w = (r, w') /\
    (PaymentsCheckout.truthy_id (PaymentsCheckout.rq_student_id req) = None ->
     r = Ok (res_error 400 "Student ID is required") /\ w' = w) /\
    (forall sid account ty,
       PaymentsCheckout.truthy_id (PaymentsCheckout.rq_student_id req) = Some sid ->
       filter (fun a => acc_student_id a =? sid) (accounts (store w)) = [account] ->
       PaymentsCheckout.payment_type_of req = ty ->
       (ty <> "enrollment" -> ty <> "balance" -> ty <> "monthly" ->
        r = Ok (res_error 400 "Invalid payment amount") /\ store w' = store w) /\
       (ty = "enrollment" \/ ty = "monthly" ->
        PaymentsCheckout.truthy_id (PaymentsCheckout.rq_enrollment_id req) = None ->
        r = Ok (res_error 400 ("Enrollment ID is required for " +++ ty +++ " payments")) /\
        store w' = store w) /\
       (forall eid,
          ty = "enrollment" ->
          PaymentsCheckout.truthy_id (PaymentsCheckout.rq_enrollment_id req) = Some eid ->
          filter (fun f => Billing.fee_of_enrollment eid f && negb (is_paid f))
                 (enrollment_fees (store w)) = [] ->
          r = Ok (res_error 400 "Invalid payment amount") /\ store w' = store w) /\
       (forall eid,
          ty = "monthly" ->
          PaymentsCheckout.truthy_id (PaymentsCheckout.rq_enrollment_id req) = Some eid ->
          filter (pending_of eid) (payment_installments (store w)) = [] ->
          r = Ok (res_error 400 "No pending installments found") /\ store w' = store w)).
Proof.
  intros gw recent env base now req w.
  destruct (PaymentsCheckout.post_create_checkout gw recent env base now req w)
    as [r w'] eqn:Hrun.
  exists r, w'. split; [reflexivity|]. split.
  - intros Hsid. unfold PaymentsCheckout.post_create_checkout in Hrun.
    rewrite Hsid in Hrun. unfold try_catch, ret in Hrun.
    injection Hrun as <- <-. split; reflexivity.
  - intros sid account ty Hsid Hacc Hty.
    assert (Hgo : forall early,
               PaymentsCheckout.amount_to_pay req sid (total_balance account) (store w)
               = inl early \/
               (early = res_error 400 "Invalid payment amount" /\
                (PaymentsCheckout.amount_to_pay req sid (total_balance account) (store w)
                 = inr None \/
                 exists amount descr,
                   PaymentsCheckout.amount_to_pay req sid (total_balance account) (store w)
                   = inr (Some (amount, descr)) /\ Qleb amount 0 = true)) ->
               r = Ok early /\ store w' = store w).
    { intros early Hcase.
      destruct (payments_checkout_refused gw recent env base now req w sid account early
                  Hsid Hacc Hcase) as (w1 & Hrun1 & Hs1).
      rewrite Hrun1 in Hrun. injection Hrun as <- <-. now split. }
    split; [|split; [|split]].
    + intros He Hb Hm. apply Hgo. right. split; [reflexivity|]. left.
      unfold PaymentsCheckout.amount_to_pay. rewrite Hty.
      apply String.eqb_neq in He, Hb, Hm. now rewrite He, Hb, Hm.
    + intros Hcase Heid. apply Hgo. left.
      unfold PaymentsCheckout.amount_to_pay. rewrite Hty, Heid.
      destruct Hcase as [-> | ->]; reflexivity.
    + intros eid He Heid Hfees.
      apply (Hgo (res_error 400 "Invalid payment amount")). right.
      split; [reflexivity|]. right.
      unfold PaymentsCheckout.amount_to_pay. rewrite Hty, He.
      cbn [String.eqb Ascii.eqb Bool.eqb]. rewrite Heid, Hfees. cbn [fold_left].
      do 2 eexists. split; reflexivity.
    + intros eid He Heid Hnone.
      apply (Hgo (res_error 400 "No pending installments found")). left.
      unfold PaymentsCheckout.amount_to_pay. rewrite Hty, He.
      cbn [String.eqb Ascii.eqb Bool.eqb]. rewrite Heid.
      assert (Hnone' : filter (fun i => Billing.installment_of_enrollment eid i
                                        && Billing.is_pending i)
                              (payment_installments (store w)) = []) by exact Hnone.
      rewrite Hnone'. reflexivity.
Qed.

Lemma unpriced_checkout_writes_nothing_witness :
  let req := checkout_request 10 None "cash" None in
  let w := world_of (sample_ledger [] []) in
  exists r w',
    PaymentsCheckout.post_create_checkout checkout_gateway no_recent_semester
      offline_env None 1000 req w = (r, w') /\
    r = Ok (res_error 400 "Invalid payment amount") /\ store w' = store w.
Proof.
  intros req w.
  destruct (unpriced_checkout_writes_nothing checkout_gateway no_recent_semester
              offline_env None 1000 req w) as (r & w' & Hrun & _ & H).
  exists r, w'. split; [exact Hrun|].
  apply (proj1 (H 10 sample_account "cash" eq_refl eq_refl eq_refl)); discriminate.
Defined.

(** * The billing details of an enrollment *)

Section OrderFacts.
Context {A : Type}.
Variable key : A -> Z.

Lemma insert_by_head (x : A) (l : list A) :
  Forall (fun y => key x <= key y) l -> insert_by key x l = x :: l.
Proof.
  intros H. destruct l as [|a l]; [reflexivity|]. cbn.
  apply Forall_inv in H. apply Z.leb_le in H. now rewrite H.
Qed.



Lemma order_by_sorted_id (l : list A) :
  StronglySorted (fun a b => key a <= key b) l -> order_by key l = l.
Proof.
  induction 1 as [|a l Hs IH Hall]; [reflexivity|].
  change (order_by key (a :: l)) with (insert_by key a (order_by key l)).
  rewrite IH. now apply insert_by_head.
Qed.


End OrderFacts.




(** The details of an enrollment whose scheme is found. *)
Lemma get_billing_run (eid : Z) (w : World) (enrollment : Enrollment)
    (scheme : TuitionScheme) :
  single (filter (fun e => enrollment_id e =? eid) (enrollments (store w)))
    = Some enrollment ->
  Billing.scheme_of enrollment (store w) = Some scheme ->
  BillingDetails.get_billing eid w
  = (Ok (BillingDetails.Reply_details
           (BillingDetails.details eid enrollment scheme
              (filter (Billing.fee_of_enrollment eid) (enrollment_fees (store w)))
              (order_by installment_number
                 (filter (Billing.installment_of_enrollment eid)
                         (payment_installments (store w)))))), w).
Proof.
  intros Henr Hsch. unfold BillingDetails.get_billing. eff.
  rewrite Henr. eff. rewrite Hsch. reflexivity.
Qed.



Lemma installment_rows_sorted (am : Time -> Z -> Date) (now : Time) (eid : Z)
    (monthly : Q) (months first : Z) :
  StronglySorted (fun a b => installment_number a <= installment_number b)
    (Billing.installment_rows am now eid monthly months first).
Proof.
  unfold Billing.installment_rows.
  generalize (Z.to_nat months). generalize 1%nat. intros a n. revert a.
  induction n as [|n IH]; intros a; cbn [seq map]; constructor.
  - apply IH.
  - apply Forall_forall. intros r Hr. apply in_map_iff in Hr.
    destruct Hr as [k [<- Hk]]. apply in_seq in Hk. cbn. lia.
Qed.

(** X28. The details of a billing that was just generated. After a successful
    generation for an installment scheme (the account initialisation leaving
    the other tables alone), the details of the enrollment list the one
    downpayment fee and the generated installments, report nothing paid and
    the downpayment "Unpaid". The counts follow two different defaults:
    with [months = N >= 1] they are N pending of N and 0 paid, with the first
    installment next due; with [months] missing or 0 the generation creates 4
    installments while the details count a total of 0, so they report 4
    pending of 0 and -4 paid. *)
Theorem billing_details_after_generation :
  forall (iab : Z -> string -> Z -> Q -> Rpc Z) (add_months : Time -> Z -> Date)
         (now : Time) (eid : Z) (cb : option Z) (w : World)
         (enrollment : Enrollment) (scheme : TuitionScheme) (aid : Z) (s1 : Store),
    single (filter (fun e => enrollment_id e =? eid) (enrollments (store w)))
      = Some enrollment ->
    Billing.scheme_of enrollment (store w) = Some scheme ->
    billing_exists eid (store w) = false ->
    Qleb (Billing.totalAmount scheme) 0 = false ->
    iab eid (scheme_name scheme) (enr_student_id enrollment)
        (Billing.totalAmount scheme) (store w) = (Ok aid, s1) ->
    scheme_type scheme = "installment" ->
    enrollments s1 = enrollments (store w) ->
    tuition_schemes s1 = tuition_schemes (store w) ->
    enrollment_fees s1 = enrollment_fees (store w) ->
    payment_installments s1 = payment_installments (store w) ->
    exists plan w' d sm,
      Billing.generateBilling iab add_months now Billing.no_faults eid cb w
      = (Ok plan, w') /\
      BillingDetails.get_billing eid w' = (Ok (BillingDetails.Reply_details d), w') /\
      BillingDetails.bd_installment_summary d = Some sm /\
      BillingDetails.bd_fees d = [downpayment_fee_row eid scheme s1] /\
      BillingDetails.bd_installments d = Some (bp_installments plan) /\
      (BillingDetails.bd_total_paid d == 0)%Q /\
      BillingDetails.downpayment_status sm = "Unpaid" /\
      BillingDetails.pending_installments_count sm
      = Z.of_nat (List.length (bp_installments plan)) /\
      (scheme_months scheme = None \/ scheme_months scheme = Some 0 ->
       BillingDetails.pending_installments_count sm = 4 /\
       BillingDetails.total_installments_count sm = 0 /\
       BillingDetails.paid_installments_count sm = -4) /\
      (forall N, scheme_months scheme = Some N -> 1 <= N ->
       BillingDetails.pending_installments_count sm = N /\
       BillingDetails.total_installments_count sm = N /\
       BillingDetails.paid_installments_count sm = 0 /\
       BillingDetails.next_due_date sm = Some (add_months now 1) /\
       BillingDetails.next_due_amount sm
       = Some (parseFloat_or0 (scheme_monthly_payment scheme))).
Proof.
  intros iab add_months now eid cb w enrollment scheme aid s1
         Henr Hsch Hex Htot Hrpc Hty Hkeep_e Hkeep_t Hkeep_f Hkeep_i.
  pose proof (generateBilling_installment_run iab add_months now eid cb w enrollment
                scheme aid s1 Henr Hsch Hex Htot Hrpc Hty) as Hrun.
  cbv zeta in Hrun.
  destruct (billing_exists_false _ _ Hex) as [Hnofee Hnoinst].
  set (rows := Billing.installment_rows add_months now eid
                 (parseFloat_or0 (scheme_monthly_payment scheme))
                 (parseInt_or (scheme_months scheme) 4)
                 (next_id installment_id (payment_installments s1))) in *.
  set (fee := downpayment_fee_row eid scheme s1) in *.
  match type of Hrun with _ = (_, ?W) => set (w' := W) in * end.
  assert (Hrow : forall r, In r rows ->
                   inst_enrollment_id r = eid /\ inst_status r = "pending").
  { intros r Hr. destruct (installment_rows_row _ _ _ _ _ _ _ Hr) as (H1 & H2 & _).
    now split. }
  assert (Hfees : filter (Billing.fee_of_enrollment eid) (enrollment_fees (store w'))
                  = [fee]).
  { cbn. rewrite filter_app, Hkeep_f, Hnofee. cbn.
    unfold Billing.fee_of_enrollment at 1. cbn. now rewrite Z.eqb_refl. }
  assert (Hinsts : order_by installment_number
                     (filter (Billing.installment_of_enrollment eid)
                             (payment_installments (store w'))) = rows).
  { cbn. rewrite filter_app, Hkeep_i, Hnoinst. cbn [app].
    rewrite filter_all.
    - apply order_by_sorted_id. apply installment_rows_sorted.
    - intros r Hr. destruct (Hrow r Hr) as [He _].
      unfold Billing.installment_of_enrollment. rewrite He. apply Z.eqb_refl. }
  assert (Hpending : filter Billing.is_pending rows = rows).
  { apply filter_all. intros r Hr. destruct (Hrow r Hr) as [_ Hst].
    unfold Billing.is_pending. now rewrite Hst. }
  assert (Hnopaid : filter BillingDetails.is_paid_installment rows = []).
  { apply existsb_false_filter.
    destruct (existsb BillingDetails.is_paid_installment rows) eqn:E; [|reflexivity].
    apply existsb_exists in E. destruct E as [r [Hr Hp]].
    destruct (Hrow r Hr) as [_ Hst].
    unfold BillingDetails.is_paid_installment in Hp. rewrite Hst in Hp. discriminate. }
  assert (Henr' : single (filter (fun e => enrollment_id e =? eid)
                                 (enrollments (store w'))) = Some enrollment).
  { cbn. now rewrite Hkeep_e. }
  assert (Hsch' : Billing.scheme_of enrollment (store w') = Some scheme).
  { unfold Billing.scheme_of in *. cbn. now rewrite Hkeep_t. }
  eexists. exists w'. do 2 eexists. split; [exact Hrun|].
  split.
  { rewrite (get_billing_run eid w' enrollment scheme Henr' Hsch').
    rewrite Hfees, Hinsts. reflexivity. }
  unfold BillingDetails.details. rewrite Hty. cbn [String.eqb Ascii.eqb Bool.eqb].
  cbn [BillingDetails.bd_installment_summary BillingDetails.bd_fees
       BillingDetails.bd_installments BillingDetails.bd_total_paid bp_installments].
  split; [reflexivity|]. split; [reflexivity|]. split; [reflexivity|].
  cbn [BillingDetails.downpayment_status BillingDetails.pending_installments_count
       BillingDetails.total_installments_count BillingDetails.paid_installments_count
       BillingDetails.next_due_date BillingDetails.next_due_amount].
  rewrite Hpending, Hnopaid.
  split; [reflexivity|]. split; [reflexivity|]. split; [reflexivity|].
  split.
  - intros Hm. unfold rows. rewrite installment_rows_length.
    destruct Hm as [-> | ->]; cbn; repeat split.
  - intros N HmN HN. unfold rows. rewrite installment_rows_length, HmN.
    assert (Hn4 : parseInt_or (Some N) 4 = N)
      by (cbn; destruct (Z.eqb_spec N 0); [lia|reflexivity]).
    assert (Hn0 : parseInt_or (Some N) 0 = N)
      by (cbn; destruct (Z.eqb_spec N 0); [lia|reflexivity]).
    rewrite Hn4, Hn0. split; [lia|]. split; [reflexivity|]. split; [lia|].
    unfold Billing.installment_rows.
    destruct (Z.to_nat N) as [|n] eqn:En; [lia|].
    cbn [seq map find Billing.is_pending inst_status String.eqb Ascii.eqb Bool.eqb
         option_map due_date inst_amount Z.of_nat].
    split; reflexivity.
Qed.

Lemma billing_details_after_generation_witness :
  let scheme := sample_scheme "installment" (Some 1000%Q) (Some 2000%Q) None in
  exists plan w' d sm,
    Billing.generateBilling (initialize_account_balance_spec 1000) add_months_30 1000
      Billing.no_faults 5 (Some 99) (world_of (billing_store scheme))
    = (Ok plan, w') /\
    BillingDetails.get_billing 5 w' = (Ok (BillingDetails.Reply_details d), w') /\
    BillingDetails.bd_installment_summary d = Some sm /\
    BillingDetails.pending_installments_count sm = 4 /\
    BillingDetails.total_installments_count sm = 0 /\
    BillingDetails.paid_installments_count sm = -4.
Proof.
  intros scheme.
  destruct (billing_details_after_generation (initialize_account_balance_spec 1000)
              add_months_30 1000 5 (Some 99) (world_of (billing_store scheme))
              sample_enrollment scheme 1
              (snd (initialize_account_balance_spec 1000 5 "Plan A" 10
                      (Billing.totalAmount scheme) (billing_store scheme)))
              eq_refl eq_refl eq_refl eq_refl eq_refl eq_refl
              eq_refl eq_refl eq_refl eq_refl)
    as (plan & w' & d & sm & Hrun & Hget & Hsm & _ & _ & _ & _ & _ & Hmiss & _).
  exists plan, w', d, sm. repeat split; try assumption; apply Hmiss; now left.
Defined.

(** * A balance checkout and its completion *)

Lemma completed_store_accounts_balance (now : Time) (pid : Z) (ref meth : string)
    (payment : Payment) (account : Account) (descr : string) (actor : option Z)
    (s : Store) :
  payment_type payment = "balance" ->
  accounts (completed_store now pid ref meth payment account descr actor s)
  = update_where (fun a => account_id a =? account_id account)
      (account_set_balance now (Math_max0 (total_balance account - pay_amount payment)))
      (accounts s).
Proof.
  intros Hty.
  unfold completed_store, settled_store, Payments.apply_payment_type, Payments.is_type,
    bind, exec, ret.
  rewrite Hty. reflexivity.
Qed.

(** X29. A balance checkout followed by its completion lowers the balance by
    exactly what was charged. With one account for the student (its id being
    the key of the accounts table) and a positive balance, the offline
    [balance] checkout and the mock completion of the payment it recorded
    leave the account with the old balance minus the charged amount: the floor
    at zero never cuts anything off, and the balance is 0 when no custom
    amount was sent. *)
Theorem balance_checkout_then_completion :
  forall (gw : Z -> string -> Z -> string -> Result (string * string))
         (recent : Z -> Store -> option Z) (env : Payments.Env) (base : option string)
         (now now' : Time) (req : PaymentsCheckout.Request) (mreq : Payments.MockRequest)
         (w : World) (sid : Z) (account : Account),
    Payments.PAYMONGO_ENABLED env = false ->
    Payments.mock_success mreq = true ->
    PaymentsCheckout.truthy_id (PaymentsCheckout.rq_student_id req) = Some sid ->
    PaymentsCheckout.rq_payment_type req = Some "balance" ->
    filter (fun a => acc_student_id a =? sid) (accounts (store w)) = [account] ->
    find (fun a => account_id a =? account_id account) (accounts (store w))
      = Some account ->
    (0 < total_balance account)%Q ->
    let pid := next_id payment_id (payments (store w)) in
    let charged :=
      balance_amount (PaymentsCheckout.rq_custom_amount req) (total_balance account) in
    let w1 := snd (PaymentsCheckout.post_create_checkout gw recent env base now req w) in
    let w2 := snd (Payments.post_mock_complete env now' pid mreq w1) in
    exists new_balance,
      balance_of (account_id account) (store w2) = Some new_balance /\
      (new_balance == total_balance account - charged)%Q /\
      (0 <= new_balance)%Q /\
      (PaymentsCheckout.rq_custom_amount req = None -> new_balance = 0%Q).
Proof.
  intros gw recent env base now now' req mreq w sid account
         Hoff Hsucc Hsid Hty Hacc Hkey Hpos pid charged w1 w2.
  destruct (balance_amount_bounds (PaymentsCheckout.rq_custom_amount req) _ Hpos)
    as [Hlo Hhi]. fold charged in Hlo, Hhi.
  assert (Hpt : PaymentsCheckout.payment_type_of req = "balance").
  { unfold PaymentsCheckout.payment_type_of. now rewrite Hty. }
  assert (Hamt : exists descr,
             PaymentsCheckout.amount_to_pay req sid (total_balance account) (store w)
             = inr (Some (charged, descr))).
  { unfold PaymentsCheckout.amount_to_pay, charged, balance_amount. rewrite Hpt.
    cbn [String.eqb Ascii.eqb Bool.eqb].
    rewrite (proj2 (Qleb_false_lt _ _) Hpos).
    destruct (PaymentsCheckout.rq_custom_amount req) as [c|];
      [destruct (Qltb 0 c)|]; eexists; reflexivity. }
  destruct Hamt as [descr Hamt].
  destruct (payments_checkout_run gw recent env base now req w sid account _ descr
              Hsid Hacc Hamt (proj2 (Qleb_false_lt _ _) Hlo))
    as (r & w' & Hrun & Hpay & Haccs & _).
  assert (Hw1 : w1 = w') by (unfold w1; now rewrite Hrun).
  set (p := PaymentsCheckout.new_payment (store w) now (account_id account) req
              charged (PaymentsCheckout.semester_for recent req sid (store w))) in *.
  assert (Hsel : Payments.select_payment_with_account pid (store w1)
                 = Some (p, Some account)).
  { unfold Payments.select_payment_with_account. rewrite Hw1, Hpay, Haccs.
    rewrite filter_app. unfold pid. rewrite filter_next_id_nil.
    cbn [filter app PaymentsCheckout.new_payment p payment_id]. rewrite Z.eqb_refl.
    cbn [single].
    change (pay_account_id p) with (account_id account). now rewrite Hkey. }
  destruct (post_mock_complete_run env now' pid mreq w1 p account Hoff Hsucc Hsel)
    as (w2' & Hrun2 & Hs2).
  assert (Hw2 : w2 = w2') by (unfold w2; now rewrite Hrun2).
  assert (Hpty : payment_type p = "balance") by exact Hpt.
  exists (Math_max0 (total_balance account - charged)).
  split; [|split; [|split]].
  - rewrite Hw2, Hs2.
    apply (balance_of_update (account_id account) now' _ _ (accounts (store w)) account);
      [|exact Hkey].
    rewrite (completed_store_accounts_balance _ _ _ _ _ _ _ _ _ Hpty).
    rewrite Hw1, Haccs. reflexivity.
  - unfold Math_max0. apply Q.max_r.
    apply Qle_minus_iff in Hhi. exact Hhi.
  - apply Math_max0_nonneg.
  - intros Hnone. apply Math_max0_floor. unfold charged, balance_amount.
    rewrite Hnone. setoid_replace (total_balance account - total_balance account)%Q
      with 0%Q by ring. apply Qle_refl.
Qed.

Lemma balance_checkout_then_completion_witness :
  let req := checkout_request 10 None "balance" (Some 200%Q) in
  let w := world_of (sample_ledger [] []) in
  let pid := next_id payment_id (payments (store w)) in
  let charged := balance_amount (Some 200%Q) (total_balance sample_account) in
  let w1 := snd (PaymentsCheckout.post_create_checkout checkout_gateway
                   no_recent_semester offline_env None 1000 req w) in
  let w2 := snd (Payments.post_mock_complete offline_env 2000 pid default_mock w1) in
  exists new_balance,
    balance_of (account_id sample_account) (store w2) = Some new_balance /\
    (new_balance == total_balance sample_account - charged)%Q /\
    (0 <= new_balance)%Q /\
    (PaymentsCheckout.rq_custom_amount req = None -> new_balance = 0%Q).
Proof.
  intros req w.
  apply (balance_checkout_then_completion checkout_gateway no_recent_semester
           offline_env None 1000 2000 req default_mock w 10 sample_account);
    reflexivity.
Defined.
